(** * Payment instruction parser: a shallow embedding and its properties

    The development follows the service module of the payment instruction
    parser (parseInstruction, validateAmount, validateDate, isFutureDate,
    findAccount, getAccountsInOrder, parseInstructionService) and the
    message catalogue [PaymentMessages].

    Modelling conventions.
    - A JavaScript string is a [string] of code units below 256.  On the
      code units below 128 ([JS.isAscii]) the case maps and [trim] are those
      of JavaScript: the letters A-Z and a-z are exchanged, the white space
      is TAB, LF, VT, FF, CR and SPACE.  What JavaScript does to other
      characters (a sharp s becomes SS in capitals, U+00A0 is trimmed) is
      not modelled, and the properties that depend on the case maps are
      stated for ASCII text.
    - Positions are [Z], as [indexOf] answers [-1] for an absent pattern.
    - A number is an IEEE double, given by its exact value: a [Z] where the
      code has an integer, a rational [Q] for a balance, [2^1024] standing
      for Infinity.  Where the code computes a number (parseInt, the new
      balances) the exact result is rounded to the nearest double, ties to
      even ([JS.round], [JS.toNumber]); [toString] writes the shortest
      decimal that reads back as the double, in exponent form from 1e21 on.
    - [null] is [None]; the clock and the Date constructor used by
      isFutureDate are gathered in a [Clock] record given to the service;
      [JSDate.clock] is that record for a host at a fixed offset from UTC. *)

From Stdlib Require Import ZArith QArith Qround Qreduction Qpower.
From Stdlib Require Import Bool List Ascii String Lia.
From Stdlib Require Import Decimal DecimalString DecimalPos.
Import ListNotations.

Local Open Scope string_scope.
Local Open Scope Z_scope.

(** ** JavaScript string primitives *)

Module JS.

Definition code (c : ascii) : Z := Z.of_nat (nat_of_ascii c).

Definition isWhiteSpace (c : ascii) : bool :=
  ((9 <=? code c) && (code c <=? 13)) || (code c =? 32).

Definition isUpper (c : ascii) : bool := (65 <=? code c) && (code c <=? 90).
Definition isLower (c : ascii) : bool := (97 <=? code c) && (code c <=? 122).
Definition isDigit (c : ascii) : bool := (48 <=? code c) && (code c <=? 57).

Definition lowerChar (c : ascii) : ascii :=
  if isUpper c then ascii_of_nat (nat_of_ascii c + 32) else c.
Definition upperChar (c : ascii) : ascii :=
  if isLower c then ascii_of_nat (nat_of_ascii c - 32) else c.

Fixpoint mapString (f : ascii -> ascii) (s : string) : string :=
  match s with
  | EmptyString => EmptyString
  | String c r => String (f c) (mapString f r)
  end.

(** [s.toLowerCase()], [s.toUpperCase()] *)
Definition toLowerCase (s : string) : string := mapString lowerChar s.
Definition toUpperCase (s : string) : string := mapString upperChar s.

Fixpoint trimStart (s : string) : string :=
  match s with
  | EmptyString => EmptyString
  | String c r => if isWhiteSpace c then trimStart r else s
  end.

(** Removes the white space at the end: a character is kept when
    something is kept after it or it is not white space itself. *)
Fixpoint trimEnd (s : string) : string :=
  match s with
  | EmptyString => EmptyString
  | String c r =>
      match trimEnd r with
      | EmptyString => if isWhiteSpace c then EmptyString else String c EmptyString
      | r' => String c r'
      end
  end.

(** [s.trim()] *)
Definition trim (s : string) : string := trimEnd (trimStart s).

(** [s.length] *)
Definition len (s : string) : Z := Z.of_nat (String.length s).

(** [s.startsWith(p)] *)
Definition startsWith (s p : string) : bool := String.prefix p s.

Fixpoint indexOfFrom (s p : string) (i : Z) : Z :=
  if String.prefix p s then i
  else match s with
       | EmptyString => -1
       | String _ r => indexOfFrom r p (i + 1)
       end.

(** [s.indexOf(p)]: the position of the first occurrence, or [-1]. *)
Definition indexOf (s p : string) : Z := indexOfFrom s p 0.

Definition clamp (s : string) (i : Z) : Z := Z.min (Z.max i 0) (len s).

(** [s.substring(a, b)]: both ends are clamped to [0, s.length] and
    exchanged when the first is the larger. *)
Definition substring (s : string) (a b : Z) : string :=
  let a' := clamp s a in
  let b' := clamp s b in
  let lo := Z.min a' b' in
  let hi := Z.max a' b' in
  String.substring (Z.to_nat lo) (Z.to_nat (hi - lo)) s.

(** [s.substring(a)] *)
Definition substringFrom (s : string) (a : Z) : string := substring s a (len s).

(** [s.charAt(i)]: a string of one code unit, or the empty string. *)
Definition charAt (s : string) (i : Z) : string :=
  if (0 <=? i) && (i <? len s) then String.substring (Z.to_nat i) 1 s
  else EmptyString.

(** [s.split(' ')]: the pieces between single spaces; never empty. *)
Fixpoint split (s : string) : list string :=
  match s with
  | EmptyString => [EmptyString]
  | String c r =>
      if Ascii.eqb c " "%char then EmptyString :: split r
      else match split r with
           | h :: t => String c h :: t
           | [] => [String c EmptyString]
           end
  end.

Fixpoint digitsPrefix (s : string) : list Z :=
  match s with
  | EmptyString => []
  | String c r => if isDigit c then (code c - 48) :: digitsPrefix r else []
  end.

Definition valueOfDigits (ds : list Z) : Z :=
  fold_left (fun acc d => 10 * acc + d) ds 0.

(** [2^e] *)
Definition pow2 (e : Z) : Q := Qpower 2 e.

(** The double nearest to a positive rational, ties to the even
    significand: 53 bits of significand, the exponent of the last place at
    least -1074; from [2^1024 - 2^970] on the result is [2^1024], which
    stands for Infinity. *)
Definition roundPositive (q : Q) : Q :=
  let l := Z.log2 (Qnum q) - Z.log2 (Zpos (Qden q)) in
  let l := if Qle_bool (pow2 l) q then l else l - 1 in
  let e := Z.max (l - 52) (-1074) in
  let scaled := (q / pow2 e)%Q in
  let m := Qfloor scaled in
  let m' :=
    match (scaled - inject_Z m ?= 1 # 2)%Q with
    | Lt => m
    | Gt => m + 1
    | Eq => if Z.even m then m else m + 1
    end in
  let r := Qred (inject_Z m' * pow2 e) in
  if Qle_bool (pow2 1024) r then pow2 1024 else r.

(** The double that an operation with the exact result [q] yields. *)
Definition round (q : Q) : Q :=
  match Qnum q with
  | Z0 => 0%Q
  | Zpos _ => roundPositive q
  | Zneg _ => (- roundPositive (- q))%Q
  end.

(** The double nearest to an integer, itself an integer. *)
Definition toNumber (z : Z) : Z := Qfloor (round (inject_Z z)).

(** [parseInt(s, 10)]: leading white space is skipped, one sign is read,
    then the longest run of decimal digits, whose value is rounded to a
    double; [None] is NaN. *)
Definition parseInt (s : string) : option Z :=
  let t := trimStart s in
  let '(sign, body) :=
    match t with
    | String "-"%char r => (-1, r)
    | String "+"%char r => (1, r)
    | _ => (1, t)
    end in
  match digitsPrefix body with
  | [] => None
  | ds => Some (sign * toNumber (valueOfDigits ds))
  end.

(** The decimal digits of an integer. *)
Definition decimal (z : Z) : string := NilZero.string_of_int (Z.to_int z).

Fixpoint zeros (n : nat) : string :=
  match n with
  | O => EmptyString
  | S n' => String "0" (zeros n')
  end.

(** The [k]-digit integer [s] for which [s * 10^(d-k)] is read as the
    double [x] of [d] digits, the one nearest to [x] when there are two. *)
Definition digitsAt (x d k : Z) : option Z :=
  if d <? k then None
  else
    let scale := 10 ^ (d - k) in
    let lo := x / scale in
    let hi := lo + 1 in
    let okLo := toNumber (lo * scale) =? x in
    let okHi := (hi <? 10 ^ k) && (toNumber (hi * scale) =? x) in
    if okLo && okHi then
      let below := x - lo * scale in
      let above := hi * scale - x in
      if below <? above then Some lo
      else if above <? below then Some hi
      else if Z.even lo then Some lo else Some hi
    else if okLo then Some lo
    else if okHi then Some hi
    else None.

(** The first length in [ks] at which [digitsAt] finds digits. *)
Fixpoint shortest (x d : Z) (ks : list Z) : option (Z * Z) :=
  match ks with
  | [] => None
  | k :: later =>
      match digitsAt x d k with
      | Some s => Some (s, k)
      | None => shortest x d later
      end
  end.

(** [x.toString()] of a positive double with an integer value: the
    fewest digits [s] and the exponent [n] with [s * 10^(n-k)] read as
    [x]; written in full when [n <= 21], in exponent form otherwise. *)
Definition toStringPositive (x : Z) : string :=
  if 2 ^ 1024 <=? x then "Infinity"
  else
    let d := len (decimal x) in
    let '(s, k, n) :=
      if toNumber (10 ^ d) =? x then (1, 1, d + 1)
      else
        match shortest x d
                [1; 2; 3; 4; 5; 6; 7; 8; 9; 10; 11; 12; 13; 14; 15; 16; 17] with
        | Some (s, k) => (s, k, d)
        | None => (x, d, d)
        end in
    if n <=? 21 then decimal s ++ zeros (Z.to_nat (n - k))
    else
      match decimal s with
      | String c EmptyString => String c ("e+" ++ decimal (n - 1))
      | String c r => String c ("." ++ r ++ "e+" ++ decimal (n - 1))
      | EmptyString => EmptyString
      end.

(** [n.toString()] of a double with an integer value; an integer that is
    no double is written as the double nearest to it. *)
Definition toString (n : Z) : string :=
  match toNumber n with
  | Z0 => "0"
  | Zpos p => toStringPositive (Zpos p)
  | Zneg p => "-" ++ toStringPositive (Zpos p)
  end.

(** Whether every code unit of [s] is below 128. *)
Fixpoint isAscii (s : string) : bool :=
  match s with
  | EmptyString => true
  | String c r => (code c <? 128) && isAscii r
  end.

(** Whether the character [c] occurs in [s]. *)
Fixpoint contains (c : ascii) (s : string) : bool :=
  match s with
  | EmptyString => false
  | String d r => Ascii.eqb c d || contains c r
  end.

End JS.

(** ** Data model *)

Inductive InstructionType := DEBIT | CREDIT.

Inductive Status := failed | pending | successful.

Inductive StatusCode :=
  SY01 | SY02 | SY03 | AM01 | CU01 | CU02 | AC01 | AC02 | AC03 | AP00 | AP01.

(** The codes parseInstruction puts in [parseError]. *)
Inductive SyntaxError := MissingKeywords | InvalidKeywordOrder | Malformed.

Definition codeOfSyntaxError (e : SyntaxError) : StatusCode :=
  match e with
  | MissingKeywords => SY01
  | InvalidKeywordOrder => SY02
  | Malformed => SY03
  end.

(** The record parseInstruction returns when [parseError] is null. *)
Module Parsed.
Record t := make {
  type : InstructionType;
  amount : string;
  currency : string;
  debit_account : string;
  credit_account : string;
  execute_by : option string
}.
End Parsed.

(** The result of parseInstruction: either the record whose fields are all
    null but [parseError], or the record of the tokens with [parseError]
    null.  The service looks at [parseError] first and reads the tokens only
    when it is null. *)
Inductive ParseResult :=
| ParseFailure (parseError : SyntaxError)
| ParseSuccess (parsed : Parsed.t).

Module Account.
Record t := make { id : string; balance : Q; currency : string }.
End Account.

Module AccountView.
Record t := make {
  id : string;
  balance : Q;
  balance_before : Q;
  currency : string
}.
End AccountView.

Module Response.
Record t := make {
  type : option InstructionType;
  amount : option Z;
  currency : option string;
  debit_account : option string;
  credit_account : option string;
  execute_by : option string;
  status : Status;
  status_reason : string;
  status_code : StatusCode;
  accounts : list AccountView.t
}.
End Response.

(** The validated request: [{ accounts, instruction }]. *)
Module ServiceData.
Record t := make { accounts : list Account.t; instruction : string }.
End ServiceData.

(** What isFutureDate reads from its environment: [dateAtMidnight s] is the
    time value of [new Date(s)] after [setHours(0, 0, 0, 0)], [None] for an
    Invalid Date; [todayAtMidnight] is that of [new Date()]. *)
Record Clock := {
  dateAtMidnight : string -> option Z;
  todayAtMidnight : Z
}.

Module PaymentMessages.
Definition TRANSACTION_SUCCESSFUL := "Transaction executed successfully".
Definition TRANSACTION_PENDING := "Transaction scheduled for future execution".
Definition INVALID_AMOUNT := "Invalid amount. Amount must be a positive integer".
Definition CURRENCY_MISMATCH :=
  "Account currency mismatch. Both accounts must have the same currency".
Definition UNSUPPORTED_CURRENCY :=
  "Unsupported currency. Only NGN, USD, GBP, and GHS are supported".
Definition INSUFFICIENT_FUNDS := "Insufficient funds in debit account".
Definition SAME_ACCOUNT_ERROR := "Debit and credit accounts cannot be the same".
Definition ACCOUNT_NOT_FOUND := "Account not found".
Definition MISSING_KEYWORDS := "Missing required keywords".
Definition INVALID_KEYWORD_ORDER := "Invalid keyword order".
Definition MALFORMED_INSTRUCTION := "Malformed instruction: unable to parse keywords".
End PaymentMessages.

Definition SUPPORTED_CURRENCIES : list string := ["NGN"; "USD"; "GBP"; "GHS"].

(** ** The keyword scanner *)

(** [executeBy || null] *)
Definition orNull (s : option string) : option string :=
  match s with
  | Some EmptyString => None
  | _ => s
  end.

Definition parseInstruction (instruction : string) : ParseResult :=
  let normalized := JS.trim (JS.toLowerCase instruction) in
  let isDebitFormat := JS.startsWith normalized "debit" in
  let isCreditFormat := JS.startsWith normalized "credit" in
  if negb isDebitFormat && negb isCreditFormat then ParseFailure Malformed
  else if isDebitFormat then
    let debitPos := JS.indexOf normalized "debit" in
    let fromAccountPos := JS.indexOf normalized "from account" in
    let forCreditPos := JS.indexOf normalized "for credit to account" in
    let onPos := JS.indexOf normalized " on " in
    if (fromAccountPos =? -1) || (forCreditPos =? -1) then
      ParseFailure MissingKeywords
    else if (debitPos >=? fromAccountPos) || (fromAccountPos >=? forCreditPos) then
      ParseFailure InvalidKeywordOrder
    else
      let amountCurrencyPart :=
        JS.trim (JS.substring normalized (debitPos + 5) fromAccountPos) in
      let parts := JS.split amountCurrencyPart in
      if Z.of_nat (List.length parts) <? 2 then ParseFailure Malformed
      else
        let amount := JS.trim (nth 0 parts "") in
        let currency := JS.toUpperCase (JS.trim (nth 1 parts "")) in
        let debitAccount :=
          JS.trim (JS.substring normalized (fromAccountPos + 12) forCreditPos) in
        let creditAccountEnd :=
          if negb (onPos =? -1) then onPos else JS.len normalized in
        let creditAccount :=
          JS.trim (JS.substring normalized (forCreditPos + 21) creditAccountEnd) in
        let executeBy :=
          if negb (onPos =? -1)
          then Some (JS.trim (JS.substringFrom normalized (onPos + 4)))
          else None in
        ParseSuccess
          (Parsed.make DEBIT amount currency debitAccount creditAccount
             (orNull executeBy))
  else
    let creditPos := JS.indexOf normalized "credit" in
    let toAccountPos := JS.indexOf normalized "to account" in
    let forDebitPos := JS.indexOf normalized "for debit from account" in
    let onPos := JS.indexOf normalized " on " in
    if (toAccountPos =? -1) || (forDebitPos =? -1) then
      ParseFailure MissingKeywords
    else if (creditPos >=? toAccountPos) || (toAccountPos >=? forDebitPos) then
      ParseFailure InvalidKeywordOrder
    else
      let amountCurrencyPart :=
        JS.trim (JS.substring normalized (creditPos + 6) toAccountPos) in
      let parts := JS.split amountCurrencyPart in
      if Z.of_nat (List.length parts) <? 2 then ParseFailure Malformed
      else
        let amount := JS.trim (nth 0 parts "") in
        let currency := JS.toUpperCase (JS.trim (nth 1 parts "")) in
        let creditAccount :=
          JS.trim (JS.substring normalized (toAccountPos + 10) forDebitPos) in
        let debitAccountEnd :=
          if negb (onPos =? -1) then onPos else JS.len normalized in
        let debitAccount :=
          JS.trim (JS.substring normalized (forDebitPos + 22) debitAccountEnd) in
        let executeBy :=
          if negb (onPos =? -1)
          then Some (JS.trim (JS.substringFrom normalized (onPos + 4)))
          else None in
        ParseSuccess
          (Parsed.make CREDIT amount currency debitAccount creditAccount
             (orNull executeBy)).

(** ** Amount and date validators

    Both return [{ valid, value }] with [value] null exactly when [valid] is
    false: [Some v] stands for [{ valid: true, value: v }] and [None] for
    [{ valid: false, value: null }]. *)

Definition validateAmount (amountStr : string) : option Z :=
  if JS.len amountStr =? 0 then None
  else if negb (JS.indexOf amountStr "-" =? -1) then None
  else if negb (JS.indexOf amountStr "." =? -1) then None
  else
    match JS.parseInt amountStr with
    | None => None
    | Some amountNum =>
        if amountNum <=? 0 then None
        else if negb (String.eqb (JS.toString amountNum) amountStr) then None
        else Some amountNum
    end.

Definition validateDate (dateStr : string) : option string :=
  if JS.len dateStr =? 0 then None
  else if negb (JS.len dateStr =? 10) then None
  else if negb (String.eqb (JS.charAt dateStr 4) "-")
          || negb (String.eqb (JS.charAt dateStr 7) "-") then None
  else
    let year := JS.substring dateStr 0 4 in
    let month := JS.substring dateStr 5 7 in
    let day := JS.substring dateStr 8 10 in
    match JS.parseInt year, JS.parseInt month, JS.parseInt day with
    | Some yearNum, Some monthNum, Some dayNum =>
        if (monthNum <? 1) || (monthNum >? 12) || (dayNum <? 1) || (dayNum >? 31)
        then None
        else Some dateStr
    | _, _, _ => None
    end.

Definition isFutureDate (clock : Clock) (dateStr : string) : bool :=
  match dateAtMidnight clock dateStr with
  | Some date => todayAtMidnight clock <? date
  | None => false
  end.

(** ** The Date object of the host

    What the [Clock] of isFutureDate is on a host whose local time is at
    the fixed offset [tza] milliseconds from UTC (no daylight saving
    change).  The time value of a date-only string [YYYY-MM-DD] naming a day
    of the calendar is the midnight that begins that day in UTC;
    [setHours(0, 0, 0, 0)] moves a time value to the midnight that begins
    its local day. *)

Module JSDate.

Definition msPerDay : Z := 86400000.

(** The number of the first day of year [y], day 0 being 1970-01-01. *)
Definition dayFromYear (y : Z) : Z :=
  365 * (y - 1970) + (y - 1969) / 4 - (y - 1901) / 100 + (y - 1601) / 400.

Definition isLeapYear (y : Z) : bool :=
  ((y mod 4 =? 0) && negb (y mod 100 =? 0)) || (y mod 400 =? 0).

Definition daysInMonth (y m : Z) : Z :=
  if m =? 2 then (if isLeapYear y then 29 else 28)
  else if (m =? 4) || (m =? 6) || (m =? 9) || (m =? 11) then 30
  else 31.

(** The days of year [y] before its month [m]. *)
Definition daysBeforeMonth (y m : Z) : Z :=
  fold_left (fun acc k => acc + daysInMonth y k)
    (filter (fun k => k <? m) [1; 2; 3; 4; 5; 6; 7; 8; 9; 10; 11]) 0.

(** The number of the day [d] of month [m] of year [y]. *)
Definition makeDay (y m d : Z) : Z := dayFromYear y + daysBeforeMonth y m + d - 1.

(** The value of a field written with decimal digits only. *)
Fixpoint field (s : string) (acc : Z) : option Z :=
  match s with
  | EmptyString => Some acc
  | String c r =>
      if JS.isDigit c then field r (10 * acc + (JS.code c - 48)) else None
  end.

(** The day number of a date-only string [YYYY-MM-DD] that names a day of
    the calendar; [None] for every other string. *)
Definition dayOfDateOnly (s : string) : option Z :=
  if (JS.len s =? 10) && String.eqb (JS.charAt s 4) "-"
     && String.eqb (JS.charAt s 7) "-"
  then
    match field (JS.substring s 0 4) 0, field (JS.substring s 5 7) 0,
          field (JS.substring s 8 10) 0 with
    | Some y, Some m, Some d =>
        if (1 <=? m) && (m <=? 12) && (1 <=? d) && (d <=? daysInMonth y m)
        then Some (makeDay y m d)
        else None
    | _, _, _ => None
    end
  else None.

(** The day in which the time value [t] falls at the offset [tza]. *)
Definition localDay (tza t : Z) : Z := (t + tza) / msPerDay.

(** The time value of [t] after [setHours(0, 0, 0, 0)]. *)
Definition localMidnight (tza t : Z) : Z := localDay tza t * msPerDay - tza.

(** The clock of a host at the offset [tza] when the time value of
    [new Date()] is [now]; [otherwise] is the time value the host gives to
    the strings that are no calendar day in the date-only form, [None] for
    an Invalid Date. *)
Definition clock (tza now : Z) (otherwise : string -> option Z) : Clock :=
  {| dateAtMidnight := fun s =>
       match dayOfDateOnly s with
       | Some day => Some (localMidnight tza (day * msPerDay))
       | None => option_map (localMidnight tza) (otherwise s)
       end;
     todayAtMidnight := localMidnight tza now |}.

End JSDate.

(** ** Account resolver *)

Fixpoint findAccount (accounts : list Account.t) (accountId : string)
  : option Account.t :=
  match accounts with
  | [] => None
  | account :: rest =>
      if String.eqb (Account.id account) accountId then Some account
      else findAccount rest accountId
  end.

(** An identifier of the parsed record, [None] when it is null: an
    account id, being a string, never equals null. *)
Definition sameId (id : string) (target : option string) : bool :=
  match target with
  | Some t => String.eqb id t
  | None => false
  end.

Fixpoint getAccountsInOrder (accounts : list Account.t)
  (debitAccountId creditAccountId : option string) : list AccountView.t :=
  match accounts with
  | [] => []
  | account :: rest =>
      if sameId (Account.id account) debitAccountId
         || sameId (Account.id account) creditAccountId
      then AccountView.make (Account.id account) (Account.balance account)
             (Account.balance account) (JS.toUpperCase (Account.currency account))
           :: getAccountsInOrder rest debitAccountId creditAccountId
      else getAccountsInOrder rest debitAccountId creditAccountId
  end.

(** ** Transaction pipeline *)

(** The view every response but the successful one emits:
    [accountsInOrder.map(acc => ({ ..., balance: acc.balance,
    balance_before: acc.balance, ... }))]. *)
Definition unchanged (accountsInOrder : list AccountView.t) : list AccountView.t :=
  map (fun acc =>
         AccountView.make (AccountView.id acc) (AccountView.balance acc)
           (AccountView.balance acc) (AccountView.currency acc))
      accountsInOrder.

(** The view of an immediate execution: [balanceBefore - amount] and
    [balanceBefore + amount] are operations on doubles. *)
Definition updated (debitAccount creditAccount : Account.t) (amount : Z)
  (accountsInOrder : list AccountView.t) : list AccountView.t :=
  map (fun acc =>
         let balanceBefore := AccountView.balance acc in
         let newBalance :=
           if String.eqb (AccountView.id acc) (Account.id debitAccount)
           then JS.round (balanceBefore - inject_Z amount)
           else if String.eqb (AccountView.id acc) (Account.id creditAccount)
           then JS.round (balanceBefore + inject_Z amount)
           else balanceBefore in
         AccountView.make (AccountView.id acc) newBalance balanceBefore
           (AccountView.currency acc))
      accountsInOrder.

(** [x < y] on balances. *)
Definition Qltb (x y : Q) : bool := negb (Qle_bool y x).

(** [SUPPORTED_CURRENCIES.indexOf(c) === -1] *)
Definition unsupported (c : string) : bool :=
  negb (existsb (String.eqb c) SUPPORTED_CURRENCIES).

(** The response literal shared by the stages that follow tokenization;
    [amount] and [currency] are what the stage has resolved. *)
Definition respond (parsed : Parsed.t) (amount : option Z) (currency : string)
  (status : Status) (reason : string) (code : StatusCode)
  (accounts : list AccountView.t) : Response.t :=
  Response.make (Some (Parsed.type parsed)) amount (Some currency)
    (Some (Parsed.debit_account parsed)) (Some (Parsed.credit_account parsed))
    (Parsed.execute_by parsed) status reason code accounts.

(** The service proper, after [validator.validate] has checked the shape
    of the request.  A scanner failure leaves every field of [parsed] null,
    and with them the fields of the response, its amount included. *)
Definition parseInstructionService (clock : Clock) (data : ServiceData.t)
  : Response.t :=
  match parseInstruction (ServiceData.instruction data) with
  | ParseFailure Malformed =>
      Response.make None None None None None None failed
        PaymentMessages.MALFORMED_INSTRUCTION SY03 []
  | ParseFailure MissingKeywords =>
      Response.make None None None None None None failed
        PaymentMessages.MISSING_KEYWORDS SY01 []
  | ParseFailure InvalidKeywordOrder =>
      Response.make None None None None None None failed
        PaymentMessages.INVALID_KEYWORD_ORDER SY02 []
  | ParseSuccess parsed =>
      let accountsInOrder :=
        getAccountsInOrder (ServiceData.accounts data)
          (Some (Parsed.debit_account parsed))
          (Some (Parsed.credit_account parsed)) in
      match validateAmount (Parsed.amount parsed) with
      | None =>
          respond parsed None (Parsed.currency parsed) failed
            PaymentMessages.INVALID_AMOUNT AM01 (unchanged accountsInOrder)
      | Some amount =>
          let currencyUpper := JS.toUpperCase (Parsed.currency parsed) in
          if unsupported currencyUpper then
            respond parsed (Some amount) (Parsed.currency parsed) failed
              PaymentMessages.UNSUPPORTED_CURRENCY CU02 (unchanged accountsInOrder)
          else
            match findAccount (ServiceData.accounts data) (Parsed.debit_account parsed),
                  findAccount (ServiceData.accounts data) (Parsed.credit_account parsed)
            with
            | Some debitAccount, Some creditAccount =>
                if String.eqb (Account.id debitAccount) (Account.id creditAccount) then
                  respond parsed (Some amount) currencyUpper failed
                    PaymentMessages.SAME_ACCOUNT_ERROR AC02 (unchanged accountsInOrder)
                else
                  let debitCurrency := JS.toUpperCase (Account.currency debitAccount) in
                  let creditCurrency := JS.toUpperCase (Account.currency creditAccount) in
                  if negb (String.eqb debitCurrency creditCurrency) then
                    respond parsed (Some amount) currencyUpper failed
                      PaymentMessages.CURRENCY_MISMATCH CU01 (unchanged accountsInOrder)
                  else if negb (String.eqb currencyUpper debitCurrency) then
                    respond parsed (Some amount) currencyUpper failed
                      PaymentMessages.CURRENCY_MISMATCH CU01 (unchanged accountsInOrder)
                  else
                    (* what follows the date block, with the isPending it leaves *)
                    let settle (isPending : bool) :=
                      if negb isPending
                         && Qltb (Account.balance debitAccount) (inject_Z amount)
                      then
                        respond parsed (Some amount) currencyUpper failed
                          PaymentMessages.INSUFFICIENT_FUNDS AC01
                          (unchanged accountsInOrder)
                      else if isPending then
                        respond parsed (Some amount) currencyUpper pending
                          PaymentMessages.TRANSACTION_PENDING AP01
                          (unchanged accountsInOrder)
                      else
                        respond parsed (Some amount) currencyUpper successful
                          PaymentMessages.TRANSACTION_SUCCESSFUL AP00
                          (updated debitAccount creditAccount amount accountsInOrder)
                    in
                    match Parsed.execute_by parsed with
                    | None | Some EmptyString => settle false
                    | Some dateStr =>
                        match validateDate dateStr with
                        | None =>
                            respond parsed (Some amount) currencyUpper failed
                              PaymentMessages.MALFORMED_INSTRUCTION SY03
                              (unchanged accountsInOrder)
                        | Some _ => settle (isFutureDate clock dateStr)
                        end
                    end
            | _, _ =>
                respond parsed (Some amount) currencyUpper failed
                  PaymentMessages.ACCOUNT_NOT_FOUND AC03 (unchanged accountsInOrder)
            end
      end
  end.

(** ** The stage order, stated on its own

    Each stage of the pipeline guards one rule.  [violation] looks at one
    rule in isolation and gives the code of the stage when the request
    breaks it; [earliestFailure] walks the stages in their order. *)

Inductive Stage :=
| Tokenization
| AmountFormat
| CurrencySupport
| AccountExistence
| AccountDistinctness
| CurrencyConsistency
| DateValidity
| FundsSufficiency.

Definition stageOrder : list Stage :=
  [Tokenization; AmountFormat; CurrencySupport; AccountExistence;
   AccountDistinctness; CurrencyConsistency; DateValidity; FundsSufficiency].

(** The instruction carries a well-formed date that the clock places after
    today. *)
Definition scheduled (clock : Clock) (parsed : Parsed.t) : bool :=
  match Parsed.execute_by parsed with
  | Some dateStr =>
      match validateDate dateStr with
      | Some _ => isFutureDate clock dateStr
      | None => false
      end
  | None => false
  end.

Definition violation (clock : Clock) (data : ServiceData.t) (stage : Stage)
  : option StatusCode :=
  match parseInstruction (ServiceData.instruction data) with
  | ParseFailure e =>
      match stage with
      | Tokenization => Some (codeOfSyntaxError e)
      | _ => None
      end
  | ParseSuccess parsed =>
      let accounts := ServiceData.accounts data in
      let debit := findAccount accounts (Parsed.debit_account parsed) in
      let credit := findAccount accounts (Parsed.credit_account parsed) in
      let currency := JS.toUpperCase (Parsed.currency parsed) in
      match stage with
      | Tokenization => None
      | AmountFormat =>
          match validateAmount (Parsed.amount parsed) with
          | None => Some AM01
          | Some _ => None
          end
      | CurrencySupport => if unsupported currency then Some CU02 else None
      | AccountExistence =>
          match debit, credit with
          | Some _, Some _ => None
          | _, _ => Some AC03
          end
      | AccountDistinctness =>
          if String.eqb (Parsed.debit_account parsed) (Parsed.credit_account parsed)
          then Some AC02 else None
      | CurrencyConsistency =>
          match debit, credit with
          | Some d, Some c =>
              if String.eqb (JS.toUpperCase (Account.currency d))
                            (JS.toUpperCase (Account.currency c))
                 && String.eqb currency (JS.toUpperCase (Account.currency d))
              then None else Some CU01
          | _, _ => None
          end
      | DateValidity =>
          match Parsed.execute_by parsed with
          | Some dateStr =>
              match validateDate dateStr with
              | None => Some SY03
              | Some _ => None
              end
          | None => None
          end
      | FundsSufficiency =>
          match validateAmount (Parsed.amount parsed), debit with
          | Some amount, Some d =>
              if negb (scheduled clock parsed)
                 && Qltb (Account.balance d) (inject_Z amount)
              then Some AC01 else None
          | _, _ => None
          end
      end
  end.

Fixpoint firstViolation (clock : Clock) (data : ServiceData.t)
  (stages : list Stage) : option StatusCode :=
  match stages with
  | [] => None
  | stage :: later =>
      match violation clock data stage with
      | Some code => Some code
      | None => firstViolation clock data later
      end
  end.

(** The code the stage order prescribes: that of the first stage whose
    rule is broken, else AP01 for a scheduled instruction and AP00 for an
    executed one. *)
Definition earliestFailure (clock : Clock) (data : ServiceData.t) : StatusCode :=
  match firstViolation clock data stageOrder with
  | Some code => code
  | None =>
      match parseInstruction (ServiceData.instruction data) with
      | ParseSuccess parsed => if scheduled clock parsed then AP01 else AP00
      | ParseFailure e => codeOfSyntaxError e
      end
  end.

(** ** The validators, stated on their own *)

(** The amount contract: non-empty, free of [-] and [.], read by parseInt
    as a positive integer whose decimal writing is the input again. *)
Definition amountContract (s : string) (n : Z) : Prop :=
  s <> EmptyString
  /\ JS.contains "-" s = false
  /\ JS.contains "." s = false
  /\ JS.parseInt s = Some n
  /\ 0 < n
  /\ JS.toString n = s.

(** The date contract: ten characters, a dash at index 4 and at index 7,
    the three fields read by parseInt, month and day within range. *)
Definition dateContract (s : string) : Prop :=
  String.length s = 10%nat
  /\ String.get 4 s = Some "-"%char
  /\ String.get 7 s = Some "-"%char
  /\ exists year month day : Z,
       JS.parseInt (String.substring 0 4 s) = Some year
       /\ JS.parseInt (String.substring 5 2 s) = Some month
       /\ JS.parseInt (String.substring 8 2 s) = Some day
       /\ 1 <= month <= 12
       /\ 1 <= day <= 31.

(** The string of ten given characters. *)
Definition ten (c0 c1 c2 c3 c4 c5 c6 c7 c8 c9 : ascii) : string :=
  String c0 (String c1 (String c2 (String c3 (String c4
    (String c5 (String c6 (String c7 (String c8 (String c9 ""))))))))).

(** An identifier with a capital letter. *)
Fixpoint hasUpper (s : string) : bool :=
  match s with
  | EmptyString => false
  | String c r => JS.isUpper c || hasUpper r
  end.

(** What a view keeps of its account whatever the outcome. *)
Definition viewKey (v : AccountView.t) : string * Q * string :=
  (AccountView.id v, AccountView.balance_before v, AccountView.currency v).

Definition accountKey (a : Account.t) : string * Q * string :=
  (Account.id a, Account.balance a, JS.toUpperCase (Account.currency a)).

(** The request has passed every check that precedes the date: it is
    tokenized as [parsed], its amount is [amount], its currency is
    supported, its accounts [debit] and [credit] exist, differ and agree on
    the currency of the instruction. *)
Definition reachesDateStage (data : ServiceData.t) (parsed : Parsed.t)
  (amount : Z) (debit credit : Account.t) : Prop :=
  parseInstruction (ServiceData.instruction data) = ParseSuccess parsed
  /\ validateAmount (Parsed.amount parsed) = Some amount
  /\ unsupported (JS.toUpperCase (Parsed.currency parsed)) = false
  /\ findAccount (ServiceData.accounts data) (Parsed.debit_account parsed)
     = Some debit
  /\ findAccount (ServiceData.accounts data) (Parsed.credit_account parsed)
     = Some credit
  /\ Account.id debit <> Account.id credit
  /\ JS.toUpperCase (Account.currency debit)
     = JS.toUpperCase (Account.currency credit)
  /\ JS.toUpperCase (Parsed.currency parsed)
     = JS.toUpperCase (Account.currency debit).

(** The entry of an account that an immediate execution debits, and the
    entry of one it credits. *)
Definition debited (a : Account.t) (amount : Z) : AccountView.t :=
  AccountView.make (Account.id a) (JS.round (Account.balance a - inject_Z amount))
    (Account.balance a) (JS.toUpperCase (Account.currency a)).

Definition credited (a : Account.t) (amount : Z) : AccountView.t :=
  AccountView.make (Account.id a) (JS.round (Account.balance a + inject_Z amount))
    (Account.balance a) (JS.toUpperCase (Account.currency a)).

(** The entry of an account as the resolver emits it. *)
Definition viewOf (a : Account.t) : AccountView.t :=
  AccountView.make (Account.id a) (Account.balance a) (Account.balance a)
    (JS.toUpperCase (Account.currency a)).

(** ** Worked requests *)

Definition acct (id : string) (balance : Z) (currency : string) : Account.t :=
  Account.make id (inject_Z balance) currency.

Definition a1a2 : list Account.t := [acct "a1" 1000 "NGN"; acct "a2" 200 "NGN"].

Definition xyz : list Account.t :=
  [acct "x" 10 "USD"; acct "y" 20 "USD"; acct "z" 30 "USD"].

(** A clock whose today is day 20000 and which reads no date at all. *)
Definition noDates : Clock :=
  {| dateAtMidnight := fun _ => None; todayAtMidnight := 20000 |}.

(** A clock for which every date string lies after today. *)
Definition allFuture : Clock :=
  {| dateAtMidnight := fun _ => Some 20001; todayAtMidnight := 20000 |}.

Definition request (accounts : list Account.t) (instruction : string)
  : ServiceData.t :=
  ServiceData.make accounts instruction.

Definition pendingRequest : ServiceData.t :=
  request a1a2 "debit 500 NGN from account a1 for credit to account a2 on 2999-01-01".

Definition badDateRequest : ServiceData.t :=
  request a1a2 "debit 500 NGN from account a1 for credit to account a2 on tomorrow".

Definition swappedInstruction : string :=
  "DEBIT 500 NGN FOR CREDIT TO ACCOUNT a2 FROM ACCOUNT a1".

Definition simpleRequest : ServiceData.t :=
  request a1a2 "debit 500 NGN from account a1 for credit to account a2".

(** One unit for an account that holds 2^53. *)
Definition largeCredit : ServiceData.t :=
  request [acct "a1" 1000 "NGN"; acct "a2" 9007199254740992 "NGN"]
    "debit 1 NGN from account a1 for credit to account a2".

(** One unit between the accounts that hold the doubles 1.1 and 1.2. *)
Definition fractionalBalances : ServiceData.t :=
  ServiceData.make
    [Account.make "a1" (2476979795053773 # 2251799813685248) "NGN";
     Account.make "a2" (5404319552844595 # 4503599627370496) "NGN"]
    "debit 1 NGN from account a1 for credit to account a2".

(** A host five hours behind UTC at 2025-06-14T15:00:00Z, ten in the
    morning of 14 June there, which reads calendar days only. *)
Definition fiveHoursBehind : Clock :=
  JSDate.clock (-18000000) 1749913200000 (fun _ => None).

(** A transfer for the day after. *)
Definition nextDayRequest : ServiceData.t :=
  request a1a2 "debit 500 NGN from account a1 for credit to account a2 on 2025-06-15".

Definition capitalAccounts : list Account.t :=
  [acct "A1" 1000 "NGN"; acct "a2" 200 "NGN"].

Definition capitalInstruction : string :=
  "debit 500 NGN from account A1 for credit to account a2".

Definition parsedCapital : Parsed.t :=
  Parsed.make DEBIT "500" "NGN" "a1" "a2" None.

(** ** Outcome tables and token classes *)

(** The status that goes with a status code. *)
Definition statusOf (code : StatusCode) : Status :=
  match code with
  | AP00 => successful
  | AP01 => pending
  | _ => failed
  end.

(** The entry of the message catalogue that goes with a status code. *)
Definition reasonOf (code : StatusCode) : string :=
  match code with
  | SY01 => PaymentMessages.MISSING_KEYWORDS
  | SY02 => PaymentMessages.INVALID_KEYWORD_ORDER
  | SY03 => PaymentMessages.MALFORMED_INSTRUCTION
  | AM01 => PaymentMessages.INVALID_AMOUNT
  | CU01 => PaymentMessages.CURRENCY_MISMATCH
  | CU02 => PaymentMessages.UNSUPPORTED_CURRENCY
  | AC01 => PaymentMessages.INSUFFICIENT_FUNDS
  | AC02 => PaymentMessages.SAME_ACCOUNT_ERROR
  | AC03 => PaymentMessages.ACCOUNT_NOT_FOUND
  | AP00 => PaymentMessages.TRANSACTION_SUCCESSFUL
  | AP01 => PaymentMessages.TRANSACTION_PENDING
  end.

(** A string with a small letter. *)
Fixpoint hasLower (s : string) : bool :=
  match s with
  | EmptyString => false
  | String c r => JS.isLower c || hasLower r
  end.

(** A string that does not begin with white space. *)
Definition startsClean (s : string) : Prop :=
  match s with
  | EmptyString => True
  | String c _ => JS.isWhiteSpace c = false
  end.

(** ** Instructions built from tokens *)

(** A string without white space. *)
Fixpoint solid (s : string) : bool :=
  match s with
  | EmptyString => true
  | String c r => negb (JS.isWhiteSpace c) && solid r
  end.

(** [p] is what [w] ends with. *)
Fixpoint isSuffix (p w : string) : bool :=
  String.eqb p w
  || match w with
     | EmptyString => false
     | String _ r => isSuffix p r
     end.

(** A token of an instruction: not empty, without white space and without
    capital letters. *)
Definition isWord (w : string) : bool :=
  solid w && negb (hasUpper w) && negb (String.eqb w "").

(** The tokens of a sentence of the grammar: words, none of them the word
    "on" that introduces the date, the currency not beginning with
    "account". *)
Definition wellFormed (amount currency debit credit : string)
  (date : option string) : bool :=
  isWord amount && isWord currency && isWord debit && isWord credit
  && match date with
     | Some dateStr => isWord dateStr
     | None => true
     end
  && negb (String.eqb "on" amount) && negb (String.eqb "on" currency)
  && negb (String.eqb "on" debit) && negb (String.eqb "on" credit)
  && negb (String.prefix "account" currency).

(** The tokens are ASCII text. *)
Definition asciiTokens (amount currency debit credit : string)
  (date : option string) : bool :=
  JS.isAscii amount && JS.isAscii currency && JS.isAscii debit
  && JS.isAscii credit
  && match date with
     | Some dateStr => JS.isAscii dateStr
     | None => true
     end.

(** The currencies of the accounts are ASCII text. *)
Definition asciiCurrencies (accounts : list Account.t) : bool :=
  forallb (fun account => JS.isAscii (Account.currency account)) accounts.

(** The sum of a list of numbers, exact. *)
Definition total (balances : list Q) : Q := fold_right Qplus 0%Q balances.

(** What follows the second identifier: nothing, or the date. *)
Definition dateClause (date : option string) (identifier : string) : string :=
  match date with
  | Some dateStr => identifier ++ " " ++ "on" ++ " " ++ dateStr
  | None => identifier
  end.

(** The DEBIT sentence of the grammar, word by word. *)
Definition debitText (amount currency debit credit : string)
  (date : option string) : string :=
  "debit" ++ " " ++ amount ++ " " ++ currency ++ " "
  ++ "from" ++ " " ++ "account" ++ " " ++ debit ++ " "
  ++ "for" ++ " " ++ "credit" ++ " " ++ "to" ++ " " ++ "account" ++ " "
  ++ dateClause date credit.

(** The CREDIT sentence of the grammar, word by word. *)
Definition creditText (amount currency debit credit : string)
  (date : option string) : string :=
  "credit" ++ " " ++ amount ++ " " ++ currency ++ " "
  ++ "to" ++ " " ++ "account" ++ " " ++ credit ++ " "
  ++ "for" ++ " " ++ "debit" ++ " " ++ "from" ++ " " ++ "account" ++ " "
  ++ dateClause date debit.

(** Two responses that agree on everything but the type. *)
Definition sameButType (r1 r2 : Response.t) : Prop :=
  Response.amount r1 = Response.amount r2
  /\ Response.currency r1 = Response.currency r2
  /\ Response.debit_account r1 = Response.debit_account r2
  /\ Response.credit_account r1 = Response.credit_account r2
  /\ Response.execute_by r1 = Response.execute_by r2
  /\ Response.status r1 = Response.status r2
  /\ Response.status_reason r1 = Response.status_reason r2
  /\ Response.status_code r1 = Response.status_code r2
  /\ Response.accounts r1 = Response.accounts r2.

(** * Properties *)

(** ** The primitives on examples *)

Example trim_ex : JS.trim "  ab c  " = "ab c".
Proof. reflexivity. Qed.

Example split_ex : JS.split "500  ngn" = ["500"; ""; "ngn"].
Proof. reflexivity. Qed.

Example parseInt_ex :
  JS.parseInt " +12x" = Some 12 /\ JS.parseInt "x" = None
  /\ JS.parseInt "-3" = Some (-3).
Proof. repeat split; reflexivity. Qed.

Example toString_ex :
  JS.toString 500 = "500" /\ JS.toString 0 = "0" /\ JS.toString (-7) = "-7".
Proof. repeat split; vm_compute; reflexivity. Qed.

(** Beyond 2^53 parseInt answers the nearest double, which toString
    writes with the fewest digits that read back as it; from 1e21 on in
    exponent form. *)
Example parseInt_rounds :
  JS.parseInt "9007199254740993" = Some 9007199254740992
  /\ JS.parseInt "9007199254740995" = Some 9007199254740996
  /\ JS.parseInt "1152921504606847000" = Some 1152921504606846976.
Proof. repeat split; vm_compute; reflexivity. Qed.

Example toString_shortest :
  JS.toString 9007199254740993 = "9007199254740992"
  /\ JS.toString 1152921504606846976 = "1152921504606847000"
  /\ JS.toString (10 ^ 20) = "100000000000000000000"
  /\ JS.toString (10 ^ 21) = "1e+21"
  /\ JS.toString (123456789 * 10 ^ 20) = "1.23456789e+28".
Proof. repeat split; vm_compute; reflexivity. Qed.

Example round_ex :
  JS.round (inject_Z 9007199254740992 + inject_Z 1) = inject_Z 9007199254740992
  /\ JS.round (inject_Z 9007199254740992 + inject_Z 3) = inject_Z 9007199254740996
  /\ JS.round (1 # 10) = 3602879701896397 # 36028797018963968.
Proof. repeat split; vm_compute; reflexivity. Qed.

(** The day numbers and the local midnights of the Date object. *)
Example date_ex :
  JSDate.dayOfDateOnly "1970-01-01" = Some 0
  /\ JSDate.dayOfDateOnly "2000-03-01" = Some 11017
  /\ JSDate.dayOfDateOnly "2025-06-15" = Some 20254
  /\ JSDate.dayOfDateOnly "2025-02-30" = None
  /\ JSDate.dayOfDateOnly "2025-6-15" = None
  /\ JSDate.localMidnight 3600000 1749913200000 = 1749855600000
  /\ JSDate.localMidnight (-18000000) 1749913200000 = 1749877200000.
Proof. repeat split; vm_compute; reflexivity. Qed.

Example substring_ex : JS.substring "credito account" 6 5 = "t".
Proof. reflexivity. Qed.

Example indexOf_ex : JS.indexOf "abc on d" " on " = 3 /\ JS.indexOf "abc" "x" = -1.
Proof. repeat split; reflexivity. Qed.

(** ** The scenarios of the specification *)

Example scenario1 :
  parseInstructionService noDates
    (request a1a2 "debit 500 NGN from account a1 for credit to account a2")
  = Response.make (Some DEBIT) (Some 500) (Some "NGN") (Some "a1") (Some "a2") None
      successful PaymentMessages.TRANSACTION_SUCCESSFUL AP00
      [AccountView.make "a1" (inject_Z 1000 - inject_Z 500) (inject_Z 1000) "NGN";
       AccountView.make "a2" (inject_Z 200 + inject_Z 500) (inject_Z 200) "NGN"].
Proof. reflexivity. Qed.

Example scenario2 :
  let r := parseInstructionService allFuture
    (request a1a2 "debit 500 NGN from account a1 for credit to account a2 on 2999-01-01") in
  Response.status r = pending /\ Response.status_code r = AP01
  /\ map AccountView.balance (Response.accounts r) = [inject_Z 1000; inject_Z 200].
Proof. repeat split; reflexivity. Qed.

Example scenario3 :
  Response.status_code (parseInstructionService noDates
    (request a1a2 "credit 50 USD to account a2 for debit from account a1")) = CU01.
Proof. reflexivity. Qed.

Example scenario4 :
  Response.status_code (parseInstructionService noDates
    (request a1a2 "debit 300 NGN from account a1 for credit to account a1")) = AC02.
Proof. reflexivity. Qed.

Example scenario5 :
  let r := parseInstructionService noDates (request a1a2 "please move money") in
  Response.status r = failed /\ Response.status_code r = SY03
  /\ Response.accounts r = [].
Proof. repeat split; reflexivity. Qed.

Example scenario6 :
  let r := parseInstructionService noDates
    (request [acct "a1" 100 "NGN"; acct "a2" 200 "NGN"]
       "debit 500 NGN from account a1 for credit to account a2") in
  Response.status_code r = AC01
  /\ map AccountView.balance (Response.accounts r) = [inject_Z 100; inject_Z 200].
Proof. repeat split; reflexivity. Qed.

(** ** The account resolver *)

Section Resolver.

Variables (debitId creditId : option string).

Let wanted (a : Account.t) : bool :=
  sameId (Account.id a) debitId || sameId (Account.id a) creditId.

Lemma getAccountsInOrder_keys (accounts : list Account.t) :
  map viewKey (getAccountsInOrder accounts debitId creditId)
  = map accountKey (filter wanted accounts).
Proof.
  induction accounts as [|a rest IH]; simpl; [reflexivity|].
  subst wanted; simpl in *.
  destruct (sameId (Account.id a) debitId || sameId (Account.id a) creditId);
    simpl; rewrite IH; reflexivity.
Qed.

Lemma getAccountsInOrder_snapshot (accounts : list Account.t) :
  Forall (fun v => AccountView.balance_before v = AccountView.balance v)
    (getAccountsInOrder accounts debitId creditId).
Proof.
  induction accounts as [|a rest IH]; simpl; [constructor|].
  destruct (sameId (Account.id a) debitId || sameId (Account.id a) creditId);
    [constructor; [reflexivity | exact IH] | exact IH].
Qed.

End Resolver.

Lemma getAccountsInOrder_null (accounts : list Account.t) :
  getAccountsInOrder accounts None None = [].
Proof. induction accounts as [|a rest IH]; simpl; auto. Qed.

Lemma unchanged_keys (views : list AccountView.t) :
  Forall (fun v => AccountView.balance_before v = AccountView.balance v) views ->
  map viewKey (unchanged views) = map viewKey views.
Proof.
  induction 1 as [|v rest Hv _ IH]; simpl; [reflexivity|].
  rewrite IH. unfold viewKey at 1 3; simpl. now rewrite Hv.
Qed.

Lemma unchanged_snapshot (views : list AccountView.t) :
  Forall (fun v => AccountView.balance_before v = AccountView.balance v)
    (unchanged views).
Proof.
  unfold unchanged. apply Forall_forall. intros v Hv.
  apply in_map_iff in Hv. destruct Hv as [w [<- _]]. reflexivity.
Qed.

Lemma updated_keys (d c : Account.t) (amount : Z) (views : list AccountView.t) :
  Forall (fun v => AccountView.balance_before v = AccountView.balance v) views ->
  map viewKey (updated d c amount views) = map viewKey views.
Proof.
  induction 1 as [|v rest Hv _ IH]; simpl; [reflexivity|].
  rewrite IH. unfold viewKey at 1 3; simpl. now rewrite Hv.
Qed.

Lemma findAccount_id (accounts : list Account.t) (accountId : string) (a : Account.t) :
  findAccount accounts accountId = Some a -> Account.id a = accountId.
Proof.
  induction accounts as [|b rest IH]; simpl; [discriminate|].
  destruct (String.eqb (Account.id b) accountId) eqn:E.
  - intros [= <-]. now apply String.eqb_eq.
  - exact IH.
Qed.

Lemma findAccount_In (accounts : list Account.t) (accountId : string) (a : Account.t) :
  findAccount accounts accountId = Some a -> In a accounts.
Proof.
  induction accounts as [|b rest IH]; simpl; [discriminate|].
  destruct (String.eqb (Account.id b) accountId).
  - intros [= <-]. now left.
  - intros H. right. now apply IH.
Qed.

Lemma findAccount_none (accounts : list Account.t) (accountId : string) :
  (forall b, In b accounts -> Account.id b <> accountId) ->
  findAccount accounts accountId = None.
Proof.
  induction accounts as [|b rest IH]; simpl; [reflexivity|]. intros H.
  destruct (String.eqb (Account.id b) accountId) eqn:E.
  - apply String.eqb_eq in E. exfalso. apply (H b); auto.
  - apply IH. intros b' Hb'. apply H. now right.
Qed.

(** ** Walking the pipeline *)

(** Splits the service along its own case analysis, one goal per exit. *)
Ltac pipeline :=
  unfold parseInstructionService; cbv zeta;
  repeat match goal with
         | |- context [match ?x with _ => _ end] => destruct x eqn:?
         end.

(** C2. Every response whose status is failed or pending shows each of its
    accounts with [balance_before] equal to [balance]: a balance changes
    only in a successful response. *)
Theorem no_mutation_unless_successful (clock : Clock) (data : ServiceData.t) :
  Response.status (parseInstructionService clock data) = failed
  \/ Response.status (parseInstructionService clock data) = pending ->
  Forall (fun v => AccountView.balance_before v = AccountView.balance v)
    (Response.accounts (parseInstructionService clock data)).
Proof.
  pipeline; simpl; intros H;
    try apply unchanged_snapshot; try constructor.
  all: destruct H; discriminate.
Qed.

Lemma no_mutation_unless_successful_witness :
  Response.status (parseInstructionService allFuture pendingRequest) = pending
  /\ Forall (fun v => AccountView.balance_before v = AccountView.balance v)
       (Response.accounts (parseInstructionService allFuture pendingRequest)).
Proof.
  split.
  - reflexivity.
  - apply (no_mutation_unless_successful allFuture pendingRequest).
    right. reflexivity.
Defined.

(** ** Responses without accounts *)

(** A malformed date is answered with SY03 too, and that response lists the
    two resolved accounts. *)
Lemma syntax_code_with_accounts :
  Response.status_code (parseInstructionService noDates badDateRequest) = SY03
  /\ Response.accounts (parseInstructionService noDates badDateRequest)
     = [AccountView.make "a1" (inject_Z 1000) (inject_Z 1000) "NGN";
        AccountView.make "a2" (inject_Z 200) (inject_Z 200) "NGN"]
  /\ Response.accounts (parseInstructionService noDates badDateRequest) <> [].
Proof. repeat split; try reflexivity. vm_compute. discriminate. Qed.

(** C5 (amended). A response with code SY01 or SY02, and a response with
    code SY03 that the keyword scanner produced, has an empty accounts list. *)
Theorem scanner_failure_has_no_accounts (clock : Clock) (data : ServiceData.t) :
  Response.status_code (parseInstructionService clock data) = SY01
  \/ Response.status_code (parseInstructionService clock data) = SY02
  \/ (Response.status_code (parseInstructionService clock data) = SY03
      /\ parseInstruction (ServiceData.instruction data) = ParseFailure Malformed) ->
  Response.accounts (parseInstructionService clock data) = [].
Proof.
  pipeline; simpl; intros H; try reflexivity.
  all: destruct H as [H|[H|[H H']]]; discriminate.
Qed.

Lemma scanner_failure_has_no_accounts_witness :
  Response.status_code
    (parseInstructionService noDates (request a1a2 "please move money")) = SY03
  /\ Response.accounts
       (parseInstructionService noDates (request a1a2 "please move money")) = [].
Proof.
  split.
  - reflexivity.
  - apply (scanner_failure_has_no_accounts noDates (request a1a2 "please move money")).
    right. right. split; reflexivity.
Defined.

(** ** Order of the accounts in a response *)

Lemma filter_null (accounts : list Account.t) :
  filter (fun a => sameId (Account.id a) None || sameId (Account.id a) None) accounts
  = [].
Proof. induction accounts; simpl; auto. Qed.

(** The accounts of a response, each reduced to its id, its
    [balance_before] and its currency, are the wanted input accounts. *)
Lemma response_accounts_keys (clock : Clock) (data : ServiceData.t) :
  map viewKey (Response.accounts (parseInstructionService clock data))
  = map accountKey
      (filter
         (fun a =>
            sameId (Account.id a)
              (Response.debit_account (parseInstructionService clock data))
            || sameId (Account.id a)
                 (Response.credit_account (parseInstructionService clock data)))
         (ServiceData.accounts data)).
Proof.
  pipeline; simpl; try (rewrite filter_null; reflexivity).
  all: try rewrite unchanged_keys by apply getAccountsInOrder_snapshot.
  all: try rewrite updated_keys by apply getAccountsInOrder_snapshot.
  all: apply getAccountsInOrder_keys.
Qed.

(** C7. The accounts of a response are the input accounts whose id is the
    debit or the credit identifier of the response, each once per
    occurrence and in the order of the input, with the input balance as
    [balance_before] and the currency in capitals; which identifier is the
    debit one plays no role.  With accounts x, y, z and an instruction from
    y to x the list is x, y. *)
Theorem accounts_in_request_order :
  (forall (clock : Clock) (data : ServiceData.t),
      map viewKey (Response.accounts (parseInstructionService clock data))
      = map accountKey
          (filter
             (fun a =>
                sameId (Account.id a)
                  (Response.debit_account (parseInstructionService clock data))
                || sameId (Account.id a)
                     (Response.credit_account (parseInstructionService clock data)))
             (ServiceData.accounts data)))
  /\ (forall (accounts : list Account.t) (x y : option string),
         map viewKey (getAccountsInOrder accounts x y)
         = map viewKey (getAccountsInOrder accounts y x))
  /\ map AccountView.id
       (Response.accounts
          (parseInstructionService noDates
             (request xyz "debit 5 USD from account y for credit to account x")))
     = ["x"; "y"].
Proof.
  split; [|split].
  - exact response_accounts_keys.
  - intros accounts x y. rewrite !getAccountsInOrder_keys. f_equal.
    apply filter_ext. intros a. apply orb_comm.
  - reflexivity.
Qed.

(** ** Keyword order *)

(** C8. A DEBIT instruction in which both anchors occur and "from account"
    stands at or after "for credit to account" is answered by the scanner
    with SY02, so neither with SY01 nor with a parsed record; the service
    reports SY02. *)
Theorem swapped_anchors_give_SY02 (clock : Clock) (accounts : list Account.t)
  (instruction : string) :
  JS.startsWith (JS.trim (JS.toLowerCase instruction)) "debit" = true ->
  JS.indexOf (JS.trim (JS.toLowerCase instruction)) "from account" <> -1 ->
  JS.indexOf (JS.trim (JS.toLowerCase instruction)) "for credit to account" <> -1 ->
  JS.indexOf (JS.trim (JS.toLowerCase instruction)) "for credit to account"
  <= JS.indexOf (JS.trim (JS.toLowerCase instruction)) "from account" ->
  parseInstruction instruction = ParseFailure InvalidKeywordOrder
  /\ Response.status_code
       (parseInstructionService clock (request accounts instruction)) = SY02.
Proof.
  intros Hdebit Hfrom Hfor Hswap.
  assert (Hparse : parseInstruction instruction = ParseFailure InvalidKeywordOrder).
  { unfold parseInstruction. cbv zeta. rewrite Hdebit. simpl negb. simpl andb.
    apply Z.eqb_neq in Hfrom. apply Z.eqb_neq in Hfor.
    rewrite Hfrom, Hfor. simpl orb.
    replace (JS.indexOf (JS.trim (JS.toLowerCase instruction)) "from account"
             >=? JS.indexOf (JS.trim (JS.toLowerCase instruction))
                   "for credit to account") with true.
    - now rewrite orb_true_r.
    - symmetry. apply Z.geb_le. exact Hswap. }
  split; [exact Hparse|].
  unfold parseInstructionService, request. simpl ServiceData.instruction.
  rewrite Hparse. reflexivity.
Qed.

Lemma swapped_anchors_give_SY02_witness :
  parseInstruction swappedInstruction = ParseFailure InvalidKeywordOrder
  /\ Response.status_code
       (parseInstructionService noDates (request a1a2 swappedInstruction)) = SY02.
Proof.
  apply (swapped_anchors_give_SY02 noDates a1a2 swappedInstruction).
  - reflexivity.
  - vm_compute. discriminate.
  - vm_compute. discriminate.
  - vm_compute. discriminate.
Defined.

(** ** The amount validator *)

Lemma indexOfFrom_char (c : ascii) (s : string) (i : Z) :
  0 <= i ->
  (JS.indexOfFrom s (String c EmptyString) i =? -1) = negb (JS.contains c s).
Proof.
  revert i. induction s as [|d r IH]; intros i Hi; simpl.
  - reflexivity.
  - destruct (ascii_dec c d) as [->|Hne].
    + rewrite Ascii.eqb_refl. simpl. destruct r; simpl; apply Z.eqb_neq; lia.
    + apply Ascii.eqb_neq in Hne. rewrite Hne. simpl. apply IH. lia.
Qed.

Lemma indexOf_char (c : ascii) (s : string) :
  (JS.indexOf s (String c EmptyString) =? -1) = negb (JS.contains c s).
Proof. apply indexOfFrom_char. lia. Qed.


Lemma validateAmount_sound (s : string) (n : Z) :
  validateAmount s = Some n -> amountContract s n.
Proof.
  unfold validateAmount, amountContract.
  rewrite !indexOf_char, !negb_involutive.
  destruct (JS.len s =? 0) eqn:E0; [discriminate|].
  destruct (JS.contains "-" s); [discriminate|].
  destruct (JS.contains "." s); [discriminate|].
  destruct (JS.parseInt s) as [m|]; [|discriminate].
  destruct (m <=? 0) eqn:Epos; [discriminate|].
  destruct (String.eqb (JS.toString m) s) eqn:Estr; simpl; [|discriminate].
  intros [= <-]. apply Z.leb_gt in Epos. apply String.eqb_eq in Estr.
  repeat split; auto.
  intros ->. discriminate.
Qed.



(** ** The date validator *)

Lemma length_ten (s : string) :
  String.length s = 10%nat ->
  exists c0 c1 c2 c3 c4 c5 c6 c7 c8 c9, s = ten c0 c1 c2 c3 c4 c5 c6 c7 c8 c9.
Proof.
  intros H.
  do 10 (destruct s as [|? s]; [discriminate|]).
  destruct s; [|discriminate].
  repeat eexists.
Qed.

Lemma validateDate_ten (c0 c1 c2 c3 c4 c5 c6 c7 c8 c9 : ascii) :
  validateDate (ten c0 c1 c2 c3 c4 c5 c6 c7 c8 c9)
  = if negb (Ascii.eqb c4 "-") || negb (Ascii.eqb c7 "-") then None
    else match JS.parseInt (String c0 (String c1 (String c2 (String c3 "")))),
               JS.parseInt (String c5 (String c6 "")),
               JS.parseInt (String c8 (String c9 "")) with
         | Some _, Some monthNum, Some dayNum =>
             if (monthNum <? 1) || (monthNum >? 12) || (dayNum <? 1) || (dayNum >? 31)
             then None
             else Some (ten c0 c1 c2 c3 c4 c5 c6 c7 c8 c9)
         | _, _, _ => None
         end.
Proof.
  unfold validateDate.
  change (JS.len (ten c0 c1 c2 c3 c4 c5 c6 c7 c8 c9)) with 10.
  change (JS.charAt (ten c0 c1 c2 c3 c4 c5 c6 c7 c8 c9) 4) with (String c4 "").
  change (JS.charAt (ten c0 c1 c2 c3 c4 c5 c6 c7 c8 c9) 7) with (String c7 "").
  change (JS.substring (ten c0 c1 c2 c3 c4 c5 c6 c7 c8 c9) 0 4)
    with (String c0 (String c1 (String c2 (String c3 "")))).
  change (JS.substring (ten c0 c1 c2 c3 c4 c5 c6 c7 c8 c9) 5 7)
    with (String c5 (String c6 "")).
  change (JS.substring (ten c0 c1 c2 c3 c4 c5 c6 c7 c8 c9) 8 10)
    with (String c8 (String c9 "")).
  simpl (10 =? 0). simpl (10 =? 10). cbv iota. simpl negb at 1. cbv iota.
  unfold String.eqb at 1 2.
  destruct (Ascii.eqb c4 "-"), (Ascii.eqb c7 "-"); reflexivity.
Qed.

Lemma validateDate_length (s : string) :
  validateDate s <> None -> String.length s = 10%nat.
Proof.
  unfold validateDate. destruct (JS.len s =? 0); [congruence|].
  destruct (JS.len s =? 10) eqn:E; simpl; [|congruence].
  intros _. apply Z.eqb_eq in E. unfold JS.len in E. lia.
Qed.

Lemma validateDate_sound (s : string) : validateDate s <> None -> dateContract s.
Proof.
  intros H. pose proof (validateDate_length s H) as Hlen.
  destruct (length_ten s Hlen) as (c0&c1&c2&c3&c4&c5&c6&c7&c8&c9&->).
  rewrite validateDate_ten in H. unfold dateContract.
  destruct (Ascii.eqb c4 "-") eqn:E4; [|simpl in H; congruence].
  destruct (Ascii.eqb c7 "-") eqn:E7; [|simpl in H; congruence].
  apply Ascii.eqb_eq in E4, E7. subst c4 c7. simpl in H.
  change (String.substring 0 4 (ten c0 c1 c2 c3 "-" c5 c6 "-" c8 c9))
    with (String c0 (String c1 (String c2 (String c3 "")))).
  change (String.substring 5 2 (ten c0 c1 c2 c3 "-" c5 c6 "-" c8 c9))
    with (String c5 (String c6 "")).
  change (String.substring 8 2 (ten c0 c1 c2 c3 "-" c5 c6 "-" c8 c9))
    with (String c8 (String c9 "")).
  destruct (JS.parseInt (String c0 (String c1 (String c2 (String c3 "")))))
    as [y|]; [|congruence].
  destruct (JS.parseInt (String c5 (String c6 ""))) as [m|]; [|congruence].
  destruct (JS.parseInt (String c8 (String c9 ""))) as [d|]; [|congruence].
  destruct ((m <? 1) || (m >? 12) || (d <? 1) || (d >? 31)) eqn:E; [congruence|].
  repeat split; try reflexivity.
  exists y, m, d. repeat split; try reflexivity.
  all: rewrite !orb_false_iff in E; destruct E as [[[E1 E2] E3] E4].
  all: rewrite ?Z.ltb_ge, ?Z.gtb_ltb, ?Z.ltb_ge in *; lia.
Qed.

Lemma validateDate_complete (s : string) : dateContract s -> validateDate s = Some s.
Proof.
  intros (Hlen & H4 & H7 & y & m & d & Hy & Hm & Hd & Hmr & Hdr).
  destruct (length_ten s Hlen) as (c0&c1&c2&c3&c4&c5&c6&c7&c8&c9&->).
  simpl in H4, H7. injection H4 as ->. injection H7 as ->.
  rewrite validateDate_ten. simpl.
  change (String.substring 0 4 (ten c0 c1 c2 c3 "-" c5 c6 "-" c8 c9))
    with (String c0 (String c1 (String c2 (String c3 "")))) in Hy.
  change (String.substring 5 2 (ten c0 c1 c2 c3 "-" c5 c6 "-" c8 c9))
    with (String c5 (String c6 "")) in Hm.
  change (String.substring 8 2 (ten c0 c1 c2 c3 "-" c5 c6 "-" c8 c9))
    with (String c8 (String c9 "")) in Hd.
  rewrite Hy, Hm, Hd.
  replace ((m <? 1) || (m >? 12) || (d <? 1) || (d >? 31)) with false; [reflexivity|].
  symmetry. rewrite !orb_false_iff, !Z.gtb_ltb, !Z.ltb_ge. lia.
Qed.


(** The fields of a date are read as parseInt reads them, so a field may
    carry a sign, white space or a trailing letter. *)
Example validateDate_lenient :
  validateDate "2025-1x-3y" = Some "2025-1x-3y"
  /\ validateDate "2025-+1- 7" = Some "2025-+1- 7"
  /\ validateDate "2025-13-01" = None
  /\ validateDate "2025-00-10" = None
  /\ validateDate "2025/01/01" = None
  /\ validateDate "2025-1-1" = None.
Proof. repeat split; reflexivity. Qed.

(** ** Stage order *)

Lemma orNull_truthy (s : option string) : orNull s <> Some EmptyString.
Proof. destruct s as [[|c r]|]; simpl; discriminate. Qed.

(** The date token of a parsed record is null or a non-empty string. *)
Lemma parseInstruction_execute_by (instruction : string) (parsed : Parsed.t) :
  parseInstruction instruction = ParseSuccess parsed ->
  Parsed.execute_by parsed <> Some EmptyString.
Proof.
  unfold parseInstruction. cbv zeta.
  match goal with
  | |- context [orNull ?x] => generalize (orNull_truthy x); generalize (orNull x)
  end.
  intros e He.
  repeat match goal with
         | |- context [if ?b then _ else _] => destruct b
         end;
    try discriminate; intros [= <-]; exact He.
Qed.

(** C3. The status code of a response is the code of the first stage, in
    the order tokenization, amount format, currency support, account
    existence, account distinctness, currency consistency, date validity,
    funds sufficiency, whose rule the request breaks, however many later
    rules it breaks as well; when it breaks none the code is AP01 or AP00. *)
Theorem stage_precedence (clock : Clock) (data : ServiceData.t) :
  Response.status_code (parseInstructionService clock data)
  = earliestFailure clock data.
Proof.
  unfold parseInstructionService, earliestFailure, stageOrder, firstViolation,
    violation.
  destruct (parseInstruction (ServiceData.instruction data)) as [e|p] eqn:Hp.
  - destruct e; reflexivity.
  - cbv zeta.
    pose proof (parseInstruction_execute_by _ _ Hp) as Hdate.
    destruct (validateAmount (Parsed.amount p)) as [n|]; [|reflexivity].
    destruct (unsupported (JS.toUpperCase (Parsed.currency p))); [reflexivity|].
    destruct (findAccount (ServiceData.accounts data) (Parsed.debit_account p))
      as [d|] eqn:Hd; [|reflexivity].
    destruct (findAccount (ServiceData.accounts data) (Parsed.credit_account p))
      as [c|] eqn:Hc; [|reflexivity].
    rewrite (findAccount_id _ _ _ Hd), (findAccount_id _ _ _ Hc).
    destruct (String.eqb (Parsed.debit_account p) (Parsed.credit_account p));
      [reflexivity|].
    destruct (String.eqb (JS.toUpperCase (Account.currency d))
                (JS.toUpperCase (Account.currency c))); [|reflexivity].
    destruct (String.eqb (JS.toUpperCase (Parsed.currency p))
                (JS.toUpperCase (Account.currency d))); [|reflexivity].
    simpl negb. cbv iota. simpl andb. cbv iota.
    unfold scheduled.
    destruct (Parsed.execute_by p) as [[|ch s]|].
    + congruence.
    + destruct (validateDate (String ch s)); [|reflexivity].
      destruct (isFutureDate clock (String ch s)); simpl;
        [reflexivity|].
      destruct (Qltb (Account.balance d) (inject_Z n)); reflexivity.
    + simpl. destruct (Qltb (Account.balance d) (inject_Z n)); reflexivity.
Qed.

(** Requests that break several rules at once. *)
Example precedence_amount_before_currency :
  Response.status_code (parseInstructionService noDates
    (request a1a2 "debit 1.5 XYZ from account q for credit to account q on never"))
  = AM01.
Proof. reflexivity. Qed.

Example precedence_currency_before_existence :
  Response.status_code (parseInstructionService noDates
    (request a1a2 "debit 15 XYZ from account q for credit to account q on never"))
  = CU02.
Proof. reflexivity. Qed.

Example precedence_existence_before_distinctness :
  Response.status_code (parseInstructionService noDates
    (request a1a2 "debit 15 NGN from account q for credit to account q on never"))
  = AC03.
Proof. reflexivity. Qed.

Example precedence_distinctness_before_date :
  Response.status_code (parseInstructionService noDates
    (request a1a2 "debit 5000 USD from account a1 for credit to account a1 on never"))
  = AC02.
Proof. reflexivity. Qed.

Example precedence_consistency_before_date :
  Response.status_code (parseInstructionService noDates
    (request a1a2 "debit 5000 USD from account a1 for credit to account a2 on never"))
  = CU01.
Proof. reflexivity. Qed.

Example precedence_date_before_funds :
  Response.status_code (parseInstructionService noDates
    (request a1a2 "debit 5000 NGN from account a1 for credit to account a2 on never"))
  = SY03.
Proof. reflexivity. Qed.

(** ** Doubles *)

Lemma pow2_nat (k : Z) : 0 <= k -> (JS.pow2 k == inject_Z (2 ^ k))%Q.
Proof. intros Hk. unfold JS.pow2. now rewrite Zpower_Qpower. Qed.

Lemma pow2_pos (e : Z) : (0 < JS.pow2 e)%Q.
Proof. apply Qpower_0_lt. reflexivity. Qed.

Lemma roundPositive_nonneg (q : Q) : (0 <= q)%Q -> (0 <= JS.roundPositive q)%Q.
Proof.
  intros Hq. unfold JS.roundPositive. cbv zeta.
  match goal with
  | |- context [Z.max (?l - 52) (-1074)] => generalize (Z.max (l - 52) (-1074))
  end.
  intros e.
  set (scaled := (q / JS.pow2 e)%Q).
  set (m := Qfloor scaled).
  assert (Hs : (0 <= scaled)%Q).
  { apply Qmult_le_0_compat; [assumption|].
    apply Qinv_le_0_compat, Qlt_le_weak, pow2_pos. }
  assert (Hm : 0 <= m).
  { unfold m. rewrite <- (Qfloor_Z 0). now apply Qfloor_resp_le. }
  match goal with
  | |- context [Qred (inject_Z ?x * JS.pow2 e)] => set (m' := x)
  end.
  assert (Hm' : 0 <= m').
  { unfold m'. destruct (_ ?= _)%Q; [destruct (Z.even m)|..]; lia. }
  assert (Hr : (0 <= Qred (inject_Z m' * JS.pow2 e))%Q).
  { rewrite Qred_correct. apply Qmult_le_0_compat.
    - change 0%Q with (inject_Z 0). now rewrite <- Zle_Qle.
    - apply Qlt_le_weak, pow2_pos. }
  destruct (Qle_bool (JS.pow2 1024) (Qred (inject_Z m' * JS.pow2 e)));
    [apply Qlt_le_weak, pow2_pos | exact Hr].
Qed.

(** An operation whose exact result is not negative yields a double that
    is not negative. *)
Lemma round_nonneg (q : Q) : (0 <= q)%Q -> (0 <= JS.round q)%Q.
Proof.
  intros Hq. unfold JS.round. destruct (Qnum q) eqn:E.
  - apply Qle_refl.
  - now apply roundPositive_nonneg.
  - exfalso. unfold Qle in Hq. simpl in Hq. rewrite E in Hq. lia.
Qed.

Lemma roundPositive_integer (z : Z) :
  0 < z <= 2 ^ 53 -> (JS.roundPositive (inject_Z z) == inject_Z z)%Q.
Proof.
  intros Hz. destruct (Z.eq_dec z (2 ^ 53)) as [->|Hne];
    [vm_compute; reflexivity|].
  unfold JS.roundPositive. cbv zeta.
  change (Qnum (inject_Z z)) with z.
  change (Z.log2 (Zpos (Qden (inject_Z z)))) with 0. rewrite Z.sub_0_r.
  destruct (Z.log2_spec z ltac:(lia)) as [Hlo Hhi].
  pose proof (Z.log2_nonneg z) as Hl0.
  assert (Hl : Z.log2 z <= 52).
  { apply Z.lt_succ_r. apply (Z.pow_lt_mono_r_iff 2); lia. }
  assert (Hle : Qle_bool (JS.pow2 (Z.log2 z)) (inject_Z z) = true).
  { apply Qle_bool_iff. rewrite pow2_nat by lia. now rewrite <- Zle_Qle. }
  rewrite Hle.
  replace (Z.max (Z.log2 z - 52) (-1074)) with (- (52 - Z.log2 z)) by lia.
  set (k := 52 - Z.log2 z).
  assert (Hp : (JS.pow2 (- k) == / inject_Z (2 ^ k))%Q).
  { unfold JS.pow2. rewrite Qpower_opp. now rewrite (Zpower_Qpower 2 k) by lia. }
  assert (Hscaled : (inject_Z z / JS.pow2 (- k) == inject_Z (z * 2 ^ k))%Q).
  { rewrite Hp. unfold Qdiv. now rewrite Qinv_involutive, inject_Z_mult. }
  assert (Hm : Qfloor (inject_Z z / JS.pow2 (- k)) = z * 2 ^ k).
  { rewrite Hscaled. apply Qfloor_Z. }
  rewrite Hm.
  assert (Hc : (inject_Z z / JS.pow2 (- k) - inject_Z (z * 2 ^ k) ?= 1 # 2)%Q = Lt).
  { rewrite Hscaled. rewrite <- Qlt_alt.
    setoid_replace (inject_Z (z * 2 ^ k) - inject_Z (z * 2 ^ k))%Q with 0%Q by ring.
    reflexivity. }
  rewrite Hc.
  assert (Hr : (Qred (inject_Z (z * 2 ^ k) * JS.pow2 (- k)) == inject_Z z)%Q).
  { rewrite Qred_correct, Hp, inject_Z_mult. field.
    change 0%Q with (inject_Z 0). rewrite inject_Z_injective.
    pose proof (Z.pow_pos_nonneg 2 k). lia. }
  destruct (Qle_bool (JS.pow2 1024) _) eqn:E; [|exact Hr].
  apply Qle_bool_iff in E. rewrite Hr, pow2_nat in E by lia.
  rewrite <- Zle_Qle in E.
  assert (2 ^ 53 < 2 ^ 1024) by (apply Z.pow_lt_mono_r; lia). lia.
Qed.

(** An integer up to 2^53 in absolute value is a double. *)
Lemma round_integer (z : Z) :
  Z.abs z <= 2 ^ 53 -> (JS.round (inject_Z z) == inject_Z z)%Q.
Proof.
  intros Hz. unfold JS.round. change (Qnum (inject_Z z)) with z.
  destruct z as [|p|p].
  - reflexivity.
  - apply roundPositive_integer. lia.
  - change (- inject_Z (Z.neg p))%Q with (inject_Z (Z.pos p)).
    rewrite roundPositive_integer by lia. reflexivity.
Qed.

Lemma toNumber_integer (z : Z) : Z.abs z <= 2 ^ 53 -> JS.toNumber z = z.
Proof.
  intros Hz. unfold JS.toNumber. rewrite round_integer by assumption.
  apply Qfloor_Z.
Qed.

(** ** Date and funds *)

Lemma Qltb_lt (x y : Q) : Qltb x y = true <-> (x < y)%Q.
Proof.
  unfold Qltb. rewrite negb_true_iff. split; intros H.
  - apply Qnot_le_lt. intros Hle. apply Qle_bool_iff in Hle. congruence.
  - destruct (Qle_bool y x) eqn:E; [|reflexivity].
    apply Qle_bool_iff in E. exfalso. now apply (Qlt_not_le x y).
Qed.

(** The response of a request that has reached the date stage, by the
    [isPending] the date block computes. *)
Lemma service_at_date_stage (clock : Clock) (data : ServiceData.t)
  (p : Parsed.t) (n : Z) (d c : Account.t) :
  reachesDateStage data p n d c ->
  let views :=
    getAccountsInOrder (ServiceData.accounts data)
      (Some (Parsed.debit_account p)) (Some (Parsed.credit_account p)) in
  let currency := JS.toUpperCase (Parsed.currency p) in
  let settle (isPending : bool) :=
    if negb isPending && Qltb (Account.balance d) (inject_Z n) then
      respond p (Some n) currency failed PaymentMessages.INSUFFICIENT_FUNDS AC01
        (unchanged views)
    else if isPending then
      respond p (Some n) currency pending PaymentMessages.TRANSACTION_PENDING AP01
        (unchanged views)
    else
      respond p (Some n) currency successful
        PaymentMessages.TRANSACTION_SUCCESSFUL AP00 (updated d c n views) in
  parseInstructionService clock data
  = match Parsed.execute_by p with
    | None => settle false
    | Some dateStr =>
        match validateDate dateStr with
        | None =>
            respond p (Some n) currency failed
              PaymentMessages.MALFORMED_INSTRUCTION SY03 (unchanged views)
        | Some _ => settle (isFutureDate clock dateStr)
        end
    end.
Proof.
  intros (Hp & Hn & Hcur & Hd & Hc & Hne & Hdc & Hpd).
  pose proof (parseInstruction_execute_by _ _ Hp) as Hdate.
  unfold parseInstructionService. rewrite Hp, Hn. cbv zeta.
  rewrite Hcur, Hd, Hc.
  apply String.eqb_neq in Hne. rewrite Hne.
  rewrite <- Hdc, Hpd, String.eqb_refl. simpl negb. cbv iota.
  destruct (Parsed.execute_by p) as [[|ch s]|]; [congruence| |]; reflexivity.
Qed.

Lemma localDay_of_day (tza day : Z) :
  - JSDate.msPerDay < tza < JSDate.msPerDay ->
  JSDate.localDay tza (day * JSDate.msPerDay) = if tza <? 0 then day - 1 else day.
Proof.
  intros Htza. unfold JSDate.localDay, JSDate.msPerDay in *.
  destruct (tza <? 0) eqn:E.
  - apply Z.ltb_lt in E. symmetry. apply (Z.div_unique _ _ _ (86400000 + tza)); lia.
  - apply Z.ltb_ge in E. symmetry. apply (Z.div_unique _ _ _ tza); lia.
Qed.

(** isFutureDate compares the local day of the clock with the local day
    in which the UTC midnight of the day named falls. *)
Lemma isFutureDate_days (tza now : Z) (otherwise : string -> option Z)
  (dateStr : string) (day : Z) :
  JSDate.dayOfDateOnly dateStr = Some day ->
  isFutureDate (JSDate.clock tza now otherwise) dateStr
  = (JSDate.localDay tza now <? JSDate.localDay tza (day * JSDate.msPerDay)).
Proof.
  intros Hday. unfold isFutureDate, JSDate.clock. simpl.
  rewrite Hday. unfold JSDate.localMidnight.
  generalize (JSDate.localDay tza now). intros today.
  generalize (JSDate.localDay tza (day * JSDate.msPerDay)). intros that.
  unfold JSDate.msPerDay.
  destruct (today <? that) eqn:E.
  - apply Z.ltb_lt in E. apply Z.ltb_lt. lia.
  - apply Z.ltb_ge in E. apply Z.ltb_ge. lia.
Qed.

Lemma parseInt_digit_head (c : ascii) (r : string) :
  JS.isDigit c = true ->
  JS.parseInt (String c r)
  = Some (JS.toNumber (JS.valueOfDigits ((JS.code c - 48) :: JS.digitsPrefix r))).
Proof.
  intros H.
  destruct c as [[] [] [] [] [] [] [] []]; try (vm_compute in H; discriminate H).
  all: unfold JS.parseInt; cbn [JS.trimStart].
  all: match goal with
       | |- context [JS.isWhiteSpace ?c] => change (JS.isWhiteSpace c) with false
       end.
  all: cbv iota; cbn [JS.digitsPrefix].
  all: match goal with
       | |- context [JS.isDigit ?c] => change (JS.isDigit c) with true
       end.
  all: cbv iota beta.
  all: match goal with
       | |- Some (1 * ?x) = _ =>
           replace (1 * x) with x by (destruct x; reflexivity)
       end.
  all: reflexivity.
Qed.

Lemma field_digits (s : string) :
  forall acc v : Z,
    0 <= acc ->
    JSDate.field s acc = Some v ->
    fold_left (fun a d => 10 * a + d) (JS.digitsPrefix s) acc = v
    /\ 0 <= v < (acc + 1) * 10 ^ Z.of_nat (String.length s).
Proof.
  induction s as [|c r IH]; intros acc v Hacc H.
  - simpl in *. injection H as <-. split; [reflexivity|lia].
  - cbn [JSDate.field] in H. cbn [JS.digitsPrefix].
    destruct (JS.isDigit c) eqn:D; [|discriminate].
    assert (Hc : 0 <= JS.code c - 48 <= 9).
    { unfold JS.isDigit in D. apply andb_true_iff in D.
      rewrite !Z.leb_le in D. lia. }
    apply IH in H; [|lia]. destruct H as [Hv Hb]. split; [exact Hv|].
    cbn [String.length]. rewrite Nat2Z.inj_succ, Z.pow_succ_r by lia.
    nia.
Qed.

Lemma field_parseInt (s : string) (v : Z) :
  s <> "" -> (String.length s <= 15)%nat ->
  JSDate.field s 0 = Some v -> JS.parseInt s = Some v.
Proof.
  intros Hne Hlen H. destruct s as [|c r]; [congruence|].
  assert (D : JS.isDigit c = true).
  { cbn [JSDate.field] in H. destruct (JS.isDigit c); [reflexivity|discriminate]. }
  rewrite parseInt_digit_head by assumption.
  destruct (field_digits _ _ _ (Z.le_refl 0) H) as [Hv Hb].
  cbn [JS.digitsPrefix] in Hv. rewrite D in Hv.
  unfold JS.valueOfDigits. rewrite Hv. f_equal. apply toNumber_integer.
  assert (10 ^ Z.of_nat (String.length (String c r)) <= 10 ^ 15).
  { apply Z.pow_le_mono_r; lia. }
  assert (10 ^ 15 <= 2 ^ 53) by (vm_compute; discriminate).
  lia.
Qed.

Lemma daysInMonth_le (y m : Z) : JSDate.daysInMonth y m <= 31.
Proof.
  unfold JSDate.daysInMonth.
  destruct (m =? 2); [destruct (JSDate.isLeapYear y); lia|].
  destruct ((m =? 4) || (m =? 6) || (m =? 9) || (m =? 11)); lia.
Qed.

(** A calendar day in the date-only form passes validateDate. *)
Lemma dayOfDateOnly_valid (s : string) (day : Z) :
  JSDate.dayOfDateOnly s = Some day -> validateDate s = Some s.
Proof.
  unfold JSDate.dayOfDateOnly.
  destruct (JS.len s =? 10) eqn:L; [|discriminate].
  apply Z.eqb_eq in L.
  assert (Hlen : String.length s = 10%nat) by (unfold JS.len in L; lia).
  destruct (length_ten s Hlen) as (c0&c1&c2&c3&c4&c5&c6&c7&c8&c9&->).
  change (JS.charAt (ten c0 c1 c2 c3 c4 c5 c6 c7 c8 c9) 4) with (String c4 "").
  change (JS.charAt (ten c0 c1 c2 c3 c4 c5 c6 c7 c8 c9) 7) with (String c7 "").
  change (JS.substring (ten c0 c1 c2 c3 c4 c5 c6 c7 c8 c9) 0 4)
    with (String c0 (String c1 (String c2 (String c3 "")))).
  change (JS.substring (ten c0 c1 c2 c3 c4 c5 c6 c7 c8 c9) 5 7)
    with (String c5 (String c6 "")).
  change (JS.substring (ten c0 c1 c2 c3 c4 c5 c6 c7 c8 c9) 8 10)
    with (String c8 (String c9 "")).
  cbn [andb].
  destruct (String.eqb (String c4 "") "-") eqn:E4; [|discriminate].
  destruct (String.eqb (String c7 "") "-") eqn:E7; [|discriminate].
  apply String.eqb_eq in E4, E7. injection E4 as ->. injection E7 as ->.
  cbn [andb].
  destruct (JSDate.field (String c0 (String c1 (String c2 (String c3 "")))) 0)
    as [y|] eqn:Fy; [|discriminate].
  destruct (JSDate.field (String c5 (String c6 "")) 0) as [m|] eqn:Fm;
    [|discriminate].
  destruct (JSDate.field (String c8 (String c9 "")) 0) as [d|] eqn:Fd;
    [|discriminate].
  destruct ((1 <=? m) && (m <=? 12) && (1 <=? d) && (d <=? JSDate.daysInMonth y m))
    eqn:R; [|discriminate].
  intros _. rewrite validateDate_ten.
  change (Ascii.eqb "-" "-") with true. cbn [negb orb].
  apply field_parseInt in Fy, Fm, Fd; try discriminate; try (simpl; lia).
  rewrite Fy, Fm, Fd.
  rewrite !andb_true_iff, !Z.leb_le in R. pose proof (daysInMonth_le y m).
  replace ((m <? 1) || (m >? 12) || (d <? 1) || (d >? 31)) with false; [reflexivity|].
  symmetry. rewrite !orb_false_iff, !Z.gtb_ltb, !Z.ltb_ge. lia.
Qed.

(** What isFutureDate answers on a host at a fixed offset of less than a
    day from UTC, for a date-only string of the calendar day [day], when the
    local day is [JSDate.localDay tza now]: east of Greenwich and at
    Greenwich, whether the day named is after the local day; west of
    Greenwich, whether the day before the day named is. *)
Theorem isFutureDate_at_offset (tza now : Z) (otherwise : string -> option Z)
  (dateStr : string) (day : Z) :
  - JSDate.msPerDay < tza < JSDate.msPerDay ->
  JSDate.dayOfDateOnly dateStr = Some day ->
  isFutureDate (JSDate.clock tza now otherwise) dateStr
  = (JSDate.localDay tza now <? (if tza <? 0 then day - 1 else day)).
Proof.
  intros Htza Hday.
  now rewrite (isFutureDate_days _ _ _ _ _ Hday), localDay_of_day.
Qed.

Lemma isFutureDate_at_offset_witness :
  isFutureDate fiveHoursBehind "2025-06-16" = true
  /\ isFutureDate (JSDate.clock 3600000 1749913200000 (fun _ => None)) "2025-06-15"
     = true.
Proof.
  split.
  - unfold fiveHoursBehind.
    rewrite (isFutureDate_at_offset (-18000000) 1749913200000 (fun _ => None)
               "2025-06-16" 20255);
      [vm_compute; reflexivity | unfold JSDate.msPerDay; lia
      | vm_compute; reflexivity].
  - rewrite (isFutureDate_at_offset 3600000 1749913200000 (fun _ => None)
               "2025-06-15" 20254);
      [vm_compute; reflexivity | unfold JSDate.msPerDay; lia
      | vm_compute; reflexivity].
Defined.

(** On a host at less than a day from UTC, what a request that has reached
    the date stage with a calendar day gets: pending with AP01 and the
    accounts as they were when the day named (west of Greenwich, the day
    before it) is after the local day; otherwise, and when there is no
    date, failed with AC01 and the accounts as they were when the debit
    balance is below the amount, successful with AP00 and the amount moved
    when it is not. *)
Theorem date_then_funds_at_offset (tza now : Z) (otherwise : string -> option Z)
  (data : ServiceData.t) (p : Parsed.t) (n : Z) (d c : Account.t) :
  - JSDate.msPerDay < tza < JSDate.msPerDay ->
  reachesDateStage data p n d c ->
  (forall (dateStr : string) (day : Z),
      Parsed.execute_by p = Some dateStr ->
      JSDate.dayOfDateOnly dateStr = Some day ->
      JSDate.localDay tza now < (if tza <? 0 then day - 1 else day) ->
      Response.status (parseInstructionService (JSDate.clock tza now otherwise) data)
      = pending
      /\ Response.status_code
           (parseInstructionService (JSDate.clock tza now otherwise) data) = AP01
      /\ Response.accounts
           (parseInstructionService (JSDate.clock tza now otherwise) data)
         = unchanged
             (getAccountsInOrder (ServiceData.accounts data)
                (Some (Parsed.debit_account p)) (Some (Parsed.credit_account p))))
  /\ (Parsed.execute_by p = None
      \/ (exists (dateStr : string) (day : Z),
             Parsed.execute_by p = Some dateStr
             /\ JSDate.dayOfDateOnly dateStr = Some day
             /\ (if tza <? 0 then day - 1 else day) <= JSDate.localDay tza now) ->
      ((Account.balance d < inject_Z n)%Q ->
       Response.status (parseInstructionService (JSDate.clock tza now otherwise) data)
       = failed
       /\ Response.status_code
            (parseInstructionService (JSDate.clock tza now otherwise) data) = AC01
       /\ Response.accounts
            (parseInstructionService (JSDate.clock tza now otherwise) data)
          = unchanged
              (getAccountsInOrder (ServiceData.accounts data)
                 (Some (Parsed.debit_account p)) (Some (Parsed.credit_account p))))
      /\ (~ (Account.balance d < inject_Z n)%Q ->
          Response.status
            (parseInstructionService (JSDate.clock tza now otherwise) data)
          = successful
          /\ Response.status_code
               (parseInstructionService (JSDate.clock tza now otherwise) data) = AP00
          /\ Response.accounts
               (parseInstructionService (JSDate.clock tza now otherwise) data)
             = updated d c n
                 (getAccountsInOrder (ServiceData.accounts data)
                    (Some (Parsed.debit_account p))
                    (Some (Parsed.credit_account p))))).
Proof.
  intros Htza Hreach.
  rewrite (service_at_date_stage _ data p n d c Hreach). cbv zeta.
  pose proof (Qltb_lt (Account.balance d) (inject_Z n)) as Hlt.
  split.
  - intros dateStr day -> Hday Hafter.
    rewrite (dayOfDateOnly_valid _ _ Hday).
    rewrite (isFutureDate_days _ _ _ _ _ Hday), localDay_of_day by assumption.
    apply Z.ltb_lt in Hafter. rewrite Hafter. repeat split.
  - intros Hnow.
    assert (Hsettle :
      match Parsed.execute_by p with
      | None => true
      | Some dateStr =>
          match validateDate dateStr with
          | None => false
          | Some _ => negb (isFutureDate (JSDate.clock tza now otherwise) dateStr)
          end
      end = true).
    { destruct Hnow as [->|(dateStr & day & -> & Hday & Hle)]; [reflexivity|].
      rewrite (dayOfDateOnly_valid _ _ Hday).
      rewrite (isFutureDate_days _ _ _ _ _ Hday), localDay_of_day by assumption.
      apply negb_true_iff, Z.ltb_ge. exact Hle. }
    destruct (Parsed.execute_by p) as [dateStr|].
    + destruct (validateDate dateStr); [|discriminate].
      apply negb_true_iff in Hsettle. rewrite Hsettle. cbn [negb andb].
      destruct (Qltb (Account.balance d) (inject_Z n)); split.
      * intros _. repeat split.
      * intros Hge. exfalso. apply Hge. now apply Hlt.
      * intros H. apply Hlt in H. discriminate.
      * intros _. repeat split.
    + cbn [negb andb].
      destruct (Qltb (Account.balance d) (inject_Z n)); split.
      * intros _. repeat split.
      * intros Hge. exfalso. apply Hge. now apply Hlt.
      * intros H. apply Hlt in H. discriminate.
      * intros _. repeat split.
Qed.

Lemma date_then_funds_at_offset_witness :
  Response.status
    (parseInstructionService (JSDate.clock 3600000 1749913200000 (fun _ => None))
       nextDayRequest) = pending
  /\ Response.status (parseInstructionService fiveHoursBehind nextDayRequest)
     = successful.
Proof.
  assert (Hreach : reachesDateStage nextDayRequest
                     (Parsed.make DEBIT "500" "NGN" "a1" "a2" (Some "2025-06-15"))
                     500 (acct "a1" 1000 "NGN") (acct "a2" 200 "NGN")).
  { repeat split; try (vm_compute; reflexivity). discriminate. }
  split.
  - apply (proj1 (date_then_funds_at_offset 3600000 1749913200000 (fun _ => None)
                    nextDayRequest _ 500 _ _
                    ltac:(unfold JSDate.msPerDay; lia) Hreach)
             "2025-06-15" 20254);
      [reflexivity | vm_compute; reflexivity | vm_compute; reflexivity].
  - apply (proj2 (date_then_funds_at_offset (-18000000) 1749913200000
                    (fun _ => None) nextDayRequest _ 500 _ _
                    ltac:(unfold JSDate.msPerDay; lia) Hreach)).
    + right. exists "2025-06-15", 20254.
      repeat split; vm_compute; try reflexivity. discriminate.
    + vm_compute. discriminate.
Defined.

(** C6. On a host five hours behind UTC, on 14 June 2025 at ten in the
    morning, a transfer dated 2025-06-15, a valid date that lies after the
    current day, is not left pending: isFutureDate answers false for that
    date, and the response is successful with AP00 and shows the amount
    moved. *)
Theorem next_day_is_executed_at_once :
  JSDate.localDay (-18000000) 1749913200000 = 20253
  /\ JSDate.dayOfDateOnly "2025-06-14" = Some 20253
  /\ JSDate.dayOfDateOnly "2025-06-15" = Some 20254
  /\ validateDate "2025-06-15" = Some "2025-06-15"
  /\ isFutureDate fiveHoursBehind "2025-06-15" = false
  /\ Response.execute_by (parseInstructionService fiveHoursBehind nextDayRequest)
     = Some "2025-06-15"
  /\ Response.status (parseInstructionService fiveHoursBehind nextDayRequest)
     = successful
  /\ Response.status_code (parseInstructionService fiveHoursBehind nextDayRequest)
     = AP00
  /\ Response.accounts (parseInstructionService fiveHoursBehind nextDayRequest)
     = [AccountView.make "a1" (inject_Z 500) (inject_Z 1000) "NGN";
        AccountView.make "a2" (inject_Z 700) (inject_Z 200) "NGN"].
Proof. repeat split; vm_compute; reflexivity. Qed.

(** The same request on a host five hours ahead of UTC at the same moment
    is left pending, the balances as they were. *)
Example next_day_is_pending_east :
  Response.status
    (parseInstructionService (JSDate.clock 18000000 1749913200000 (fun _ => None))
       nextDayRequest) = pending
  /\ map AccountView.balance
       (Response.accounts
          (parseInstructionService
             (JSDate.clock 18000000 1749913200000 (fun _ => None)) nextDayRequest))
     = [inject_Z 1000; inject_Z 200].
Proof. repeat split; vm_compute; reflexivity. Qed.

(** ** Immediate execution *)

Section UniqueIds.

Variables (x y : string).

Lemma getAccountsInOrder_absent (accounts : list Account.t) :
  ~ In x (map Account.id accounts) ->
  ~ In y (map Account.id accounts) ->
  getAccountsInOrder accounts (Some x) (Some y) = [].
Proof.
  induction accounts as [|a rest IH]; simpl; [reflexivity|]. intros Hx Hy.
  destruct (String.eqb (Account.id a) x) eqn:Ex;
    [apply String.eqb_eq in Ex; tauto|].
  destruct (String.eqb (Account.id a) y) eqn:Ey;
    [apply String.eqb_eq in Ey; tauto|].
  simpl. apply IH; tauto.
Qed.

Lemma findAccount_absent (accounts : list Account.t) (a : Account.t) :
  findAccount accounts x = Some a -> In x (map Account.id accounts).
Proof.
  intros H. rewrite <- (findAccount_id _ _ _ H).
  apply in_map. now apply findAccount_In with (accountId := x).
Qed.

End UniqueIds.

Lemma getAccountsInOrder_one (accounts : list Account.t) (x y : string)
  (a : Account.t) :
  NoDup (map Account.id accounts) ->
  findAccount accounts x = Some a ->
  ~ In y (map Account.id accounts) ->
  getAccountsInOrder accounts (Some x) (Some y) = [viewOf a]
  /\ getAccountsInOrder accounts (Some y) (Some x) = [viewOf a].
Proof.
  induction accounts as [|b rest IH]; simpl; [discriminate|].
  intros Hnd Hfind Hy. inversion Hnd as [|? ? Hb Hrest]; subst.
  destruct (String.eqb (Account.id b) y) eqn:Ey;
    [apply String.eqb_eq in Ey; tauto|].
  destruct (String.eqb (Account.id b) x) eqn:Ex.
  - injection Hfind as ->. apply String.eqb_eq in Ex. subst x. simpl.
    rewrite !getAccountsInOrder_absent by tauto. split; reflexivity.
  - simpl. apply IH; tauto.
Qed.

Lemma getAccountsInOrder_two (accounts : list Account.t) (x y : string)
  (d c : Account.t) :
  NoDup (map Account.id accounts) ->
  findAccount accounts x = Some d ->
  findAccount accounts y = Some c ->
  x <> y ->
  getAccountsInOrder accounts (Some x) (Some y) = [viewOf d; viewOf c]
  \/ getAccountsInOrder accounts (Some x) (Some y) = [viewOf c; viewOf d].
Proof.
  induction accounts as [|b rest IH]; simpl; [discriminate|].
  intros Hnd Hd Hc Hxy. inversion Hnd as [|? ? Hb Hrest]; subst.
  destruct (String.eqb (Account.id b) x) eqn:Ex.
  - injection Hd as ->. apply String.eqb_eq in Ex. subst x.
    destruct (String.eqb (Account.id d) y) eqn:Ey;
      [apply String.eqb_eq in Ey; contradiction|].
    simpl. left. f_equal.
    apply (getAccountsInOrder_one rest y (Account.id d) c); assumption.
  - destruct (String.eqb (Account.id b) y) eqn:Ey.
    + injection Hc as ->. apply String.eqb_eq in Ey. subst y.
      simpl. right. f_equal.
      apply (getAccountsInOrder_one rest x (Account.id c) d); assumption.
    + simpl. apply IH; assumption.
Qed.

Lemma updated_pair (d c : Account.t) (n : Z) :
  Account.id d <> Account.id c ->
  updated d c n [viewOf d; viewOf c] = [debited d n; credited c n]
  /\ updated d c n [viewOf c; viewOf d] = [credited c n; debited d n].
Proof.
  intros Hne. unfold updated, viewOf, debited, credited. simpl.
  rewrite !String.eqb_refl.
  assert (Hcd : String.eqb (Account.id c) (Account.id d) = false).
  { apply String.eqb_neq. congruence. }
  rewrite Hcd. split; reflexivity.
Qed.

(** With integer balances the two results are exact as long as they stay
    within 2^53. *)
Lemma integer_balances_are_exact (debit credit amount : Z) :
  Z.abs (debit - amount) <= 2 ^ 53 ->
  Z.abs (credit + amount) <= 2 ^ 53 ->
  (JS.round (inject_Z debit - inject_Z amount) == inject_Z (debit - amount))%Q
  /\ (JS.round (inject_Z credit + inject_Z amount) == inject_Z (credit + amount))%Q.
Proof.
  intros Hd Hc. split.
  - assert (R : JS.round (inject_Z debit - inject_Z amount)
                = JS.round (inject_Z (debit - amount))).
    { unfold Qminus, Qplus, Qopp, inject_Z. simpl. now rewrite !Z.mul_1_r. }
    rewrite R. now apply round_integer.
  - assert (R : JS.round (inject_Z credit + inject_Z amount)
                = JS.round (inject_Z (credit + amount))).
    { unfold Qplus, inject_Z. simpl. now rewrite !Z.mul_1_r. }
    rewrite R. now apply round_integer.
Qed.

(** What rounding takes away.  One unit sent to an account that holds
    2^53 leaves that balance as it was, so the balances of the successful
    response add up to one unit less than before.  One unit sent from the
    double 1.1 to the double 1.2 leaves 0.10000000000000009 and 2.2, which
    do not add up to what 1.1 and 1.2 add up to, neither exactly nor as
    doubles. *)
Lemma credit_lost_to_rounding :
  NoDup (map Account.id (ServiceData.accounts largeCredit))
  /\ Response.status (parseInstructionService noDates largeCredit) = successful
  /\ Response.amount (parseInstructionService noDates largeCredit) = Some 1
  /\ Response.accounts (parseInstructionService noDates largeCredit)
     = [AccountView.make "a1" (inject_Z 999) (inject_Z 1000) "NGN";
        AccountView.make "a2" (inject_Z 9007199254740992)
          (inject_Z 9007199254740992) "NGN"]
  /\ ~ (total (map AccountView.balance
                 (Response.accounts (parseInstructionService noDates largeCredit)))
        == total (map AccountView.balance_before
                    (Response.accounts (parseInstructionService noDates largeCredit))))%Q
  /\ Response.status (parseInstructionService noDates fractionalBalances) = successful
  /\ map AccountView.balance
       (Response.accounts (parseInstructionService noDates fractionalBalances))
     = [225179981368525 # 2251799813685248; 2476979795053773 # 1125899906842624]
  /\ ~ (total (map AccountView.balance
                 (Response.accounts
                    (parseInstructionService noDates fractionalBalances)))
        == total (map AccountView.balance_before
                    (Response.accounts
                       (parseInstructionService noDates fractionalBalances))))%Q
  /\ ~ (JS.round (total (map AccountView.balance
                 (Response.accounts
                    (parseInstructionService noDates fractionalBalances))))
        == JS.round (total (map AccountView.balance_before
                    (Response.accounts
                       (parseInstructionService noDates fractionalBalances)))))%Q.
Proof.
  repeat match goal with |- _ /\ _ => split end.
  - simpl. repeat constructor; simpl; intuition discriminate.
  - vm_compute. reflexivity.
  - vm_compute. reflexivity.
  - vm_compute. reflexivity.
  - vm_compute. discriminate.
  - vm_compute. reflexivity.
  - vm_compute. reflexivity.
  - vm_compute. discriminate.
  - vm_compute. discriminate.
Qed.

(** C1 (amended). In a successful response to a request whose account ids
    are unique, the accounts list consists of the entry of the debit account
    and of the entry of the credit account, in the order of the input; each
    [balance_before] is the input balance; the balance of the debit entry is
    the double nearest to [balance_before - amount], that of the credit
    entry the double nearest to [balance_before + amount].  When these two
    results are doubles themselves, the debit balance is lower by the
    amount, the credit balance higher by the amount, and the two balances
    add up to what the two [balance_before] add up to; so it is when the
    input balances are integers and the results stay within 2^53. *)
Theorem balance_conservation (clock : Clock) (data : ServiceData.t) :
  NoDup (map Account.id (ServiceData.accounts data)) ->
  Response.status (parseInstructionService clock data) = successful ->
  exists (n : Z) (d c : Account.t),
    0 < n
    /\ Response.amount (parseInstructionService clock data) = Some n
    /\ Response.debit_account (parseInstructionService clock data)
       = Some (Account.id d)
    /\ Response.credit_account (parseInstructionService clock data)
       = Some (Account.id c)
    /\ In d (ServiceData.accounts data)
    /\ In c (ServiceData.accounts data)
    /\ Account.id d <> Account.id c
    /\ (Response.accounts (parseInstructionService clock data)
        = [debited d n; credited c n]
        \/ Response.accounts (parseInstructionService clock data)
           = [credited c n; debited d n])
    /\ AccountView.balance_before (debited d n) = Account.balance d
    /\ AccountView.balance_before (credited c n) = Account.balance c
    /\ AccountView.balance (debited d n)
       = JS.round (AccountView.balance_before (debited d n) - inject_Z n)
    /\ AccountView.balance (credited c n)
       = JS.round (AccountView.balance_before (credited c n) + inject_Z n)
    /\ ((JS.round (Account.balance d - inject_Z n)
         == Account.balance d - inject_Z n)%Q ->
        (JS.round (Account.balance c + inject_Z n)
         == Account.balance c + inject_Z n)%Q ->
        (AccountView.balance (debited d n)
         == AccountView.balance_before (debited d n) - inject_Z n)%Q
        /\ (AccountView.balance (credited c n)
            == AccountView.balance_before (credited c n) + inject_Z n)%Q
        /\ (AccountView.balance (debited d n) + AccountView.balance (credited c n)
            == AccountView.balance_before (debited d n)
               + AccountView.balance_before (credited c n))%Q)
    /\ (forall debit credit : Z,
          Account.balance d = inject_Z debit ->
          Account.balance c = inject_Z credit ->
          Z.abs (debit - n) <= 2 ^ 53 ->
          Z.abs (credit + n) <= 2 ^ 53 ->
          (AccountView.balance (debited d n) == inject_Z (debit - n))%Q
          /\ (AccountView.balance (credited c n) == inject_Z (credit + n))%Q).
Proof.
  intros Hnd. pipeline; simpl; try discriminate; intros _.
  all: match goal with
  | Hd : findAccount _ (Parsed.debit_account ?p) = Some ?d,
    Hc : findAccount _ (Parsed.credit_account _) = Some ?c,
    Hn : validateAmount _ = Some ?n,
    He : String.eqb (Account.id ?d) (Account.id ?c) = false |- _ =>
      exists n, d, c;
      pose proof (findAccount_id _ _ _ Hd) as Hdid;
      pose proof (findAccount_id _ _ _ Hc) as Hcid;
      pose proof (findAccount_In _ _ _ Hd) as Hdin;
      pose proof (findAccount_In _ _ _ Hc) as Hcin;
      apply String.eqb_neq in He;
      apply validateAmount_sound in Hn;
      destruct Hn as (_ & _ & _ & _ & Hpos & _);
      assert (Hxy : Parsed.debit_account p <> Parsed.credit_account p)
        by congruence;
      destruct (getAccountsInOrder_two _ _ _ _ _ Hnd Hd Hc Hxy) as [Hv|Hv];
      rewrite Hv;
      destruct (updated_pair d c n He) as [U1 U2];
      rewrite ?U1, ?U2;
      rewrite Hdid, Hcid;
      repeat (split; [first [assumption | reflexivity | now left | now right]|]);
      split
  end.
  all: first
    [ intros Ed Ec; rewrite Ed, Ec; repeat split; first [reflexivity | ring]
    | intros debit credit Ed Ec Hbd Hbc; rewrite Ed, Ec;
      now apply integer_balances_are_exact ].
Qed.

Lemma balance_conservation_witness :
  Response.accounts (parseInstructionService noDates simpleRequest)
  = [AccountView.make "a1" (inject_Z 500) (inject_Z 1000) "NGN";
     AccountView.make "a2" (inject_Z 700) (inject_Z 200) "NGN"]
  /\ exists (n : Z) (d c : Account.t),
       Response.amount (parseInstructionService noDates simpleRequest) = Some n
       /\ (Response.accounts (parseInstructionService noDates simpleRequest)
           = [debited d n; credited c n]
           \/ Response.accounts (parseInstructionService noDates simpleRequest)
              = [credited c n; debited d n]).
Proof.
  split; [vm_compute; reflexivity|].
  assert (Hnd : NoDup (map Account.id (ServiceData.accounts simpleRequest))).
  { simpl. repeat constructor; simpl; intuition discriminate. }
  destruct (balance_conservation noDates simpleRequest Hnd eq_refl)
    as (n & d & c & _ & Hn & _ & _ & _ & _ & _ & Hv & _).
  exists n, d, c. split; assumption.
Defined.

(** ** Identifiers with capital letters *)

Lemma lowerChar_not_upper (c : ascii) : JS.isUpper (JS.lowerChar c) = false.
Proof. destruct c as [[] [] [] [] [] [] [] []]; reflexivity. Qed.

Lemma hasUpper_toLowerCase (s : string) : hasUpper (JS.toLowerCase s) = false.
Proof.
  unfold JS.toLowerCase.
  induction s as [|c r IH]; simpl; [reflexivity|].
  now rewrite lowerChar_not_upper, IH.
Qed.

Lemma hasUpper_cons (c : ascii) (r : string) :
  hasUpper (String c r) = false <-> JS.isUpper c = false /\ hasUpper r = false.
Proof. simpl. apply orb_false_iff. Qed.

Lemma hasUpper_trimStart (s : string) :
  hasUpper s = false -> hasUpper (JS.trimStart s) = false.
Proof.
  induction s as [|c r IH]; [auto|]. intros H.
  pose proof (proj1 (hasUpper_cons c r) H) as [Hc Hr].
  simpl JS.trimStart. destruct (JS.isWhiteSpace c); auto.
Qed.

Lemma hasUpper_trimEnd (s : string) :
  hasUpper s = false -> hasUpper (JS.trimEnd s) = false.
Proof.
  induction s as [|c r IH]; [auto|]. intros H.
  apply hasUpper_cons in H. destruct H as [Hc Hr]. specialize (IH Hr).
  simpl JS.trimEnd. destruct (JS.trimEnd r) as [|c' r'].
  - destruct (JS.isWhiteSpace c); [reflexivity|].
    apply hasUpper_cons. split; [assumption|reflexivity].
  - apply hasUpper_cons. split; assumption.
Qed.

Lemma hasUpper_trim (s : string) : hasUpper s = false -> hasUpper (JS.trim s) = false.
Proof. intros H. unfold JS.trim. now apply hasUpper_trimEnd, hasUpper_trimStart. Qed.

Lemma hasUpper_slice (s : string) (n m : nat) :
  hasUpper s = false -> hasUpper (String.substring n m s) = false.
Proof.
  revert n m. induction s as [|c r IH]; intros n m H.
  - destruct n, m; reflexivity.
  - apply hasUpper_cons in H. destruct H as [Hc Hr].
    destruct n as [|n]; [destruct m as [|m]|]; simpl.
    + reflexivity.
    + rewrite Hc. simpl. now apply IH.
    + now apply IH.
Qed.

Lemma hasUpper_substring (s : string) (a b : Z) :
  hasUpper s = false -> hasUpper (JS.substring s a b) = false.
Proof. intros H. unfold JS.substring. now apply hasUpper_slice. Qed.

(** The identifiers of a parsed record are cut out of the lowercased
    instruction: they carry no capital letter. *)
Lemma parseInstruction_ids_lower (instruction : string) (parsed : Parsed.t) :
  parseInstruction instruction = ParseSuccess parsed ->
  hasUpper (Parsed.debit_account parsed) = false
  /\ hasUpper (Parsed.credit_account parsed) = false.
Proof.
  assert (Hnorm : hasUpper (JS.trim (JS.toLowerCase instruction)) = false)
    by apply hasUpper_trim, hasUpper_toLowerCase.
  unfold parseInstruction. cbv zeta.
  generalize dependent (JS.trim (JS.toLowerCase instruction)).
  intros normalized Hnorm.
  match goal with
  | |- context [orNull ?x] => generalize (orNull x)
  end.
  intros e.
  repeat match goal with
         | |- context [if ?b then _ else _] => destruct b
         end;
    try discriminate; intros [= <-]; cbn [Parsed.debit_account Parsed.credit_account];
    split; apply hasUpper_trim, hasUpper_substring; exact Hnorm.
Qed.

Lemma hasUpper_differs (s t : string) :
  hasUpper s = true -> hasUpper t = false -> t <> s.
Proof. intros Hs Ht ->. congruence. Qed.

(** C10. An account whose id has a capital letter is out of reach of every
    instruction: the identifiers the scanner extracts are lowercased and
    findAccount compares ids as they are, so neither identifier is that id
    and no response lists the account; an instruction that is tokenized,
    has a valid amount and a supported currency and names the id (its
    debit or credit identifier is the id in lower case) is answered with
    AC03 when no account carries the lowercased id. *)
Theorem capital_id_is_unreachable (clock : Clock) (accounts : list Account.t)
  (instruction : string) (a : Account.t) :
  In a accounts ->
  hasUpper (Account.id a) = true ->
  (forall p : Parsed.t,
      parseInstruction instruction = ParseSuccess p ->
      Parsed.debit_account p <> Account.id a
      /\ Parsed.credit_account p <> Account.id a
      /\ findAccount accounts (Parsed.debit_account p) <> Some a
      /\ findAccount accounts (Parsed.credit_account p) <> Some a)
  /\ ~ In (Account.id a)
         (map AccountView.id
            (Response.accounts
               (parseInstructionService clock (request accounts instruction))))
  /\ (forall (p : Parsed.t) (n : Z),
         parseInstruction instruction = ParseSuccess p ->
         validateAmount (Parsed.amount p) = Some n ->
         unsupported (JS.toUpperCase (Parsed.currency p)) = false ->
         Parsed.debit_account p = JS.toLowerCase (Account.id a)
         \/ Parsed.credit_account p = JS.toLowerCase (Account.id a) ->
         (forall b : Account.t,
             In b accounts -> Account.id b <> JS.toLowerCase (Account.id a)) ->
         Response.status
           (parseInstructionService clock (request accounts instruction)) = failed
         /\ Response.status_code
              (parseInstructionService clock (request accounts instruction)) = AC03).
Proof.
  intros Hin Hup.
  assert (Hids : forall p : Parsed.t,
             parseInstruction instruction = ParseSuccess p ->
             Parsed.debit_account p <> Account.id a
             /\ Parsed.credit_account p <> Account.id a).
  { intros p Hp. destruct (parseInstruction_ids_lower _ _ Hp) as [Hd Hc].
    split; apply hasUpper_differs; assumption. }
  split; [|split].
  - intros p Hp. destruct (Hids p Hp) as [Hd Hc].
    repeat split; try assumption.
    + intros Hf. apply findAccount_id in Hf. congruence.
    + intros Hf. apply findAccount_id in Hf. congruence.
  - intros Hlisted.
    pose proof (response_accounts_keys clock (request accounts instruction))
      as Hkeys.
    apply (f_equal (map (fun k : string * Q * string => fst (fst k)))) in Hkeys.
    rewrite !map_map in Hkeys. simpl in Hkeys.
    change (map (fun v => AccountView.id v)) with (map AccountView.id) in Hkeys.
    rewrite Hkeys in Hlisted. apply in_map_iff in Hlisted.
    destruct Hlisted as (b & Hb & Hfilter). apply filter_In in Hfilter.
    destruct Hfilter as [_ Hwanted]. rewrite Hb in Hwanted.
    revert Hwanted. unfold parseInstructionService, request. simpl.
    destruct (parseInstruction instruction) as [e|p] eqn:Hp.
    + destruct e; discriminate.
    + destruct (Hids p eq_refl) as [Hd Hc].
      assert (Hw : sameId (Account.id a) (Some (Parsed.debit_account p))
                   || sameId (Account.id a) (Some (Parsed.credit_account p)) = false).
      { simpl. apply orb_false_iff. split; apply String.eqb_neq; congruence. }
      cbv zeta.
      repeat match goal with
             | |- context [match ?x with _ => _ end] =>
                 lazymatch x with
                 | context [sameId] => fail
                 | _ => destruct x
                 end
             end; simpl Response.debit_account; simpl Response.credit_account;
        rewrite Hw; discriminate.
  - intros p n Hp Hn Hcur Hnames Hnone.
    apply findAccount_none in Hnone.
    unfold parseInstructionService, request. simpl. rewrite Hp, Hn. cbv zeta.
    rewrite Hcur.
    destruct Hnames as [-> | ->]; rewrite Hnone.
    + split; reflexivity.
    + destruct (findAccount accounts (Parsed.debit_account p)); split; reflexivity.
Qed.

Lemma capital_id_is_unreachable_witness :
  Response.status
    (parseInstructionService noDates (request capitalAccounts capitalInstruction))
  = failed
  /\ Response.status_code
       (parseInstructionService noDates (request capitalAccounts capitalInstruction))
     = AC03.
Proof.
  assert (Hin : In (acct "A1" 1000 "NGN") capitalAccounts) by (left; reflexivity).
  assert (Hup : hasUpper (Account.id (acct "A1" 1000 "NGN")) = true) by reflexivity.
  apply (proj2 (proj2 (capital_id_is_unreachable noDates capitalAccounts
                         capitalInstruction (acct "A1" 1000 "NGN") Hin Hup))
           parsedCapital 500); try reflexivity.
  - left. reflexivity.
  - intros b [<-|[<-|[]]]; vm_compute; discriminate.
Defined.
(** ** Letter case and surrounding white space of the instruction *)

Lemma lowerChar_upperChar (c : ascii) : JS.lowerChar (JS.upperChar c) = JS.lowerChar c.
Proof. destruct c as [[] [] [] [] [] [] [] []]; reflexivity. Qed.

Lemma lowerChar_idem (c : ascii) : JS.lowerChar (JS.lowerChar c) = JS.lowerChar c.
Proof. destruct c as [[] [] [] [] [] [] [] []]; reflexivity. Qed.

Lemma isWhiteSpace_lowerChar (c : ascii) :
  JS.isWhiteSpace (JS.lowerChar c) = JS.isWhiteSpace c.
Proof. destruct c as [[] [] [] [] [] [] [] []]; reflexivity. Qed.

Lemma toLowerCase_toUpperCase (s : string) :
  JS.toLowerCase (JS.toUpperCase s) = JS.toLowerCase s.
Proof.
  unfold JS.toLowerCase, JS.toUpperCase.
  induction s as [|c r IH]; simpl; [reflexivity|].
  now rewrite lowerChar_upperChar, IH.
Qed.

Lemma toLowerCase_idem (s : string) :
  JS.toLowerCase (JS.toLowerCase s) = JS.toLowerCase s.
Proof.
  unfold JS.toLowerCase.
  induction s as [|c r IH]; simpl; [reflexivity|].
  now rewrite lowerChar_idem, IH.
Qed.

Lemma toLowerCase_trimStart (s : string) :
  JS.toLowerCase (JS.trimStart s) = JS.trimStart (JS.toLowerCase s).
Proof.
  unfold JS.toLowerCase.
  induction s as [|c r IH]; simpl; [reflexivity|].
  rewrite isWhiteSpace_lowerChar. destruct (JS.isWhiteSpace c); [exact IH|reflexivity].
Qed.

Lemma toLowerCase_trimEnd (s : string) :
  JS.toLowerCase (JS.trimEnd s) = JS.trimEnd (JS.toLowerCase s).
Proof.
  unfold JS.toLowerCase.
  induction s as [|c r IH]; simpl; [reflexivity|].
  rewrite <- IH, isWhiteSpace_lowerChar.
  destruct (JS.trimEnd r); simpl; [destruct (JS.isWhiteSpace c)|]; reflexivity.
Qed.

Lemma toLowerCase_trim (s : string) :
  JS.toLowerCase (JS.trim s) = JS.trim (JS.toLowerCase s).
Proof. unfold JS.trim. now rewrite toLowerCase_trimEnd, toLowerCase_trimStart. Qed.

Lemma trimEnd_idem (s : string) : JS.trimEnd (JS.trimEnd s) = JS.trimEnd s.
Proof.
  induction s as [|c r IH]; [reflexivity|]. simpl.
  destruct (JS.trimEnd r) as [|c' r'] eqn:E.
  - destruct (JS.isWhiteSpace c) eqn:W; simpl; [reflexivity|]. now rewrite W.
  - change (JS.trimEnd (String c (String c' r')))
      with (match JS.trimEnd (String c' r') with
            | EmptyString =>
                if JS.isWhiteSpace c then EmptyString else String c EmptyString
            | x => String c x
            end).
    now rewrite IH.
Qed.

Lemma trimStart_clean (s : string) : startsClean (JS.trimStart s).
Proof.
  induction s as [|c r IH]; simpl; [exact I|].
  destruct (JS.isWhiteSpace c) eqn:W; [exact IH|exact W].
Qed.

Lemma trimStart_of_clean (s : string) : startsClean s -> JS.trimStart s = s.
Proof. destruct s as [|c r]; simpl; [reflexivity|]. now intros ->. Qed.

Lemma trimEnd_clean (s : string) : startsClean s -> startsClean (JS.trimEnd s).
Proof.
  destruct s as [|c r]; simpl; [auto|]. intros W.
  destruct (JS.trimEnd r); [rewrite W|]; exact W.
Qed.

Lemma trim_idem (s : string) : JS.trim (JS.trim s) = JS.trim s.
Proof.
  unfold JS.trim.
  rewrite (trimStart_of_clean (JS.trimEnd (JS.trimStart s)))
    by apply trimEnd_clean, trimStart_clean.
  apply trimEnd_idem.
Qed.

(** Capitals, small letters and white space around an instruction in
    ASCII change nothing: the service answers such an instruction as it
    answers its capitalised, its lowercased and its trimmed form. *)
Theorem instruction_case_and_padding (clock : Clock) (accounts : list Account.t)
  (instruction : string) :
  JS.isAscii instruction = true ->
  parseInstructionService clock (request accounts (JS.toUpperCase instruction))
  = parseInstructionService clock (request accounts instruction)
  /\ parseInstructionService clock (request accounts (JS.toLowerCase instruction))
     = parseInstructionService clock (request accounts instruction)
  /\ parseInstructionService clock (request accounts (JS.trim instruction))
     = parseInstructionService clock (request accounts instruction).
Proof.
  assert (Hparse : forall s t : string,
             JS.trim (JS.toLowerCase s) = JS.trim (JS.toLowerCase t) ->
             parseInstructionService clock (request accounts s)
             = parseInstructionService clock (request accounts t)).
  { intros s t H. unfold parseInstructionService, request, parseInstruction.
    simpl ServiceData.instruction. simpl ServiceData.accounts. now rewrite H. }
  intros _. repeat split; apply Hparse.
  - now rewrite toLowerCase_toUpperCase.
  - now rewrite toLowerCase_idem.
  - now rewrite toLowerCase_trim, trim_idem.
Qed.

Lemma instruction_case_and_padding_witness :
  parseInstructionService noDates
    (request a1a2 "  DEBIT 500 NGN FROM ACCOUNT A1 FOR CREDIT TO ACCOUNT A2 ")
  = parseInstructionService noDates
      (request a1a2 "  Debit 500 ngn from Account a1 for credit to account A2 ")
  /\ Response.status
       (parseInstructionService noDates
          (request a1a2 "  Debit 500 ngn from Account a1 for credit to account A2 "))
     = successful.
Proof.
  split; [|vm_compute; reflexivity].
  apply (proj1 (instruction_case_and_padding noDates a1a2
    "  Debit 500 ngn from Account a1 for credit to account A2 " eq_refl)).
Defined.

(** ** First match *)

(** findAccount answers the first account that carries the id: the one
    before which no account has it; it answers null exactly when no account
    has the id. *)
Theorem findAccount_first_match (accounts : list Account.t) (accountId : string) :
  (forall a : Account.t,
      findAccount accounts accountId = Some a <->
      exists before after : list Account.t,
        accounts = (before ++ a :: after)%list
        /\ Account.id a = accountId
        /\ forall b : Account.t, In b before -> Account.id b <> accountId)
  /\ (findAccount accounts accountId = None <->
      forall b : Account.t, In b accounts -> Account.id b <> accountId).
Proof.
  induction accounts as [|h rest [IHsome IHnone]]; simpl.
  - split.
    + intros a. split; [discriminate|].
      intros (before & after & H & _). destruct before; discriminate.
    + split; [intros _ b []|reflexivity].
  - destruct (String.eqb (Account.id h) accountId) eqn:E.
    + apply String.eqb_eq in E. split.
      * intros a. split.
        -- intros [= <-]. exists [], rest. repeat split; auto.
        -- intros (before & after & H & Hid & Hnot).
           destruct before as [|b before]; simpl in H.
           ++ now injection H as <- _.
           ++ injection H as <- _. exfalso. apply (Hnot h); [now left|exact E].
      * split; [discriminate|]. intros H. exfalso. apply (H h); [now left|exact E].
    + apply String.eqb_neq in E. split.
      * intros a. rewrite IHsome. split.
        -- intros (before & after & -> & Hid & Hnot).
           exists (h :: before), after. repeat split; auto.
           intros b [<-|Hb]; auto.
        -- intros (before & after & H & Hid & Hnot).
           destruct before as [|b before]; simpl in H.
           ++ injection H as -> _. contradiction.
           ++ injection H as _ ->. exists before, after. repeat split; auto.
              intros b' Hb'. apply Hnot. now right.
      * rewrite IHnone. split.
        -- intros H b [<-|Hb]; auto.
        -- intros H b Hb. apply H. now right.
Qed.

(** ** Coherence of a response *)

(** Status, code and reason of a response go together: the status is
    successful exactly for AP00, pending exactly for AP01 and failed for
    every other code, and the reason is the catalogue entry of the code. *)
Theorem status_code_reason_agree (clock : Clock) (data : ServiceData.t) :
  Response.status (parseInstructionService clock data)
  = statusOf (Response.status_code (parseInstructionService clock data))
  /\ Response.status_reason (parseInstructionService clock data)
     = reasonOf (Response.status_code (parseInstructionService clock data)).
Proof. pipeline; split; reflexivity. Qed.

(** The amount of a response is null exactly when the scanner failed or the
    code is AM01; otherwise it is the positive integer validateAmount read
    from the amount token. *)
Theorem response_amount (clock : Clock) (data : ServiceData.t) :
  (Response.amount (parseInstructionService clock data) = None <->
   Response.type (parseInstructionService clock data) = None
   \/ Response.status_code (parseInstructionService clock data) = AM01)
  /\ (forall n : Z,
         Response.amount (parseInstructionService clock data) = Some n ->
         0 < n
         /\ exists p : Parsed.t,
              parseInstruction (ServiceData.instruction data) = ParseSuccess p
              /\ Parsed.amount p = JS.toString n).
Proof.
  split.
  - pipeline; simpl; split; auto; try discriminate;
      intros [H|H]; discriminate.
  - intros n.
    destruct (parseInstruction (ServiceData.instruction data)) as [e|p] eqn:Hp.
    + unfold parseInstructionService. rewrite Hp. destruct e; discriminate.
    + unfold parseInstructionService. rewrite Hp. cbv zeta.
      destruct (validateAmount (Parsed.amount p)) as [m|] eqn:Hm; [|discriminate].
      apply validateAmount_sound in Hm.
      destruct Hm as (_ & _ & _ & _ & Hpos & Hstr).
      repeat match goal with
             | |- context [match ?x with _ => _ end] => destruct x
             end; simpl; intros [= <-]; (split; [assumption|]);
        exists p; split; congruence.
Qed.

Lemma upperChar_idem (c : ascii) : JS.upperChar (JS.upperChar c) = JS.upperChar c.
Proof. destruct c as [[] [] [] [] [] [] [] []]; reflexivity. Qed.

Lemma toUpperCase_idem (s : string) :
  JS.toUpperCase (JS.toUpperCase s) = JS.toUpperCase s.
Proof.
  unfold JS.toUpperCase.
  induction s as [|c r IH]; simpl; [reflexivity|].
  now rewrite upperChar_idem, IH.
Qed.

(** The currency token of a parsed record is already in capitals. *)
Lemma parseInstruction_currency_upper (instruction : string) (parsed : Parsed.t) :
  parseInstruction instruction = ParseSuccess parsed ->
  JS.toUpperCase (Parsed.currency parsed) = Parsed.currency parsed.
Proof.
  unfold parseInstruction. cbv zeta.
  match goal with
  | |- context [orNull ?x] => generalize (orNull x)
  end.
  intros e.
  repeat match goal with
         | |- context [if ?b then _ else _] => destruct b
         end;
    try discriminate; intros [= <-]; cbn [Parsed.currency];
    apply toUpperCase_idem.
Qed.

(** The fields of a response are null together: after a scanner failure
    type, amount, currency, both identifiers and the date are null and no
    account is listed; otherwise type, currency, both identifiers and the
    date are those of the parsed record, whatever the stage that answers. *)
Theorem response_fields_null_together (clock : Clock) (data : ServiceData.t) :
  (forall e : SyntaxError,
      parseInstruction (ServiceData.instruction data) = ParseFailure e ->
      parseInstructionService clock data
      = Response.make None None None None None None failed
          (reasonOf (codeOfSyntaxError e)) (codeOfSyntaxError e) [])
  /\ (forall p : Parsed.t,
         parseInstruction (ServiceData.instruction data) = ParseSuccess p ->
         Response.type (parseInstructionService clock data)
         = Some (Parsed.type p)
         /\ Response.currency (parseInstructionService clock data)
            = Some (Parsed.currency p)
         /\ Response.debit_account (parseInstructionService clock data)
            = Some (Parsed.debit_account p)
         /\ Response.credit_account (parseInstructionService clock data)
            = Some (Parsed.credit_account p)
         /\ Response.execute_by (parseInstructionService clock data)
            = Parsed.execute_by p).
Proof.
  split.
  - intros e He. unfold parseInstructionService. rewrite He. destruct e; reflexivity.
  - intros p Hp.
    pose proof (parseInstruction_currency_upper _ _ Hp) as Hup.
    unfold parseInstructionService. rewrite Hp. cbv zeta. rewrite Hup.
    repeat match goal with
           | |- context [match ?x with _ => _ end] => destruct x eqn:?
           end; simpl; repeat split; congruence.
Qed.

(** ** Scheduling and the clock *)

(** A response is pending only for an instruction that carries a date
    validateDate accepts and isFutureDate places after today; a successful
    response belongs to an instruction without a date or with an accepted
    date that is not after today. *)
Theorem pending_needs_a_future_date (clock : Clock) (data : ServiceData.t) :
  (Response.status (parseInstructionService clock data) = pending ->
   exists dateStr : string,
     Response.execute_by (parseInstructionService clock data) = Some dateStr
     /\ validateDate dateStr = Some dateStr
     /\ isFutureDate clock dateStr = true)
  /\ (Response.status (parseInstructionService clock data) = successful ->
      Response.execute_by (parseInstructionService clock data) = None
      \/ exists dateStr : string,
           Response.execute_by (parseInstructionService clock data) = Some dateStr
           /\ validateDate dateStr = Some dateStr
           /\ isFutureDate clock dateStr = false).
Proof.
  split.
  - pipeline; simpl; try discriminate; intros _.
    all: match goal with
         | Hx : Parsed.execute_by _ = Some ?d, Hv : validateDate ?d = Some ?v,
           Hf : isFutureDate _ ?d = true |- _ =>
             exists d; rewrite Hx; repeat split; try assumption;
             rewrite Hv; f_equal;
             assert (Hnn : validateDate d <> None) by congruence;
             apply validateDate_sound, validateDate_complete in Hnn; congruence
         end.
  - pipeline; simpl; try discriminate; intros _.
    all: match goal with
         | Hx : Parsed.execute_by _ = None |- _ => left; exact Hx
         | Hx : Parsed.execute_by _ = Some ?d, Hv : validateDate ?d = Some ?v,
           Hf : isFutureDate _ ?d = false |- _ =>
             right; exists d; rewrite Hx; repeat split; try assumption;
             rewrite Hv; f_equal;
             assert (Hnn : validateDate d <> None) by congruence;
             apply validateDate_sound, validateDate_complete in Hnn; congruence
         | Hx : Parsed.execute_by _ = Some EmptyString,
           Hp : parseInstruction _ = ParseSuccess _ |- _ =>
             exfalso; exact (parseInstruction_execute_by _ _ Hp Hx)
         end.
Qed.

Lemma response_execute_by (clock : Clock) (data : ServiceData.t) (p : Parsed.t) :
  parseInstruction (ServiceData.instruction data) = ParseSuccess p ->
  Response.execute_by (parseInstructionService clock data) = Parsed.execute_by p.
Proof.
  intros Hp. unfold parseInstructionService. rewrite Hp. cbv zeta.
  repeat match goal with
         | |- context [match ?x with _ => _ end] => destruct x eqn:?
         end; simpl; congruence.
Qed.

(** The clock matters only through the date of the instruction: two clocks
    that classify that date alike get the same response, and without a date
    every clock gets the same response. *)
Theorem clock_matters_only_for_the_date (clock clock' : Clock)
  (data : ServiceData.t) :
  (forall dateStr : string,
      Response.execute_by (parseInstructionService clock data) = Some dateStr ->
      isFutureDate clock' dateStr = isFutureDate clock dateStr) ->
  parseInstructionService clock' data = parseInstructionService clock data.
Proof.
  intros H.
  destruct (parseInstruction (ServiceData.instruction data)) as [e|p] eqn:Hp.
  - unfold parseInstructionService. now rewrite Hp.
  - rewrite (response_execute_by clock data p Hp) in H.
    unfold parseInstructionService. rewrite Hp. cbv zeta.
    repeat match goal with
           | |- context [match ?x with _ => _ end] =>
               lazymatch x with
               | context [isFutureDate] => fail
               | _ => destruct x eqn:?
               end
           end; try reflexivity.
    all: rewrite (H _ eq_refl); reflexivity.
Qed.

Lemma clock_matters_only_for_the_date_witness :
  parseInstructionService allFuture simpleRequest
  = parseInstructionService noDates simpleRequest.
Proof.
  apply (clock_matters_only_for_the_date noDates allFuture simpleRequest).
  intros dateStr H. vm_compute in H. discriminate.
Defined.

(** ** What an accepted transfer has passed *)

(** A response that is not failed comes from a request that passed every
    check up to the date; its accounts are the resolver's view, updated
    when the response is successful, in which case the debit account held
    the amount. *)
Lemma accepted_inv (clock : Clock) (data : ServiceData.t) :
  Response.status (parseInstructionService clock data) <> failed ->
  exists (p : Parsed.t) (n : Z) (d c : Account.t),
    reachesDateStage data p n d c
    /\ Response.amount (parseInstructionService clock data) = Some n
    /\ Response.currency (parseInstructionService clock data)
       = Some (JS.toUpperCase (Parsed.currency p))
    /\ Response.debit_account (parseInstructionService clock data)
       = Some (Parsed.debit_account p)
    /\ Response.credit_account (parseInstructionService clock data)
       = Some (Parsed.credit_account p)
    /\ (Response.status (parseInstructionService clock data) = pending
        /\ Response.accounts (parseInstructionService clock data)
           = unchanged
               (getAccountsInOrder (ServiceData.accounts data)
                  (Some (Parsed.debit_account p))
                  (Some (Parsed.credit_account p)))
        \/ Response.status (parseInstructionService clock data) = successful
           /\ Qltb (Account.balance d) (inject_Z n) = false
           /\ Response.accounts (parseInstructionService clock data)
              = updated d c n
                  (getAccountsInOrder (ServiceData.accounts data)
                     (Some (Parsed.debit_account p))
                     (Some (Parsed.credit_account p)))).
Proof.
  pipeline; simpl; try congruence; intros _.
  all: match goal with
       | Hp : parseInstruction _ = ParseSuccess ?p,
         Hn : validateAmount _ = Some ?n,
         Hd : findAccount _ (Parsed.debit_account _) = Some ?d,
         Hc : findAccount _ (Parsed.credit_account _) = Some ?c,
         He : String.eqb (Account.id ?d) (Account.id ?c) = false,
         H1 : negb (String.eqb _ _) = false,
         H2 : negb (String.eqb (JS.toUpperCase (Parsed.currency _)) _) = false
         |- _ =>
           exists p, n, d, c;
           apply negb_false_iff, String.eqb_eq in H1;
           apply negb_false_iff, String.eqb_eq in H2;
           apply String.eqb_neq in He;
           split; [repeat split; assumption|];
           repeat (split; [reflexivity|])
       end.
  all: first [ left; split; reflexivity
             | right; split; [reflexivity|split; [|reflexivity]] ].
  all: match goal with
       | H : negb _ && Qltb _ _ = false |- _ => simpl in H; exact H
       end.
Qed.

Lemma getAccountsInOrder_ids (accounts : list Account.t) (x y : string) :
  Forall (fun v => AccountView.id v = x \/ AccountView.id v = y)
    (getAccountsInOrder accounts (Some x) (Some y)).
Proof.
  induction accounts as [|a rest IH]; simpl; [constructor|].
  destruct (String.eqb (Account.id a) x) eqn:Ex;
    [apply String.eqb_eq in Ex; constructor; auto|].
  destruct (String.eqb (Account.id a) y) eqn:Ey;
    [apply String.eqb_eq in Ey; constructor; auto|].
  exact IH.
Qed.

(** ** What a successful response shows, entry by entry *)

(** In a successful response, unique ids or not, every listed entry is
    either an entry of the debit identifier, whose balance is the double
    nearest to its former balance less the amount, or an entry of the
    credit identifier, whose balance is the double nearest to its former
    balance plus the amount; none is passed over. *)
Theorem every_entry_is_moved (clock : Clock) (data : ServiceData.t) :
  Response.status (parseInstructionService clock data) = successful ->
  exists (n : Z) (debitId creditId : string),
    0 < n
    /\ Response.amount (parseInstructionService clock data) = Some n
    /\ Response.debit_account (parseInstructionService clock data) = Some debitId
    /\ Response.credit_account (parseInstructionService clock data) = Some creditId
    /\ debitId <> creditId
    /\ Forall
         (fun v =>
            (AccountView.id v = debitId
             /\ AccountView.balance v
                = JS.round (AccountView.balance_before v - inject_Z n))
            \/ (AccountView.id v = creditId
                /\ AccountView.balance v
                   = JS.round (AccountView.balance_before v + inject_Z n)))
         (Response.accounts (parseInstructionService clock data)).
Proof.
  intros Hs.
  destruct (accepted_inv clock data) as (p & n & d & c & Hr & Hn & _ & Hd & Hc & Hv);
    [congruence|].
  destruct Hv as [[Hp _]|(_ & _ & Hv)]; [congruence|].
  destruct Hr as (_ & Hamount & _ & Hfd & Hfc & Hne & _).
  pose proof (findAccount_id _ _ _ Hfd) as Hdid.
  pose proof (findAccount_id _ _ _ Hfc) as Hcid.
  exists n, (Parsed.debit_account p), (Parsed.credit_account p).
  apply validateAmount_sound in Hamount.
  destruct Hamount as (_ & _ & _ & _ & Hpos & _).
  repeat (split; [first [assumption | congruence]|]).
  rewrite Hv. unfold updated. apply Forall_map.
  eapply Forall_impl; [|apply getAccountsInOrder_ids].
  intros v Hid.
  cbn [AccountView.id AccountView.balance AccountView.balance_before].
  rewrite Hdid, Hcid.
  destruct (String.eqb (AccountView.id v) (Parsed.debit_account p)) eqn:E1.
  - apply String.eqb_eq in E1. left. split; [assumption|reflexivity].
  - apply String.eqb_neq in E1. destruct Hid as [Hid|Hid]; [contradiction|].
    right. split; [assumption|].
    apply String.eqb_eq in Hid. now rewrite Hid.
Qed.

Lemma every_entry_is_moved_witness :
  exists (n : Z) (debitId creditId : string),
    Response.amount (parseInstructionService noDates simpleRequest) = Some n
    /\ Response.debit_account (parseInstructionService noDates simpleRequest)
       = Some debitId
    /\ Response.credit_account (parseInstructionService noDates simpleRequest)
       = Some creditId.
Proof.
  destruct (every_entry_is_moved noDates simpleRequest eq_refl)
    as (n & x & y & _ & Hn & Hx & Hy & _).
  exists n, x, y. repeat split; assumption.
Defined.

(** ** Transfers that are never accepted *)

(** A transfer from an account to itself is never accepted: a successful
    or pending response has different debit and credit identifiers, and
    the code AC02 is given only when the two identifiers are the same. *)
Theorem self_transfer_is_refused (clock : Clock) (data : ServiceData.t) :
  (Response.status (parseInstructionService clock data) <> failed ->
   Response.debit_account (parseInstructionService clock data)
   <> Response.credit_account (parseInstructionService clock data))
  /\ (Response.status_code (parseInstructionService clock data) = AC02 ->
      Response.debit_account (parseInstructionService clock data)
      = Response.credit_account (parseInstructionService clock data)).
Proof.
  split.
  - intros Hs.
    destruct (accepted_inv clock data Hs)
      as (p & n & d & c & Hr & _ & _ & Hd & Hc & _).
    destruct Hr as (_ & _ & _ & Hfd & Hfc & Hne & _).
    rewrite Hd, Hc.
    rewrite <- (findAccount_id _ _ _ Hfd), <- (findAccount_id _ _ _ Hfc).
    congruence.
  - pipeline; simpl; try discriminate; intros _.
    match goal with
    | Hd : findAccount _ _ = Some ?d, Hc : findAccount _ _ = Some ?c,
      He : String.eqb (Account.id ?d) (Account.id ?c) = true |- _ =>
        apply String.eqb_eq in He;
        rewrite <- (findAccount_id _ _ _ Hd), <- (findAccount_id _ _ _ Hc);
        now rewrite He
    end.
Qed.

(** ** Requests with unique ids *)

Lemma getAccountsInOrder_drop_left (accounts : list Account.t) (x : string)
  (y : option string) :
  ~ In x (map Account.id accounts) ->
  getAccountsInOrder accounts (Some x) y = getAccountsInOrder accounts None y.
Proof.
  induction accounts as [|a rest IH]; simpl; [reflexivity|]. intros Hx.
  destruct (String.eqb (Account.id a) x) eqn:Ex;
    [apply String.eqb_eq in Ex; tauto|].
  simpl. rewrite IH by tauto. reflexivity.
Qed.

Lemma getAccountsInOrder_drop_right (accounts : list Account.t) (x : option string)
  (y : string) :
  ~ In y (map Account.id accounts) ->
  getAccountsInOrder accounts x (Some y) = getAccountsInOrder accounts x None.
Proof.
  induction accounts as [|a rest IH]; simpl; [reflexivity|]. intros Hy.
  destruct (String.eqb (Account.id a) y) eqn:Ey;
    [apply String.eqb_eq in Ey; tauto|].
  rewrite !orb_false_r. rewrite IH by tauto. reflexivity.
Qed.

Lemma getAccountsInOrder_single (accounts : list Account.t) (x : option string) :
  NoDup (map Account.id accounts) ->
  (List.length (getAccountsInOrder accounts x None) <= 1)%nat
  /\ (List.length (getAccountsInOrder accounts None x) <= 1)%nat.
Proof.
  induction accounts as [|a rest IH]; simpl; [lia|]. intros Hnd.
  inversion Hnd as [|? ? Ha Hrest]; subst. specialize (IH Hrest).
  rewrite orb_false_r. destruct x as [x|]; simpl.
  - destruct (String.eqb (Account.id a) x) eqn:Ex; [|exact IH].
    apply String.eqb_eq in Ex. subst x. simpl.
    rewrite getAccountsInOrder_drop_left, getAccountsInOrder_drop_right by assumption.
    rewrite getAccountsInOrder_null. simpl. lia.
  - exact IH.
Qed.

Lemma getAccountsInOrder_at_most_two (accounts : list Account.t)
  (x y : option string) :
  NoDup (map Account.id accounts) ->
  (List.length (getAccountsInOrder accounts x y) <= 2)%nat.
Proof.
  induction accounts as [|a rest IH]; simpl; [lia|]. intros Hnd.
  inversion Hnd as [|? ? Ha Hrest]; subst. specialize (IH Hrest).
  destruct x as [x|]; simpl.
  - destruct (String.eqb (Account.id a) x) eqn:Ex.
    + apply String.eqb_eq in Ex. subst x. simpl.
      rewrite getAccountsInOrder_drop_left by assumption.
      pose proof (proj2 (getAccountsInOrder_single rest y Hrest)). lia.
    + simpl. destruct y as [y|]; simpl; [|exact IH].
      destruct (String.eqb (Account.id a) y) eqn:Ey; [|exact IH].
      apply String.eqb_eq in Ey. subst y. simpl.
      rewrite getAccountsInOrder_drop_right by assumption.
      pose proof (proj1 (getAccountsInOrder_single rest (Some x) Hrest)). lia.
  - destruct y as [y|]; simpl; [|exact IH].
    destruct (String.eqb (Account.id a) y) eqn:Ey; [|exact IH].
    apply String.eqb_eq in Ey. subst y. simpl.
    rewrite getAccountsInOrder_drop_right by assumption.
    rewrite getAccountsInOrder_null. simpl. lia.
Qed.

(** With unique ids a response never lists more than two accounts, and it
    never lists more accounts than the request has. *)
Theorem at_most_two_accounts (clock : Clock) (data : ServiceData.t) :
  (List.length (Response.accounts (parseInstructionService clock data))
   <= List.length (ServiceData.accounts data))%nat
  /\ (NoDup (map Account.id (ServiceData.accounts data)) ->
      (List.length (Response.accounts (parseInstructionService clock data)) <= 2)%nat).
Proof.
  assert (Hkeys := response_accounts_keys clock data).
  apply (f_equal (@List.length _)) in Hkeys. rewrite !length_map in Hkeys.
  split.
  - rewrite Hkeys. apply filter_length_le.
  - intros Hnd.
    pose proof (getAccountsInOrder_at_most_two (ServiceData.accounts data)
                  (Response.debit_account (parseInstructionService clock data))
                  (Response.credit_account (parseInstructionService clock data))
                  Hnd) as H2.
    pose proof (getAccountsInOrder_keys
                  (Response.debit_account (parseInstructionService clock data))
                  (Response.credit_account (parseInstructionService clock data))
                  (ServiceData.accounts data)) as Hk.
    apply (f_equal (@List.length _)) in Hk. rewrite !length_map in Hk.
    rewrite Hkeys, <- Hk. exact H2.
Qed.

Lemma accepted_pair (clock : Clock) (data : ServiceData.t) :
  NoDup (map Account.id (ServiceData.accounts data)) ->
  Response.status (parseInstructionService clock data) <> failed ->
  exists (p : Parsed.t) (n : Z) (d c : Account.t),
    reachesDateStage data p n d c
    /\ Response.amount (parseInstructionService clock data) = Some n
    /\ Response.currency (parseInstructionService clock data)
       = Some (JS.toUpperCase (Parsed.currency p))
    /\ Response.debit_account (parseInstructionService clock data)
       = Some (Account.id d)
    /\ (Response.status (parseInstructionService clock data) = pending
        /\ (Response.accounts (parseInstructionService clock data)
            = [viewOf d; viewOf c]
            \/ Response.accounts (parseInstructionService clock data)
               = [viewOf c; viewOf d])
        \/ Response.status (parseInstructionService clock data) = successful
           /\ Qltb (Account.balance d) (inject_Z n) = false
           /\ (Response.accounts (parseInstructionService clock data)
               = [debited d n; credited c n]
               \/ Response.accounts (parseInstructionService clock data)
                  = [credited c n; debited d n])).
Proof.
  intros Hnd Hs.
  destruct (accepted_inv clock data Hs)
    as (p & n & d & c & Hr & Hn & Hcur & Hd & Hc & Hv).
  exists p, n, d, c.
  pose proof Hr as (_ & _ & _ & Hfd & Hfc & Hne & _).
  pose proof (findAccount_id _ _ _ Hfd) as Hdid.
  pose proof (findAccount_id _ _ _ Hfc) as Hcid.
  assert (Hxy : Parsed.debit_account p <> Parsed.credit_account p) by congruence.
  repeat (split; [first [assumption | congruence]|]).
  destruct (updated_pair d c n Hne) as [U1 U2].
  destruct Hv as [[Hp Hv]|(Hsucc & Hfunds & Hv)]; [left|right];
    repeat (split; [assumption|]); rewrite Hv;
    destruct (getAccountsInOrder_two _ _ _ _ _ Hnd Hfd Hfc Hxy) as [E|E];
    rewrite E; rewrite ?U1, ?U2; auto.
Qed.

(** With unique ids a successful response never shows the debit account
    below zero: its entry held at least the amount and keeps the rest. *)
Theorem no_overdraft (clock : Clock) (data : ServiceData.t) :
  NoDup (map Account.id (ServiceData.accounts data)) ->
  Response.status (parseInstructionService clock data) = successful ->
  exists n : Z,
    Response.amount (parseInstructionService clock data) = Some n
    /\ Forall
         (fun v =>
            Some (AccountView.id v)
            = Response.debit_account (parseInstructionService clock data) ->
            (inject_Z n <= AccountView.balance_before v)%Q
            /\ (0 <= AccountView.balance v)%Q)
         (Response.accounts (parseInstructionService clock data)).
Proof.
  intros Hnd Hs.
  destruct (accepted_pair clock data Hnd) as (p & n & d & c & Hr & Hn & _ & Hd & Hv);
    [congruence|].
  destruct Hv as [[Hp _]|(_ & Hfunds & Hv)]; [congruence|].
  destruct Hr as (_ & _ & _ & _ & _ & Hne & _).
  exists n. split; [assumption|]. rewrite Hd.
  assert (Hle : (inject_Z n <= Account.balance d)%Q).
  { apply Qnot_lt_le. intros Hlt. apply Qltb_lt in Hlt. congruence. }
  assert (Hdeb : (inject_Z n <= AccountView.balance_before (debited d n))%Q
                 /\ (0 <= AccountView.balance (debited d n))%Q).
  { cbn [debited AccountView.balance AccountView.balance_before].
    split; [assumption|]. apply round_nonneg.
    apply (Qplus_le_l _ _ (inject_Z n)). ring_simplify. exact Hle. }
  assert (Hcred : Some (AccountView.id (credited c n)) = Some (Account.id d) ->
                  (inject_Z n <= AccountView.balance_before (credited c n))%Q
                  /\ (0 <= AccountView.balance (credited c n))%Q).
  { simpl. intros [= H]. congruence. }
  destruct Hv as [-> | ->];
    (apply Forall_cons; [|apply Forall_cons; [|apply Forall_nil]]);
    first [exact Hcred | intros _; exact Hdeb].
Qed.

Lemma no_overdraft_witness :
  exists n : Z,
    Response.amount (parseInstructionService noDates simpleRequest) = Some n.
Proof.
  assert (Hnd : NoDup (map Account.id (ServiceData.accounts simpleRequest))).
  { simpl. repeat constructor; simpl; intuition discriminate. }
  destruct (no_overdraft noDates simpleRequest Hnd eq_refl) as (n & Hn & _).
  exists n. exact Hn.
Defined.

(** With unique ids every account listed by a successful or pending
    response carries the currency of the response, which is one of the
    supported currencies. *)
Theorem accepted_currency (clock : Clock) (data : ServiceData.t) :
  NoDup (map Account.id (ServiceData.accounts data)) ->
  Response.status (parseInstructionService clock data) <> failed ->
  exists currency : string,
    Response.currency (parseInstructionService clock data) = Some currency
    /\ In currency SUPPORTED_CURRENCIES
    /\ Forall (fun v => AccountView.currency v = currency)
         (Response.accounts (parseInstructionService clock data)).
Proof.
  intros Hnd Hs.
  destruct (accepted_pair clock data Hnd Hs)
    as (p & n & d & c & Hr & _ & Hcur & _ & Hv).
  destruct Hr as (_ & _ & Hsup & _ & _ & _ & Hdc & Hpd).
  exists (JS.toUpperCase (Parsed.currency p)). split; [assumption|]. split.
  - unfold unsupported in Hsup. apply negb_false_iff in Hsup.
    apply existsb_exists in Hsup. destruct Hsup as (x & Hin & Hx).
    apply String.eqb_eq in Hx. now subst x.
  - destruct Hv as [[_ [-> | ->]]|(_ & _ & [-> | ->])];
      (apply Forall_cons; [|apply Forall_cons; [|apply Forall_nil]]);
      simpl; congruence.
Qed.

Lemma accepted_currency_witness :
  exists currency : string,
    Response.currency (parseInstructionService allFuture pendingRequest)
    = Some currency
    /\ In currency SUPPORTED_CURRENCIES.
Proof.
  assert (Hnd : NoDup (map Account.id (ServiceData.accounts pendingRequest))).
  { simpl. repeat constructor; simpl; intuition discriminate. }
  assert (Hs : Response.status (parseInstructionService allFuture pendingRequest)
               <> failed) by (vm_compute; discriminate).
  destruct (accepted_currency allFuture pendingRequest Hnd Hs) as (x & Hx & Hin & _).
  exists x. split; assumption.
Defined.

(** ** Keyword errors of both formats *)

Lemma credit_is_not_debit (s : string) :
  JS.startsWith s "credit" = true -> JS.startsWith s "debit" = false.
Proof.
  unfold JS.startsWith. destruct s as [|ch r]; [discriminate|].
  destruct ch as [[] [] [] [] [] [] [] []]; intros H;
    try (vm_compute in H; discriminate H); reflexivity.
Qed.

(** An instruction of either format that lacks one of its two anchors is
    answered with SY01, whatever else it holds. *)
Theorem missing_anchor_gives_SY01 (clock : Clock) (accounts : list Account.t)
  (instruction : string) :
  (JS.startsWith (JS.trim (JS.toLowerCase instruction)) "debit" = true
   /\ (JS.indexOf (JS.trim (JS.toLowerCase instruction)) "from account" = -1
       \/ JS.indexOf (JS.trim (JS.toLowerCase instruction))
            "for credit to account" = -1))
  \/ (JS.startsWith (JS.trim (JS.toLowerCase instruction)) "credit" = true
      /\ (JS.indexOf (JS.trim (JS.toLowerCase instruction)) "to account" = -1
          \/ JS.indexOf (JS.trim (JS.toLowerCase instruction))
               "for debit from account" = -1)) ->
  parseInstruction instruction = ParseFailure MissingKeywords
  /\ parseInstructionService clock (request accounts instruction)
     = Response.make None None None None None None failed
         PaymentMessages.MISSING_KEYWORDS SY01 [].
Proof.
  intros H.
  assert (Hparse : parseInstruction instruction = ParseFailure MissingKeywords).
  { unfold parseInstruction. cbv zeta.
    destruct H as [[Hd Hmiss]|[Hc Hmiss]].
    - rewrite Hd. simpl negb. simpl andb. cbv iota.
      destruct Hmiss as [-> | ->]; simpl; [reflexivity|].
      now rewrite orb_true_r.
    - rewrite Hc, (credit_is_not_debit _ Hc). simpl negb. simpl andb. cbv iota.
      destruct Hmiss as [-> | ->]; simpl; [reflexivity|].
      now rewrite orb_true_r. }
  split; [exact Hparse|].
  unfold parseInstructionService, request. simpl ServiceData.instruction.
  now rewrite Hparse.
Qed.

Lemma missing_anchor_gives_SY01_witness :
  parseInstruction "credit 50 USD to account a2" = ParseFailure MissingKeywords
  /\ parseInstructionService noDates (request a1a2 "credit 50 USD to account a2")
     = Response.make None None None None None None failed
         PaymentMessages.MISSING_KEYWORDS SY01 [].
Proof.
  apply (missing_anchor_gives_SY01 noDates a1a2 "credit 50 USD to account a2").
  right. split; [reflexivity|]. right. reflexivity.
Defined.

(** A CREDIT instruction in which both anchors occur and "to account"
    stands at or after "for debit from account" is answered with SY02. *)
Theorem swapped_credit_anchors_give_SY02 (clock : Clock)
  (accounts : list Account.t) (instruction : string) :
  JS.startsWith (JS.trim (JS.toLowerCase instruction)) "credit" = true ->
  JS.indexOf (JS.trim (JS.toLowerCase instruction)) "to account" <> -1 ->
  JS.indexOf (JS.trim (JS.toLowerCase instruction)) "for debit from account" <> -1 ->
  JS.indexOf (JS.trim (JS.toLowerCase instruction)) "for debit from account"
  <= JS.indexOf (JS.trim (JS.toLowerCase instruction)) "to account" ->
  parseInstruction instruction = ParseFailure InvalidKeywordOrder
  /\ parseInstructionService clock (request accounts instruction)
     = Response.make None None None None None None failed
         PaymentMessages.INVALID_KEYWORD_ORDER SY02 [].
Proof.
  intros Hcredit Hto Hfor Hswap.
  assert (Hparse : parseInstruction instruction = ParseFailure InvalidKeywordOrder).
  { unfold parseInstruction. cbv zeta.
    rewrite Hcredit, (credit_is_not_debit _ Hcredit).
    simpl negb. simpl andb. cbv iota.
    apply Z.eqb_neq in Hto. apply Z.eqb_neq in Hfor.
    rewrite Hto, Hfor. simpl orb. cbv iota.
    replace (JS.indexOf (JS.trim (JS.toLowerCase instruction)) "to account"
             >=? JS.indexOf (JS.trim (JS.toLowerCase instruction))
                   "for debit from account") with true.
    - now rewrite orb_true_r.
    - symmetry. apply Z.geb_le. exact Hswap. }
  split; [exact Hparse|].
  unfold parseInstructionService, request. simpl ServiceData.instruction.
  now rewrite Hparse.
Qed.

Lemma swapped_credit_anchors_give_SY02_witness :
  parseInstruction "credit 50 USD for debit from account a1 to account a2"
  = ParseFailure InvalidKeywordOrder
  /\ parseInstructionService noDates
       (request a1a2 "credit 50 USD for debit from account a1 to account a2")
     = Response.make None None None None None None failed
         PaymentMessages.INVALID_KEYWORD_ORDER SY02 [].
Proof.
  apply (swapped_credit_anchors_give_SY02 noDates a1a2
           "credit 50 USD for debit from account a1 to account a2").
  - reflexivity.
  - vm_compute. discriminate.
  - vm_compute. discriminate.
  - vm_compute. discriminate.
Defined.

(** An instruction that begins with neither verb is answered with SY03 and
    an all-null response, whatever anchors it holds. *)
Theorem unknown_verb_gives_SY03 (clock : Clock) (accounts : list Account.t)
  (instruction : string) :
  JS.startsWith (JS.trim (JS.toLowerCase instruction)) "debit" = false ->
  JS.startsWith (JS.trim (JS.toLowerCase instruction)) "credit" = false ->
  parseInstruction instruction = ParseFailure Malformed
  /\ parseInstructionService clock (request accounts instruction)
     = Response.make None None None None None None failed
         PaymentMessages.MALFORMED_INSTRUCTION SY03 [].
Proof.
  intros Hd Hc.
  assert (Hparse : parseInstruction instruction = ParseFailure Malformed).
  { unfold parseInstruction. cbv zeta. now rewrite Hd, Hc. }
  split; [exact Hparse|].
  unfold parseInstructionService, request. simpl ServiceData.instruction.
  now rewrite Hparse.
Qed.

Lemma unknown_verb_gives_SY03_witness :
  parseInstruction "transfer 5 USD from account a1 for credit to account a2"
  = ParseFailure Malformed
  /\ parseInstructionService noDates
       (request a1a2 "transfer 5 USD from account a1 for credit to account a2")
     = Response.make None None None None None None failed
         PaymentMessages.MALFORMED_INSTRUCTION SY03 [].
Proof.
  apply (unknown_verb_gives_SY03 noDates a1a2
           "transfer 5 USD from account a1 for credit to account a2");
    reflexivity.
Defined.

(** ** Identifiers and currencies as the scanner leaves them *)

Lemma parseInstruction_ids_trimmed (instruction : string) (parsed : Parsed.t) :
  parseInstruction instruction = ParseSuccess parsed ->
  JS.trim (Parsed.debit_account parsed) = Parsed.debit_account parsed
  /\ JS.trim (Parsed.credit_account parsed) = Parsed.credit_account parsed
  /\ JS.trim (Parsed.amount parsed) = Parsed.amount parsed.
Proof.
  unfold parseInstruction. cbv zeta.
  match goal with
  | |- context [orNull ?x] => generalize (orNull x)
  end.
  intros e.
  repeat match goal with
         | |- context [if ?b then _ else _] => destruct b
         end;
    try discriminate; intros [= <-];
    cbn [Parsed.debit_account Parsed.credit_account Parsed.amount];
    repeat split; apply trim_idem.
Qed.

(** An identifier that neither identifier of the parsed record can equal
    is the id of no listed account. *)
Lemma unmatched_id_not_listed (clock : Clock) (accounts : list Account.t)
  (instruction x : string) :
  (forall p : Parsed.t,
      parseInstruction instruction = ParseSuccess p ->
      Parsed.debit_account p <> x /\ Parsed.credit_account p <> x) ->
  ~ In x (map AccountView.id
            (Response.accounts
               (parseInstructionService clock (request accounts instruction)))).
Proof.
  intros Hids Hlisted.
  pose proof (response_accounts_keys clock (request accounts instruction)) as Hkeys.
  apply (f_equal (map (fun k : string * Q * string => fst (fst k)))) in Hkeys.
  rewrite !map_map in Hkeys. simpl in Hkeys.
  change (map (fun v => AccountView.id v)) with (map AccountView.id) in Hkeys.
  rewrite Hkeys in Hlisted. apply in_map_iff in Hlisted.
  destruct Hlisted as (b & Hb & Hfilter). apply filter_In in Hfilter.
  destruct Hfilter as [_ Hwanted]. rewrite Hb in Hwanted.
  destruct (parseInstruction instruction) as [e|p] eqn:Hp.
  - revert Hwanted. unfold parseInstructionService, request.
    simpl ServiceData.instruction. rewrite Hp. destruct e; discriminate.
  - destruct (Hids p eq_refl) as [Hd Hc].
    assert (Hdeb : Response.debit_account
                     (parseInstructionService clock (request accounts instruction))
                   = Some (Parsed.debit_account p)
                   /\ Response.credit_account
                        (parseInstructionService clock (request accounts instruction))
                      = Some (Parsed.credit_account p)).
    { unfold parseInstructionService, request. simpl ServiceData.instruction.
      rewrite Hp. cbv zeta.
      repeat match goal with
             | |- context [match ?x with _ => _ end] => destruct x
             end; split; reflexivity. }
    destruct Hdeb as [Hdeb Hcred]. rewrite Hdeb, Hcred in Hwanted. simpl in Hwanted.
    apply orb_true_iff in Hwanted.
    destruct Hwanted as [H|H]; apply String.eqb_eq in H; congruence.
Qed.

(** An account whose id begins or ends with white space is out of reach of
    every instruction: the scanner trims the identifiers it extracts, so
    neither equals that id, findAccount never answers the account and no
    response lists it. *)
Theorem padded_id_is_unreachable (clock : Clock) (accounts : list Account.t)
  (instruction : string) (a : Account.t) :
  JS.trim (Account.id a) <> Account.id a ->
  (forall p : Parsed.t,
      parseInstruction instruction = ParseSuccess p ->
      findAccount accounts (Parsed.debit_account p) <> Some a
      /\ findAccount accounts (Parsed.credit_account p) <> Some a)
  /\ ~ In (Account.id a)
         (map AccountView.id
            (Response.accounts
               (parseInstructionService clock (request accounts instruction)))).
Proof.
  intros Hpad.
  assert (Hids : forall p : Parsed.t,
             parseInstruction instruction = ParseSuccess p ->
             Parsed.debit_account p <> Account.id a
             /\ Parsed.credit_account p <> Account.id a).
  { intros p Hp. destruct (parseInstruction_ids_trimmed _ _ Hp) as (Hd & Hc & _).
    split; intros H; rewrite H in *; contradiction. }
  split.
  - intros p Hp. destruct (Hids p Hp) as [Hd Hc].
    split; intros Hf; apply findAccount_id in Hf; congruence.
  - now apply unmatched_id_not_listed.
Qed.

Lemma padded_id_is_unreachable_witness :
  ~ In " a1"
      (map AccountView.id
         (Response.accounts
            (parseInstructionService noDates
               (request [acct " a1" 1000 "NGN"; acct "a2" 200 "NGN"]
                  "debit 500 NGN from account  a1 for credit to account a2")))).
Proof.
  apply (proj2 (padded_id_is_unreachable noDates
                  [acct " a1" 1000 "NGN"; acct "a2" 200 "NGN"]
                  "debit 500 NGN from account  a1 for credit to account a2"
                  (acct " a1" 1000 "NGN")
                  ltac:(vm_compute; discriminate))).
Defined.

Lemma upperChar_not_lower (c : ascii) : JS.isLower (JS.upperChar c) = false.
Proof. destruct c as [[] [] [] [] [] [] [] []]; reflexivity. Qed.

Lemma hasLower_toUpperCase (s : string) : hasLower (JS.toUpperCase s) = false.
Proof.
  unfold JS.toUpperCase.
  induction s as [|c r IH]; simpl; [reflexivity|].
  now rewrite upperChar_not_lower, IH.
Qed.

(** Currencies leave the service in capitals: neither the currency of a
    response nor the currency of a listed account has a small letter,
    however the instruction and the accounts spell them. *)
Theorem currencies_in_capitals (clock : Clock) (data : ServiceData.t) :
  (forall currency : string,
      Response.currency (parseInstructionService clock data) = Some currency ->
      hasLower currency = false)
  /\ Forall (fun v => hasLower (AccountView.currency v) = false)
       (Response.accounts (parseInstructionService clock data)).
Proof.
  split.
  - intros currency.
    destruct (parseInstruction (ServiceData.instruction data)) as [e|p] eqn:Hp.
    + unfold parseInstructionService. rewrite Hp. destruct e; discriminate.
    + pose proof (parseInstruction_currency_upper _ _ Hp) as Hup.
      unfold parseInstructionService. rewrite Hp. cbv zeta. rewrite Hup.
      repeat match goal with
             | |- context [match ?x with _ => _ end] => destruct x
             end; simpl; intros [= <-]; rewrite <- Hup; apply hasLower_toUpperCase.
  - pose proof (response_accounts_keys clock data) as Hkeys.
    apply (f_equal (map (fun k : string * Q * string => snd k))) in Hkeys.
    rewrite !map_map in Hkeys. simpl in Hkeys.
    apply Forall_forall. intros v Hv.
    assert (Hin : In (AccountView.currency v)
                    (map (fun x => AccountView.currency x)
                       (Response.accounts (parseInstructionService clock data)))).
    { apply in_map_iff. exists v. split; [reflexivity|assumption]. }
    rewrite Hkeys in Hin. apply in_map_iff in Hin.
    destruct Hin as (a & <- & _). apply hasLower_toUpperCase.
Qed.

(** ** Strings made of words *)

Lemma append_assoc (x y z : string) : (x ++ y) ++ z = x ++ y ++ z.
Proof. induction x as [|c x IH]; simpl; [reflexivity|]. now rewrite IH. Qed.

Lemma append_nil_r (x : string) : x ++ "" = x.
Proof. induction x as [|c x IH]; simpl; [reflexivity|]. now rewrite IH. Qed.

Lemma len_append (x y : string) : JS.len (x ++ y) = JS.len x + JS.len y.
Proof.
  unfold JS.len. induction x as [|c x IH]; simpl String.length; [reflexivity|].
  rewrite !Nat2Z.inj_succ. lia.
Qed.

Lemma len_cons (c : ascii) (x : string) : JS.len (String c x) = 1 + JS.len x.
Proof. unfold JS.len. simpl String.length. lia. Qed.

Lemma len_nonneg (x : string) : 0 <= JS.len x.
Proof. unfold JS.len. lia. Qed.

Lemma prefix_cons (a b : ascii) (p s : string) :
  String.prefix (String a p) (String b s)
  = if Ascii.eqb a b then String.prefix p s else false.
Proof.
  cbn [String.prefix]. destruct (ascii_dec a b) as [->|Hne].
  - now rewrite Ascii.eqb_refl.
  - apply Ascii.eqb_neq in Hne. now rewrite Hne.
Qed.

Lemma prefix_nil (s : string) : String.prefix "" s = true.
Proof. destruct s; reflexivity. Qed.

Lemma prefix_of_nil (a : ascii) (p : string) : String.prefix (String a p) "" = false.
Proof. reflexivity. Qed.

Lemma solid_cons (c : ascii) (r : string) :
  solid (String c r) = true <-> JS.isWhiteSpace c = false /\ solid r = true.
Proof. simpl. rewrite andb_true_iff, negb_true_iff. tauto. Qed.

Lemma solid_not_space (c : ascii) : JS.isWhiteSpace c = false -> Ascii.eqb c " " = false.
Proof.
  intros H. apply Ascii.eqb_neq. intros ->. discriminate.
Qed.

(** A pattern with a space in it meets a word followed by a space only
    when its first word is the whole of that word. *)
Lemma prefix_word (p1 p2 w rest : string) :
  solid p1 = true -> solid w = true ->
  String.prefix (p1 ++ " " ++ p2) (w ++ " " ++ rest)
  = String.eqb p1 w && String.prefix p2 rest.
Proof.
  revert w. induction p1 as [|a p1 IH]; intros w Hp Hw.
  - destruct w as [|c w]; simpl append.
    + rewrite prefix_cons. reflexivity.
    + apply solid_cons in Hw. destruct Hw as [Hc _].
      rewrite prefix_cons, Ascii.eqb_sym, (solid_not_space c Hc). reflexivity.
  - apply solid_cons in Hp. destruct Hp as [Ha Hp].
    destruct w as [|c w]; simpl append.
    + rewrite prefix_cons, (solid_not_space a Ha). reflexivity.
    + apply solid_cons in Hw. destruct Hw as [Hc Hw].
      rewrite prefix_cons. simpl String.eqb.
      destruct (Ascii.eqb a c); [apply IH; assumption|reflexivity].
Qed.

(** Such a pattern does not meet a last word. *)
Lemma prefix_last_word (p1 p2 w : string) :
  solid p1 = true -> solid w = true ->
  String.prefix (p1 ++ " " ++ p2) w = false.
Proof.
  revert w. induction p1 as [|a p1 IH]; intros w Hp Hw.
  - destruct w as [|c w]; simpl append; [reflexivity|].
    apply solid_cons in Hw. destruct Hw as [Hc _].
    rewrite prefix_cons, Ascii.eqb_sym, (solid_not_space c Hc). reflexivity.
  - apply solid_cons in Hp. destruct Hp as [Ha Hp].
    destruct w as [|c w]; simpl append; [reflexivity|].
    apply solid_cons in Hw. destruct Hw as [Hc Hw].
    rewrite prefix_cons.
    destruct (Ascii.eqb a c); [apply IH; assumption|reflexivity].
Qed.

(** A pattern without a space meets a word followed by a space as it
    meets the word alone. *)
Lemma prefix_solid (p w rest : string) :
  solid p = true ->
  String.prefix p (w ++ " " ++ rest) = String.prefix p w.
Proof.
  revert w. induction p as [|a p IH]; intros w Hp.
  - now rewrite !prefix_nil.
  - apply solid_cons in Hp. destruct Hp as [Ha Hp].
    destruct w as [|c w]; simpl append.
    + rewrite prefix_cons, (solid_not_space a Ha). reflexivity.
    + rewrite !prefix_cons. destruct (Ascii.eqb a c); [now apply IH|reflexivity].
Qed.

Lemma isSuffix_false_here (p w : string) :
  isSuffix p w = false -> String.eqb p w = false.
Proof. destruct w; simpl; intros H; apply orb_false_iff in H; tauto. Qed.

Lemma isSuffix_false_later (p : string) (c : ascii) (w : string) :
  isSuffix p (String c w) = false -> isSuffix p w = false.
Proof. simpl. intros H. apply orb_false_iff in H. tauto. Qed.

(** The search passes over a word and the space after it when the pattern
    cannot begin in that word. *)
Lemma indexOfFrom_skip (p1 p2 w rest : string) (i : Z) :
  solid p1 = true -> solid w = true ->
  String.prefix p2 rest && isSuffix p1 w = false ->
  JS.indexOfFrom (w ++ " " ++ rest) (p1 ++ " " ++ p2) i
  = JS.indexOfFrom rest (p1 ++ " " ++ p2) (i + JS.len w + 1).
Proof.
  intros Hp. revert i. induction w as [|c w IH]; intros i Hw Hno.
  - change ("" ++ " " ++ rest) with (String " " rest).
    cbn [JS.indexOfFrom].
    change (String " " rest) with ("" ++ " " ++ rest).
    rewrite (prefix_word p1 p2 "" rest Hp eq_refl).
    replace (String.eqb p1 "" && String.prefix p2 rest) with false.
    + f_equal. unfold JS.len. simpl. lia.
    + symmetry. apply andb_false_iff in Hno. destruct Hno as [->|Hs].
      * apply andb_false_r.
      * apply isSuffix_false_here in Hs. now rewrite Hs.
  - pose proof Hw as Hw'. apply solid_cons in Hw'. destruct Hw' as [_ Hw'].
    change (String c w ++ " " ++ rest) with (String c (w ++ " " ++ rest)).
    cbn [JS.indexOfFrom].
    change (String c (w ++ " " ++ rest)) with (String c w ++ " " ++ rest).
    rewrite (prefix_word p1 p2 (String c w) rest Hp Hw).
    replace (String.eqb p1 (String c w) && String.prefix p2 rest) with false.
    + rewrite IH.
      * f_equal. rewrite len_cons. lia.
      * assumption.
      * apply andb_false_iff in Hno. apply andb_false_iff.
        destruct Hno as [H|H]; [now left|right].
        now apply isSuffix_false_later in H.
    + symmetry. apply andb_false_iff in Hno. destruct Hno as [->|Hs].
      * apply andb_false_r.
      * apply isSuffix_false_here in Hs. now rewrite Hs.
Qed.

(** The search stops at a word that is the first word of the pattern when
    the rest of the pattern follows. *)
Lemma indexOfFrom_found (p1 p2 rest : string) (i : Z) :
  solid p1 = true ->
  String.prefix p2 rest = true ->
  JS.indexOfFrom (p1 ++ " " ++ rest) (p1 ++ " " ++ p2) i = i.
Proof.
  intros Hp Hrest.
  assert (H : String.prefix (p1 ++ " " ++ p2) (p1 ++ " " ++ rest) = true).
  { rewrite prefix_word by assumption. now rewrite String.eqb_refl, Hrest. }
  destruct (p1 ++ " " ++ rest); cbn [JS.indexOfFrom]; now rewrite H.
Qed.

(** The search fails in a last word. *)
Lemma indexOfFrom_last_word (p1 p2 w : string) (i : Z) :
  solid p1 = true -> solid w = true ->
  JS.indexOfFrom w (p1 ++ " " ++ p2) i = -1.
Proof.
  intros Hp. revert i. induction w as [|c w IH]; intros i Hw.
  - cbn [JS.indexOfFrom]. now rewrite (prefix_last_word p1 p2 "" Hp eq_refl).
  - cbn [JS.indexOfFrom]. rewrite (prefix_last_word p1 p2 _ Hp Hw).
    apply solid_cons in Hw. destruct Hw as [_ Hw]. now apply IH.
Qed.

Lemma toLowerCase_append (x y : string) :
  JS.toLowerCase (x ++ y) = JS.toLowerCase x ++ JS.toLowerCase y.
Proof.
  unfold JS.toLowerCase. induction x as [|c x IH]; simpl; [reflexivity|].
  now rewrite IH.
Qed.

Lemma lowerChar_fixed (c : ascii) : JS.isUpper c = false -> JS.lowerChar c = c.
Proof. unfold JS.lowerChar. now intros ->. Qed.

Lemma toLowerCase_fixed (s : string) : hasUpper s = false -> JS.toLowerCase s = s.
Proof.
  unfold JS.toLowerCase. induction s as [|c r IH]; simpl; [reflexivity|].
  intros H. apply orb_false_iff in H. destruct H as [Hc Hr].
  now rewrite (lowerChar_fixed c Hc), (IH Hr).
Qed.

(** A string that [trimEnd] leaves alone and that is not empty. *)
Lemma trimEnd_solid (w : string) :
  solid w = true -> w <> "" -> JS.trimEnd w = w.
Proof.
  induction w as [|c w IH]; [congruence|]. intros Hw _.
  apply solid_cons in Hw. destruct Hw as [Hc Hw]. simpl.
  destruct w as [|c' w'].
  - simpl. now rewrite Hc.
  - rewrite IH by (assumption || discriminate). reflexivity.
Qed.

Lemma trimEnd_append (x r : string) :
  JS.trimEnd r = r -> r <> "" -> JS.trimEnd (x ++ r) = x ++ r.
Proof.
  intros Hr Hne. induction x as [|c x IH]; simpl append; [exact Hr|].
  simpl JS.trimEnd. rewrite IH.
  destruct (x ++ r) eqn:E; [|reflexivity].
  destruct x; simpl in E; [contradiction|discriminate].
Qed.

Lemma append_not_nil (x r : string) : r <> "" -> x ++ r <> "".
Proof. destruct x; simpl; [auto|discriminate]. Qed.

Lemma trimEnd_space (m : string) : JS.trimEnd (m ++ " ") = JS.trimEnd m.
Proof.
  induction m as [|c m IH]; [reflexivity|].
  simpl append. simpl JS.trimEnd. now rewrite IH.
Qed.

(** Trimming takes one space off either side of a string that begins and
    ends with something else. *)
Lemma trim_padded (m : string) :
  startsClean m -> JS.trimEnd m = m -> JS.trim (" " ++ m ++ " ") = m.
Proof.
  intros Hs He. unfold JS.trim.
  change (" " ++ m ++ " ") with (String " " (m ++ " ")).
  change (JS.trimStart (String " " (m ++ " "))) with (JS.trimStart (m ++ " ")).
  destruct m as [|c m].
  - reflexivity.
  - simpl in Hs. simpl append. simpl JS.trimStart. rewrite Hs.
    change (String c (m ++ " ")) with (String c m ++ " ").
    now rewrite trimEnd_space.
Qed.

Lemma trim_left_padded (m : string) :
  startsClean m -> JS.trimEnd m = m -> JS.trim (" " ++ m) = m.
Proof.
  intros Hs He. unfold JS.trim.
  change (" " ++ m) with (String " " m).
  change (JS.trimStart (String " " m)) with (JS.trimStart m).
  now rewrite (trimStart_of_clean m Hs).
Qed.

Lemma trim_solid (w : string) : solid w = true -> w <> "" -> JS.trim w = w.
Proof.
  intros Hw Hne. unfold JS.trim. rewrite trimStart_of_clean.
  - now apply trimEnd_solid.
  - destruct w; [exact I|]. now apply solid_cons in Hw.
Qed.

Lemma solid_startsClean (w : string) : solid w = true -> startsClean w.
Proof. destruct w; [intros; exact I|]. intros H. now apply solid_cons in H. Qed.

Lemma startsClean_append (w r : string) :
  w <> "" -> startsClean w -> startsClean (w ++ r).
Proof. destruct w; [congruence|]. auto. Qed.

Lemma split_solid (w : string) : solid w = true -> JS.split w = [w].
Proof.
  induction w as [|c w IH]; [reflexivity|]. intros Hw.
  apply solid_cons in Hw. destruct Hw as [Hc Hw]. simpl.
  rewrite (solid_not_space c Hc), (IH Hw). reflexivity.
Qed.

Lemma split_word (w r : string) :
  solid w = true -> JS.split (w ++ " " ++ r) = w :: JS.split r.
Proof.
  induction w as [|c w IH]; [reflexivity|]. intros Hw.
  apply solid_cons in Hw. destruct Hw as [Hc Hw].
  change (String c w ++ " " ++ r) with (String c (w ++ " " ++ r)).
  cbn [JS.split].
  rewrite (solid_not_space c Hc), (IH Hw). reflexivity.
Qed.

Lemma slice_append (x y z : string) :
  String.substring (String.length x) (String.length y) (x ++ y ++ z) = y.
Proof.
  induction x as [|c x IH]; simpl; [|exact IH].
  revert z. induction y as [|c y IH]; intros z; simpl.
  - destruct z; reflexivity.
  - now rewrite IH.
Qed.

(** [substring] cuts the middle out of a string given as three pieces. *)
Lemma substring_middle (x y z : string) (a b : Z) :
  a = JS.len x -> b = JS.len x + JS.len y ->
  JS.substring (x ++ y ++ z) a b = y.
Proof.
  intros -> ->. unfold JS.substring, JS.clamp. rewrite !len_append.
  pose proof (len_nonneg x). pose proof (len_nonneg y). pose proof (len_nonneg z).
  replace (Z.min (Z.max (JS.len x) 0) (JS.len x + (JS.len y + JS.len z)))
    with (JS.len x) by lia.
  replace (Z.min (Z.max (JS.len x + JS.len y) 0)
             (JS.len x + (JS.len y + JS.len z)))
    with (JS.len x + JS.len y) by lia.
  replace (Z.min (JS.len x) (JS.len x + JS.len y)) with (JS.len x) by lia.
  replace (Z.max (JS.len x) (JS.len x + JS.len y) - JS.len x) with (JS.len y) by lia.
  unfold JS.len. rewrite !Nat2Z.id. apply slice_append.
Qed.

Lemma substringFrom_tail (x z : string) (a : Z) :
  a = JS.len x -> JS.substringFrom (x ++ z) a = z.
Proof.
  intros ->. unfold JS.substringFrom.
  rewrite <- (append_nil_r z) at 1 2.
  apply substring_middle; [reflexivity|].
  rewrite !len_append. change (JS.len "") with 0. lia.
Qed.

(** ** Sentences of the grammar *)

Lemma hasUpper_append (x y : string) : hasUpper (x ++ y) = hasUpper x || hasUpper y.
Proof.
  induction x as [|c x IH]; simpl; [reflexivity|]. now rewrite IH, orb_assoc.
Qed.

Lemma isWord_inv (w : string) :
  isWord w = true -> solid w = true /\ hasUpper w = false /\ w <> "".
Proof.
  unfold isWord. rewrite !andb_true_iff, !negb_true_iff.
  intros [[Hs Hu] Hn]. apply String.eqb_neq in Hn. auto.
Qed.

Lemma wellFormed_inv (a c d k : string) (date : option string) :
  wellFormed a c d k date = true ->
  isWord a = true /\ isWord c = true /\ isWord d = true /\ isWord k = true
  /\ match date with
     | Some dateStr => isWord dateStr = true
     | None => True
     end
  /\ String.eqb "on" a = false /\ String.eqb "on" c = false
  /\ String.eqb "on" d = false /\ String.eqb "on" k = false
  /\ String.prefix "account" c = false.
Proof.
  unfold wellFormed. rewrite !andb_true_iff, !negb_true_iff.
  intros H. decompose [and] H. repeat split; try assumption.
  destruct date; [assumption|exact I].
Qed.

(** A string that [trimEnd] leaves alone and that is not empty. *)
Lemma endsSolid_word (w : string) :
  solid w = true -> w <> "" -> JS.trimEnd w = w /\ w <> "".
Proof. intros Hw Hne. split; [now apply trimEnd_solid|assumption]. Qed.

Lemma endsSolid_append (x r : string) :
  JS.trimEnd r = r /\ r <> "" -> JS.trimEnd (x ++ r) = x ++ r /\ x ++ r <> "".
Proof.
  intros [Hr Hne]. split; [now apply trimEnd_append|now apply append_not_nil].
Qed.

Lemma dateClause_endsSolid (date : option string) (k : string) :
  isWord k = true ->
  match date with
  | Some dateStr => isWord dateStr = true
  | None => True
  end ->
  JS.trimEnd (dateClause date k) = dateClause date k /\ dateClause date k <> "".
Proof.
  intros Hk Hdate. apply isWord_inv in Hk. destruct Hk as (Hk & _ & Hkn).
  destruct date as [dt|]; unfold dateClause.
  - apply isWord_inv in Hdate. destruct Hdate as (Hd & _ & Hdn).
    apply (endsSolid_append k), (endsSolid_append " "),
      (endsSolid_append "on"), (endsSolid_append " ").
    now apply endsSolid_word.
  - now apply endsSolid_word.
Qed.

Lemma dateClause_lower (date : option string) (k : string) :
  isWord k = true ->
  match date with
  | Some dateStr => isWord dateStr = true
  | None => True
  end ->
  hasUpper (dateClause date k) = false.
Proof.
  intros Hk Hdate. apply isWord_inv in Hk. destruct Hk as (_ & Hk & _).
  destruct date as [dt|]; unfold dateClause; [|assumption].
  apply isWord_inv in Hdate. destruct Hdate as (_ & Hd & _).
  rewrite !hasUpper_append, Hk, Hd. reflexivity.
Qed.

(** A sentence of well-formed tokens is its own normal form. *)
Lemma debitText_normal (a c d k : string) (date : option string) :
  wellFormed a c d k date = true ->
  JS.trim (JS.toLowerCase (debitText a c d k date)) = debitText a c d k date.
Proof.
  intros H. apply wellFormed_inv in H.
  destruct H as (Ha & Hc & Hd & Hk & Hdate & _).
  pose proof (dateClause_lower date k Hk Hdate) as Hlow.
  pose proof (dateClause_endsSolid date k Hk Hdate) as Hend.
  apply isWord_inv in Ha, Hc, Hd.
  destruct Ha as (_ & Ha & _), Hc as (_ & Hc & _), Hd as (_ & Hd & _).
  rewrite toLowerCase_fixed.
  - unfold JS.trim. rewrite trimStart_of_clean by (vm_compute; reflexivity).
    unfold debitText. repeat apply endsSolid_append. exact Hend.
  - unfold debitText. rewrite !hasUpper_append, Ha, Hc, Hd, Hlow. reflexivity.
Qed.

Lemma creditText_normal (a c d k : string) (date : option string) :
  wellFormed a c d k date = true ->
  JS.trim (JS.toLowerCase (creditText a c d k date)) = creditText a c d k date.
Proof.
  intros H. apply wellFormed_inv in H.
  destruct H as (Ha & Hc & Hd & Hk & Hdate & _).
  pose proof (dateClause_lower date d Hd Hdate) as Hlow.
  pose proof (dateClause_endsSolid date d Hd Hdate) as Hend.
  apply isWord_inv in Ha, Hc, Hk.
  destruct Ha as (_ & Ha & _), Hc as (_ & Hc & _), Hk as (_ & Hk & _).
  rewrite toLowerCase_fixed.
  - unfold JS.trim. rewrite trimStart_of_clean by (vm_compute; reflexivity).
    unfold creditText. repeat apply endsSolid_append. exact Hend.
  - unfold creditText. rewrite !hasUpper_append, Ha, Hc, Hk, Hlow. reflexivity.
Qed.

(** Where the search over a sentence stands after a word. *)
Ltac anchor_side :=
  first
    [ apply andb_false_intro2; reflexivity
    | apply andb_false_intro1; reflexivity
    | apply andb_false_intro1; rewrite prefix_solid by reflexivity; assumption
    | apply andb_false_intro1;
      rewrite (prefix_word "credit" "to account") by (reflexivity || assumption);
      apply andb_false_intro2; reflexivity
    | apply andb_false_intro1;
      rewrite (prefix_word "debit" "from account") by (reflexivity || assumption);
      apply andb_false_intro2; reflexivity
    | apply andb_false_intro1;
      rewrite (prefix_word "on" "") by (reflexivity || assumption);
      apply andb_false_intro1; assumption
    | apply andb_false_intro1;
      apply (prefix_last_word "on" ""); [reflexivity|assumption] ].

Ltac skip_word p1 p2 :=
  rewrite (indexOfFrom_skip p1 p2);
  [ | reflexivity | first [reflexivity | assumption] | anchor_side ].

Lemma indexOfFrom_found_at_space (p2 w rest : string) (i : Z) :
  solid w = true ->
  String.prefix p2 rest = true ->
  JS.indexOfFrom (w ++ " " ++ rest) (" " ++ p2) i = i + JS.len w.
Proof.
  revert i. induction w as [|c w IH]; intros i Hw Hrest.
  - change ("" ++ " " ++ rest) with (String " " rest).
    change (" " ++ p2) with (String " " p2).
    cbn [JS.indexOfFrom]. rewrite prefix_cons, Hrest. simpl. unfold JS.len. simpl. lia.
  - apply solid_cons in Hw. destruct Hw as [Hc Hw].
    change (String c w ++ " " ++ rest) with (String c (w ++ " " ++ rest)).
    change (" " ++ p2) with (String " " p2).
    cbn [JS.indexOfFrom].
    rewrite prefix_cons, Ascii.eqb_sym, (solid_not_space c Hc).
    change (String " " p2) with (" " ++ p2).
    rewrite IH by assumption. rewrite len_cons. lia.
Qed.

Lemma debitText_from (a c d k : string) (date : option string) :
  wellFormed a c d k date = true ->
  JS.indexOf (debitText a c d k date) "from account" = 8 + JS.len a + JS.len c.
Proof.
  intros Hwf. apply wellFormed_inv in Hwf.
  destruct Hwf as (Ha & Hc & Hd & Hk & Hdate & Hona & Honc & Hond & Honk & Hacc).
  apply isWord_inv in Ha, Hc, Hd, Hk.
  destruct Ha as (Ha & _), Hc as (Hc & _), Hd as (Hd & _), Hk as (Hk & _).
  unfold JS.indexOf, debitText.
  change "from account" with ("from" ++ " " ++ "account").
  do 3 skip_word "from" "account".
  rewrite indexOfFrom_found by reflexivity.
  change (JS.len "debit") with 5. lia.
Qed.

Lemma debitText_for (a c d k : string) (date : option string) :
  wellFormed a c d k date = true ->
  JS.indexOf (debitText a c d k date) "for credit to account"
  = 22 + JS.len a + JS.len c + JS.len d.
Proof.
  intros Hwf. apply wellFormed_inv in Hwf.
  destruct Hwf as (Ha & Hc & Hd & Hk & Hdate & Hona & Honc & Hond & Honk & Hacc).
  apply isWord_inv in Ha, Hc, Hd, Hk.
  destruct Ha as (Ha & _), Hc as (Hc & _), Hd as (Hd & _), Hk as (Hk & _).
  unfold JS.indexOf, debitText.
  change "for credit to account" with ("for" ++ " " ++ "credit to account").
  do 6 skip_word "for" "credit to account".
  rewrite indexOfFrom_found by reflexivity.
  change (JS.len "debit") with 5. change (JS.len "from") with 4.
  change (JS.len "account") with 7. lia.
Qed.

Lemma debitText_on (a c d k : string) (date : option string) :
  wellFormed a c d k date = true ->
  JS.indexOf (debitText a c d k date) " on "
  = match date with
    | Some _ => 44 + JS.len a + JS.len c + JS.len d + JS.len k
    | None => -1
    end.
Proof.
  intros Hwf. apply wellFormed_inv in Hwf.
  destruct Hwf as (Ha & Hc & Hd & Hk & Hdate & Hona & Honc & Hond & Honk & Hacc).
  apply isWord_inv in Ha, Hc, Hd, Hk.
  destruct Ha as (Ha & _), Hc as (Hc & _), Hd as (Hd & _), Hk as (Hk & _).
  unfold JS.indexOf, debitText.
  change " on " with ("" ++ " " ++ "on ").
  do 9 skip_word "" "on ".
  destruct date as [dt|]; unfold dateClause; skip_word "" "on ".
  - change ("" ++ " " ++ "on ") with (" " ++ "on ").
    rewrite indexOfFrom_found_at_space;
      [ | assumption
        | rewrite (prefix_word "on" "") by reflexivity; now rewrite prefix_nil ].
    change (JS.len "debit") with 5. change (JS.len "from") with 4.
    change (JS.len "account") with 7. change (JS.len "for") with 3.
    change (JS.len "credit") with 6. change (JS.len "to") with 2. lia.
  - now apply indexOfFrom_last_word.
Qed.

Ltac literal_lengths :=
  rewrite ?len_append;
  change (JS.len "debit") with 5; change (JS.len "credit") with 6;
  change (JS.len "from") with 4; change (JS.len "account") with 7;
  change (JS.len "for") with 3; change (JS.len "to") with 2;
  change (JS.len "on") with 2; change (JS.len " ") with 1;
  change (JS.len "") with 0.

(** The slices parseInstruction takes out of a DEBIT sentence. *)
Lemma debitText_slices (a c d k : string) (date : option string) :
  JS.substring (debitText a c d k date) 5 (8 + JS.len a + JS.len c)
  = " " ++ (a ++ " " ++ c) ++ " "
  /\ JS.substring (debitText a c d k date) (8 + JS.len a + JS.len c + 12)
       (22 + JS.len a + JS.len c + JS.len d)
     = " " ++ d ++ " "
  /\ JS.substring (debitText a c d k None)
       (22 + JS.len a + JS.len c + JS.len d + 21)
       (JS.len (debitText a c d k None))
     = " " ++ k
  /\ forall dt : string,
       JS.substring (debitText a c d k (Some dt))
         (22 + JS.len a + JS.len c + JS.len d + 21)
         (44 + JS.len a + JS.len c + JS.len d + JS.len k)
       = " " ++ k
       /\ JS.substringFrom (debitText a c d k (Some dt))
            (44 + JS.len a + JS.len c + JS.len d + JS.len k + 4)
          = dt.
Proof.
  split; [|split; [|split; [|intros dt; split]]].
  - replace (debitText a c d k date)
      with ("debit" ++ (" " ++ (a ++ " " ++ c) ++ " ")
            ++ "from" ++ " " ++ "account" ++ " " ++ d ++ " "
            ++ "for" ++ " " ++ "credit" ++ " " ++ "to" ++ " " ++ "account" ++ " "
            ++ dateClause date k)
      by (unfold debitText; rewrite !append_assoc; reflexivity).
    apply substring_middle; literal_lengths; lia.
  - replace (debitText a c d k date)
      with (("debit" ++ " " ++ a ++ " " ++ c ++ " " ++ "from" ++ " " ++ "account")
            ++ (" " ++ d ++ " ")
            ++ "for" ++ " " ++ "credit" ++ " " ++ "to" ++ " " ++ "account" ++ " "
            ++ dateClause date k)
      by (unfold debitText; rewrite !append_assoc; reflexivity).
    apply substring_middle; literal_lengths; lia.
  - replace (debitText a c d k None)
      with (("debit" ++ " " ++ a ++ " " ++ c ++ " " ++ "from" ++ " " ++ "account"
             ++ " " ++ d ++ " " ++ "for" ++ " " ++ "credit" ++ " " ++ "to" ++ " "
             ++ "account")
            ++ (" " ++ k) ++ "")
      by (unfold debitText, dateClause; rewrite !append_assoc, append_nil_r;
          reflexivity).
    apply substring_middle; literal_lengths; lia.
  - replace (debitText a c d k (Some dt))
      with (("debit" ++ " " ++ a ++ " " ++ c ++ " " ++ "from" ++ " " ++ "account"
             ++ " " ++ d ++ " " ++ "for" ++ " " ++ "credit" ++ " " ++ "to" ++ " "
             ++ "account")
            ++ (" " ++ k) ++ " " ++ "on" ++ " " ++ dt)
      by (unfold debitText, dateClause; rewrite !append_assoc; reflexivity).
    apply substring_middle; literal_lengths; lia.
  - replace (debitText a c d k (Some dt))
      with (("debit" ++ " " ++ a ++ " " ++ c ++ " " ++ "from" ++ " " ++ "account"
             ++ " " ++ d ++ " " ++ "for" ++ " " ++ "credit" ++ " " ++ "to" ++ " "
             ++ "account" ++ " " ++ k ++ " " ++ "on" ++ " ")
            ++ dt)
      by (unfold debitText, dateClause; rewrite !append_assoc; reflexivity).
    apply substringFrom_tail; literal_lengths; lia.
Qed.

Lemma tokens_of_pair (a c : string) :
  isWord a = true -> isWord c = true ->
  JS.trim (" " ++ (a ++ " " ++ c) ++ " ") = a ++ " " ++ c
  /\ JS.split (a ++ " " ++ c) = [a; c]
  /\ JS.trim a = a /\ JS.trim c = c.
Proof.
  intros Ha Hc. apply isWord_inv in Ha, Hc.
  destruct Ha as (Ha & _ & Han), Hc as (Hc & _ & Hcn).
  repeat split.
  - apply trim_padded.
    + apply startsClean_append; [assumption|now apply solid_startsClean].
    + apply (endsSolid_append a), (endsSolid_append " "). now apply endsSolid_word.
  - rewrite split_word by assumption. now rewrite split_solid.
  - now apply trim_solid.
  - now apply trim_solid.
Qed.

Lemma token_of_padding (w : string) :
  isWord w = true ->
  JS.trim (" " ++ w ++ " ") = w /\ JS.trim (" " ++ w) = w /\ JS.trim w = w.
Proof.
  intros Hw. apply isWord_inv in Hw. destruct Hw as (Hw & _ & Hn).
  repeat split.
  - apply trim_padded; [now apply solid_startsClean|now apply trimEnd_solid].
  - apply trim_left_padded; [now apply solid_startsClean|now apply trimEnd_solid].
  - now apply trim_solid.
Qed.

(** The scanner reads a DEBIT sentence back into its tokens. *)
Lemma parse_debitText (a c d k : string) (date : option string) :
  wellFormed a c d k date = true ->
  parseInstruction (debitText a c d k date)
  = ParseSuccess (Parsed.make DEBIT a (JS.toUpperCase c) d k date).
Proof.
  intros Hwf.
  pose proof (debitText_normal a c d k date Hwf) as Hnorm.
  pose proof (debitText_from a c d k date Hwf) as Hfrom.
  pose proof (debitText_for a c d k date Hwf) as Hfor.
  pose proof (debitText_on a c d k date Hwf) as Hon.
  pose proof (debitText_slices a c d k date) as (S1 & S2 & _).
  pose proof (debitText_slices a c d k date) as (_ & _ & S3 & S4).
  apply wellFormed_inv in Hwf.
  destruct Hwf as (Ha & Hc & Hd & Hk & Hdate & _).
  destruct (tokens_of_pair a c Ha Hc) as (T1 & T2 & T3 & T4).
  destruct (token_of_padding d Hd) as (Td & _ & _).
  destruct (token_of_padding k Hk) as (_ & Tk & _).
  pose proof (len_nonneg a). pose proof (len_nonneg c).
  pose proof (len_nonneg d). pose proof (len_nonneg k).
  unfold parseInstruction. cbv zeta. rewrite Hnorm, Hfrom, Hfor, Hon.
  change (JS.startsWith (debitText a c d k date) "debit") with true.
  change (JS.indexOf (debitText a c d k date) "debit") with 0.
  cbn [negb andb].
  replace (8 + JS.len a + JS.len c =? -1) with false by (symmetry; apply Z.eqb_neq; lia).
  replace (22 + JS.len a + JS.len c + JS.len d =? -1) with false
    by (symmetry; apply Z.eqb_neq; lia).
  replace (0 >=? 8 + JS.len a + JS.len c) with false
    by (symmetry; rewrite Z.geb_leb; apply Z.leb_gt; lia).
  replace (8 + JS.len a + JS.len c >=? 22 + JS.len a + JS.len c + JS.len d)
    with false by (symmetry; rewrite Z.geb_leb; apply Z.leb_gt; lia).
  cbn [orb]. change (0 + 5) with 5.
  rewrite S1, S2, T1, T2, Td. cbn [List.length nth]. rewrite T3, T4.
  change (Z.of_nat 2 <? 2) with false. cbv iota.
  destruct date as [dt|].
  - replace (44 + JS.len a + JS.len c + JS.len d + JS.len k =? -1) with false
      by (symmetry; apply Z.eqb_neq; lia).
    cbn [negb]. destruct (S4 dt) as [S5 S6]. rewrite S5, S6, Tk.
    destruct (token_of_padding dt Hdate) as (_ & _ & Tdt). rewrite Tdt.
    apply isWord_inv in Hdate. destruct Hdate as (_ & _ & Hne).
    destruct dt; [contradiction|reflexivity].
  - change (-1 =? -1) with true. cbn [negb]. rewrite S3, Tk. reflexivity.
Qed.

Lemma creditText_to (a c d k : string) (date : option string) :
  wellFormed a c d k date = true ->
  JS.indexOf (creditText a c d k date) "to account" = 9 + JS.len a + JS.len c.
Proof.
  intros Hwf. apply wellFormed_inv in Hwf.
  destruct Hwf as (Ha & Hc & Hd & Hk & Hdate & Hona & Honc & Hond & Honk & Hacc).
  apply isWord_inv in Ha, Hc, Hd, Hk.
  destruct Ha as (Ha & _), Hc as (Hc & _), Hd as (Hd & _), Hk as (Hk & _).
  unfold JS.indexOf, creditText.
  change "to account" with ("to" ++ " " ++ "account").
  do 3 skip_word "to" "account".
  rewrite indexOfFrom_found by reflexivity.
  change (JS.len "credit") with 6. lia.
Qed.

Lemma creditText_for (a c d k : string) (date : option string) :
  wellFormed a c d k date = true ->
  JS.indexOf (creditText a c d k date) "for debit from account"
  = 21 + JS.len a + JS.len c + JS.len k.
Proof.
  intros Hwf. apply wellFormed_inv in Hwf.
  destruct Hwf as (Ha & Hc & Hd & Hk & Hdate & Hona & Honc & Hond & Honk & Hacc).
  apply isWord_inv in Ha, Hc, Hd, Hk.
  destruct Ha as (Ha & _), Hc as (Hc & _), Hd as (Hd & _), Hk as (Hk & _).
  unfold JS.indexOf, creditText.
  change "for debit from account" with ("for" ++ " " ++ "debit from account").
  do 6 skip_word "for" "debit from account".
  rewrite indexOfFrom_found by reflexivity.
  change (JS.len "credit") with 6. change (JS.len "to") with 2.
  change (JS.len "account") with 7. lia.
Qed.

Lemma creditText_on (a c d k : string) (date : option string) :
  wellFormed a c d k date = true ->
  JS.indexOf (creditText a c d k date) " on "
  = match date with
    | Some _ => 44 + JS.len a + JS.len c + JS.len k + JS.len d
    | None => -1
    end.
Proof.
  intros Hwf. apply wellFormed_inv in Hwf.
  destruct Hwf as (Ha & Hc & Hd & Hk & Hdate & Hona & Honc & Hond & Honk & Hacc).
  apply isWord_inv in Ha, Hc, Hd, Hk.
  destruct Ha as (Ha & _), Hc as (Hc & _), Hd as (Hd & _), Hk as (Hk & _).
  unfold JS.indexOf, creditText.
  change " on " with ("" ++ " " ++ "on ").
  do 9 skip_word "" "on ".
  destruct date as [dt|]; unfold dateClause; skip_word "" "on ".
  - change ("" ++ " " ++ "on ") with (" " ++ "on ").
    rewrite indexOfFrom_found_at_space;
      [ | assumption
        | rewrite (prefix_word "on" "") by reflexivity; now rewrite prefix_nil ].
    change (JS.len "debit") with 5. change (JS.len "from") with 4.
    change (JS.len "account") with 7. change (JS.len "for") with 3.
    change (JS.len "credit") with 6. change (JS.len "to") with 2. lia.
  - now apply indexOfFrom_last_word.
Qed.

(** The slices parseInstruction takes out of a CREDIT sentence. *)
Lemma creditText_slices (a c d k : string) (date : option string) :
  JS.substring (creditText a c d k date) 6 (9 + JS.len a + JS.len c)
  = " " ++ (a ++ " " ++ c) ++ " "
  /\ JS.substring (creditText a c d k date) (9 + JS.len a + JS.len c + 10)
       (21 + JS.len a + JS.len c + JS.len k)
     = " " ++ k ++ " "
  /\ JS.substring (creditText a c d k None)
       (21 + JS.len a + JS.len c + JS.len k + 22)
       (JS.len (creditText a c d k None))
     = " " ++ d
  /\ forall dt : string,
       JS.substring (creditText a c d k (Some dt))
         (21 + JS.len a + JS.len c + JS.len k + 22)
         (44 + JS.len a + JS.len c + JS.len k + JS.len d)
       = " " ++ d
       /\ JS.substringFrom (creditText a c d k (Some dt))
            (44 + JS.len a + JS.len c + JS.len k + JS.len d + 4)
          = dt.
Proof.
  split; [|split; [|split; [|intros dt; split]]].
  - replace (creditText a c d k date)
      with ("credit" ++ (" " ++ (a ++ " " ++ c) ++ " ")
            ++ "to" ++ " " ++ "account" ++ " " ++ k ++ " "
            ++ "for" ++ " " ++ "debit" ++ " " ++ "from" ++ " " ++ "account" ++ " "
            ++ dateClause date d)
      by (unfold creditText; rewrite !append_assoc; reflexivity).
    apply substring_middle; literal_lengths; lia.
  - replace (creditText a c d k date)
      with (("credit" ++ " " ++ a ++ " " ++ c ++ " " ++ "to" ++ " " ++ "account")
            ++ (" " ++ k ++ " ")
            ++ "for" ++ " " ++ "debit" ++ " " ++ "from" ++ " " ++ "account" ++ " "
            ++ dateClause date d)
      by (unfold creditText; rewrite !append_assoc; reflexivity).
    apply substring_middle; literal_lengths; lia.
  - replace (creditText a c d k None)
      with (("credit" ++ " " ++ a ++ " " ++ c ++ " " ++ "to" ++ " " ++ "account"
             ++ " " ++ k ++ " " ++ "for" ++ " " ++ "debit" ++ " " ++ "from" ++ " "
             ++ "account")
            ++ (" " ++ d) ++ "")
      by (unfold creditText, dateClause; rewrite !append_assoc, append_nil_r;
          reflexivity).
    apply substring_middle; literal_lengths; lia.
  - replace (creditText a c d k (Some dt))
      with (("credit" ++ " " ++ a ++ " " ++ c ++ " " ++ "to" ++ " " ++ "account"
             ++ " " ++ k ++ " " ++ "for" ++ " " ++ "debit" ++ " " ++ "from" ++ " "
             ++ "account")
            ++ (" " ++ d) ++ " " ++ "on" ++ " " ++ dt)
      by (unfold creditText, dateClause; rewrite !append_assoc; reflexivity).
    apply substring_middle; literal_lengths; lia.
  - replace (creditText a c d k (Some dt))
      with (("credit" ++ " " ++ a ++ " " ++ c ++ " " ++ "to" ++ " " ++ "account"
             ++ " " ++ k ++ " " ++ "for" ++ " " ++ "debit" ++ " " ++ "from" ++ " "
             ++ "account" ++ " " ++ d ++ " " ++ "on" ++ " ")
            ++ dt)
      by (unfold creditText, dateClause; rewrite !append_assoc; reflexivity).
    apply substringFrom_tail; literal_lengths; lia.
Qed.

(** The scanner reads a CREDIT sentence back into its tokens. *)
Lemma parse_creditText (a c d k : string) (date : option string) :
  wellFormed a c d k date = true ->
  parseInstruction (creditText a c d k date)
  = ParseSuccess (Parsed.make CREDIT a (JS.toUpperCase c) d k date).
Proof.
  intros Hwf.
  pose proof (creditText_normal a c d k date Hwf) as Hnorm.
  pose proof (creditText_to a c d k date Hwf) as Hto.
  pose proof (creditText_for a c d k date Hwf) as Hfor.
  pose proof (creditText_on a c d k date Hwf) as Hon.
  pose proof (creditText_slices a c d k date) as (S1 & S2 & _).
  pose proof (creditText_slices a c d k date) as (_ & _ & S3 & S4).
  apply wellFormed_inv in Hwf.
  destruct Hwf as (Ha & Hc & Hd & Hk & Hdate & _).
  destruct (tokens_of_pair a c Ha Hc) as (T1 & T2 & T3 & T4).
  destruct (token_of_padding k Hk) as (Tk & _ & _).
  destruct (token_of_padding d Hd) as (_ & Td & _).
  pose proof (len_nonneg a). pose proof (len_nonneg c).
  pose proof (len_nonneg d). pose proof (len_nonneg k).
  unfold parseInstruction. cbv zeta. rewrite Hnorm, Hto, Hfor, Hon.
  change (JS.startsWith (creditText a c d k date) "debit") with false.
  change (JS.startsWith (creditText a c d k date) "credit") with true.
  change (JS.indexOf (creditText a c d k date) "credit") with 0.
  cbn [negb andb].
  replace (9 + JS.len a + JS.len c =? -1) with false by (symmetry; apply Z.eqb_neq; lia).
  replace (21 + JS.len a + JS.len c + JS.len k =? -1) with false
    by (symmetry; apply Z.eqb_neq; lia).
  replace (0 >=? 9 + JS.len a + JS.len c) with false
    by (symmetry; rewrite Z.geb_leb; apply Z.leb_gt; lia).
  replace (9 + JS.len a + JS.len c >=? 21 + JS.len a + JS.len c + JS.len k)
    with false by (symmetry; rewrite Z.geb_leb; apply Z.leb_gt; lia).
  cbn [orb]. change (0 + 6) with 6.
  rewrite S1, S2, T1, T2, Tk. cbn [List.length nth]. rewrite T3, T4.
  change (Z.of_nat 2 <? 2) with false. cbv iota.
  destruct date as [dt|].
  - replace (44 + JS.len a + JS.len c + JS.len k + JS.len d =? -1) with false
      by (symmetry; apply Z.eqb_neq; lia).
    cbn [negb]. destruct (S4 dt) as [S5 S6]. rewrite S5, S6, Td.
    destruct (token_of_padding dt Hdate) as (_ & _ & Tdt). rewrite Tdt.
    apply isWord_inv in Hdate. destruct Hdate as (_ & _ & Hne).
    destruct dt; [contradiction|reflexivity].
  - change (-1 =? -1) with true. cbn [negb]. rewrite S3, Td. reflexivity.
Qed.

(** ** The grammar, read back *)

(** A sentence of the grammar, DEBIT or CREDIT, with or without a date,
    written with well-formed tokens in ASCII, is read back by the scanner
    into exactly those tokens, the currency in capitals; so is the sentence
    in capitals. *)
Theorem grammar_is_read_back (a c d k : string) (date : option string) :
  asciiTokens a c d k date = true ->
  wellFormed a c d k date = true ->
  parseInstruction (debitText a c d k date)
  = ParseSuccess (Parsed.make DEBIT a (JS.toUpperCase c) d k date)
  /\ parseInstruction (creditText a c d k date)
     = ParseSuccess (Parsed.make CREDIT a (JS.toUpperCase c) d k date)
  /\ parseInstruction (JS.toUpperCase (debitText a c d k date))
     = ParseSuccess (Parsed.make DEBIT a (JS.toUpperCase c) d k date)
  /\ parseInstruction (JS.toUpperCase (creditText a c d k date))
     = ParseSuccess (Parsed.make CREDIT a (JS.toUpperCase c) d k date).
Proof.
  intros _ Hwf.
  assert (Hcase : forall s : string,
             parseInstruction (JS.toUpperCase s) = parseInstruction s).
  { intros s. unfold parseInstruction. now rewrite toLowerCase_toUpperCase. }
  rewrite !Hcase.
  repeat split; first [now apply parse_debitText | now apply parse_creditText].
Qed.

Lemma grammar_is_read_back_witness :
  parseInstruction (debitText "500" "ngn" "a1" "a2" (Some "2999-01-01"))
  = ParseSuccess (Parsed.make DEBIT "500" "NGN" "a1" "a2" (Some "2999-01-01"))
  /\ parseInstruction (creditText "500" "ngn" "a1" "a2" (Some "2999-01-01"))
     = ParseSuccess (Parsed.make CREDIT "500" "NGN" "a1" "a2" (Some "2999-01-01")).
Proof.
  destruct (grammar_is_read_back "500" "ngn" "a1" "a2" (Some "2999-01-01")
              eq_refl eq_refl)
    as (Hd & Hc & _).
  split; assumption.
Defined.

(** The two formats say the same thing: a DEBIT sentence and the CREDIT
    sentence with the same tokens get the same response but for its type. *)
Theorem formats_are_equivalent (clock : Clock) (accounts : list Account.t)
  (a c d k : string) (date : option string) :
  wellFormed a c d k date = true ->
  Response.type
    (parseInstructionService clock (request accounts (debitText a c d k date)))
  = Some DEBIT
  /\ Response.type
       (parseInstructionService clock (request accounts (creditText a c d k date)))
     = Some CREDIT
  /\ sameButType
       (parseInstructionService clock (request accounts (debitText a c d k date)))
       (parseInstructionService clock (request accounts (creditText a c d k date))).
Proof.
  intros Hwf. unfold sameButType.
  unfold parseInstructionService, request. simpl ServiceData.instruction.
  simpl ServiceData.accounts.
  rewrite (parse_debitText a c d k date Hwf), (parse_creditText a c d k date Hwf).
  cbv zeta. cbn [Parsed.amount Parsed.currency Parsed.debit_account
                 Parsed.credit_account Parsed.execute_by].
  repeat match goal with
         | |- context [match ?x with _ => _ end] => destruct x
         end; repeat split; reflexivity.
Qed.

Lemma formats_are_equivalent_witness :
  sameButType
    (parseInstructionService noDates
       (request a1a2 (debitText "500" "ngn" "a1" "a2" None)))
    (parseInstructionService noDates
       (request a1a2 (creditText "500" "ngn" "a1" "a2" None))).
Proof.
  apply (formats_are_equivalent noDates a1a2 "500" "ngn" "a1" "a2" None eq_refl).
Defined.

(** ** Valid transfers are carried out *)

(** A DEBIT sentence without a date, in ASCII as the currencies of the
    accounts are, for an amount that validateAmount accepts, in a supported
    currency, between two different accounts of the request that hold that
    currency, the first of them holding at least the amount, is executed:
    the response is successful with AP00 and shows the resolver's view with
    the amount moved. *)
Theorem valid_transfer_is_executed (clock : Clock) (accounts : list Account.t)
  (a : string) (n : Z) (c d k : string) (debit credit : Account.t) :
  validateAmount a = Some n ->
  asciiTokens a c d k None = true ->
  asciiCurrencies accounts = true ->
  wellFormed a c d k None = true ->
  unsupported (JS.toUpperCase c) = false ->
  findAccount accounts d = Some debit ->
  findAccount accounts k = Some credit ->
  d <> k ->
  JS.toUpperCase (Account.currency debit) = JS.toUpperCase c ->
  JS.toUpperCase (Account.currency credit) = JS.toUpperCase c ->
  (inject_Z n <= Account.balance debit)%Q ->
  parseInstructionService clock (request accounts (debitText a c d k None))
  = Response.make (Some DEBIT) (Some n) (Some (JS.toUpperCase c)) (Some d) (Some k)
      None successful PaymentMessages.TRANSACTION_SUCCESSFUL AP00
      (updated debit credit n (getAccountsInOrder accounts (Some d) (Some k))).
Proof.
  intros Hn _ _ Hwf Hsup Hd Hk Hdk Hcd Hck Hfunds.
  assert (Hreach : reachesDateStage
                     (request accounts (debitText a c d k None))
                     (Parsed.make DEBIT a (JS.toUpperCase c) d k None)
                     n debit credit).
  { unfold reachesDateStage, request. simpl ServiceData.instruction.
    simpl ServiceData.accounts.
    cbn [Parsed.amount Parsed.currency Parsed.debit_account Parsed.credit_account].
    rewrite toUpperCase_idem.
    repeat split; try assumption.
    - now apply parse_debitText.
    - rewrite (findAccount_id _ _ _ Hd), (findAccount_id _ _ _ Hk). exact Hdk.
    - congruence.
    - congruence. }
  rewrite (service_at_date_stage clock _ _ _ _ _ Hreach). cbv zeta.
  cbn [Parsed.execute_by Parsed.debit_account Parsed.credit_account
       Parsed.currency negb andb].
  replace (Qltb (Account.balance debit) (inject_Z n)) with false.
  - unfold respond, request.
    cbn [Parsed.type Parsed.execute_by Parsed.debit_account
         Parsed.credit_account Parsed.currency].
    now rewrite toUpperCase_idem.
  - symmetry. destruct (Qltb (Account.balance debit) (inject_Z n)) eqn:E;
      [|reflexivity].
    apply Qltb_lt in E. exfalso. now apply (Qlt_not_le _ _ E).
Qed.

Lemma valid_transfer_is_executed_witness :
  Response.status
    (parseInstructionService noDates
       (request a1a2 (debitText "500" "ngn" "a1" "a2" None)))
  = successful
  /\ Response.accounts
       (parseInstructionService noDates
          (request a1a2 (debitText "500" "ngn" "a1" "a2" None)))
     = [AccountView.make "a1" (inject_Z 500) (inject_Z 1000) "NGN";
        AccountView.make "a2" (inject_Z 700) (inject_Z 200) "NGN"].
Proof.
  rewrite (valid_transfer_is_executed noDates a1a2 "500" 500 "ngn" "a1" "a2"
             (acct "a1" 1000 "NGN") (acct "a2" 200 "NGN"));
    try (vm_compute; reflexivity).
  - split; vm_compute; reflexivity.
  - discriminate.
  - vm_compute. discriminate.
Defined.

(** ** Amounts at the limits of doubles *)

(** An accepted amount is written in one way only.  2^53 is accepted and
    the integer after it, which is no double, is not; beyond 2^53 an
    accepted string may stand for a value that its digits do not spell;
    10^20 is accepted and 10^21, which toString writes 1e+21, is not. *)
Theorem amounts_are_doubles :
  (forall (s t : string) (n : Z),
      validateAmount s = Some n -> validateAmount t = Some n -> s = t)
  /\ validateAmount "9007199254740992" = Some 9007199254740992
  /\ validateAmount "9007199254740993" = None
  /\ validateAmount "1152921504606847000" = Some 1152921504606846976
  /\ validateAmount "1152921504606846976" = None
  /\ validateAmount "100000000000000000000" = Some (10 ^ 20)
  /\ validateAmount "1000000000000000000000" = None.
Proof.
  split.
  - intros s t n Hs Ht.
    apply validateAmount_sound in Hs, Ht.
    destruct Hs as (_ & _ & _ & _ & _ & Hs), Ht as (_ & _ & _ & _ & _ & Ht).
    congruence.
  - repeat split; vm_compute; reflexivity.
Qed.
